(** * Build status resolver (blinkpy/tool/commands/build_resolver.py)

    A shallow embedding of [BuildResolver] and of the two module-level
    helpers [_build_sort_key] and [_shard_interrupted], followed by the
    properties of the resolver that the design document states.

    Conventions of the embedding:
    - Buildbucket responses are protobuf messages rendered as JSON, so the
      typed part of a raw build is a record whose fields are optional (a
      field that the service omits is a missing dictionary key); the free-form
      parts ([output.properties] and the Swarming summary) are JSON values;
    - a Python exception is a value of [exn], and fallible code returns
      an [outcome];
    - the mutable collaborators (Buildbucket request queue, trigger calls,
      the logger) are fields of an explicit [World] that is threaded through
      the methods, also when they raise;
    - a Python [dict] is an association list in insertion order, a [set] of
      strings a duplicate-free list;
    - strings are byte strings; [\w], [str.isdigit] and [int(str)] are read
      over ASCII, and the numbers of a JSON document are integers;
    - the replies of the remote services are functions of the request. *)

From Stdlib Require Import List String Ascii ZArith Bool Arith Lia.
From Stdlib Require Import Permutation Sorted DecimalString.
From Stdlib Require OrderedTypeEx.
Import ListNotations.
Local Open Scope string_scope.
Local Open Scope list_scope.

Set Implicit Arguments.
Set Warnings "-register-all".

(** ** Python values, exceptions *)

Inductive json : Type :=
| JNull
| JBool (b : bool)
| JInt (z : Z)
| JStr (s : string)
| JList (l : list json)
| JDict (d : list (string * json)).

(** The subclasses of [requests.exceptions.RequestException] that a GET
    followed by [.json()] raises: transport failures, and
    [requests.exceptions.JSONDecodeError] on a body that is not JSON (it
    derives from [InvalidJSONError], itself a [RequestException]). *)
Inductive RequestError : Type :=
| ConnectionError
| Timeout
| JSONDecodeError
| OtherRequestError (name : string).

Inductive exn : Type :=
| KeyError (key : string)
| AttributeError
| TypeError
| ValueError
| AssertionError
| RequestException (sub : RequestError)
| UnresolvedBuildException (message : string)
| RPCError (what : string).

Inductive outcome (A : Type) : Type :=
| Ok (a : A)
| Raise (e : exn).
Arguments Raise {A} e.

Definition rbind {A B} (r : outcome A) (k : A -> outcome B) : outcome B :=
  match r with
  | Ok a => k a
  | Raise e => Raise e
  end.

Declare Scope outcome_scope.
Delimit Scope outcome_scope with outcome.
Notation "x <- r ;; k" := (rbind r (fun x => k))
  (at level 61, r at next level, right associativity) : outcome_scope.

(** [isinstance(e, RequestException)], the test of
    [contextlib.suppress(RequestException)]. *)
Definition is_RequestException (e : exn) : bool :=
  match e with
  | RequestException _ => true
  | _ => false
  end.

(** ** Dictionaries and the few Python built-ins the resolver uses *)

Fixpoint lookup {A} (k : string) (d : list (string * A)) : option A :=
  match d with
  | [] => None
  | (k', v) :: d' => if String.eqb k k' then Some v else lookup k d'
  end.

(** [bool(v)]. *)
Definition truthy (v : json) : bool :=
  match v with
  | JNull => false
  | JBool b => b
  | JInt z => negb (Z.eqb z 0)
  | JStr s => negb (String.eqb s "")
  | JList l => match l with [] => false | _ => true end
  | JDict d => match d with [] => false | _ => true end
  end.

(** [v.get(key, default)]: only a [dict] has the method. *)
Definition py_get (v : json) (key : string) (default : json) : outcome json :=
  match v with
  | JDict d => Ok (match lookup key d with Some x => x | None => default end)
  | _ => Raise AttributeError
  end.

(** [iter(v)] as [map] and [any] consume it. *)
Definition py_iter (v : json) : outcome (list json) :=
  match v with
  | JList l => Ok l
  | JDict d => Ok (map (fun kv => JStr (fst kv)) d)
  | JStr s => Ok (map (fun c => JStr (String c EmptyString)) (list_ascii_of_string s))
  | _ => Raise TypeError
  end.

(** [hash(v)] is defined for every JSON value but lists and objects. *)
Definition hashable (v : json) : bool :=
  match v with
  | JList _ | JDict _ => false
  | _ => true
  end.

(** [a == b] on hashable values ([True == 1] in Python). *)
Definition scalar_eqb (a b : json) : bool :=
  match a, b with
  | JNull, JNull => true
  | JBool x, JBool y => Bool.eqb x y
  | JInt x, JInt y => Z.eqb x y
  | JBool x, JInt y | JInt y, JBool x => Z.eqb (if x then 1 else 0) y
  | JStr x, JStr y => String.eqb x y
  | _, _ => false
  end.

(** [v in {...}] for a set display of hashable members. *)
Definition in_set (v : json) (members : list json) : outcome bool :=
  if hashable v then Ok (existsb (scalar_eqb v) members) else Raise TypeError.

(** *** [int(str)] *)

Definition is_space (c : ascii) : bool :=
  let n := nat_of_ascii c in
  ((9 <=? n) && (n <=? 13) || (n =? 32))%nat.

Definition digit_of (c : ascii) : option Z :=
  let n := nat_of_ascii c in
  if ((48 <=? n) && (n <=? 57))%nat then Some (Z.of_nat (n - 48)) else None.

Fixpoint drop_space (s : list ascii) : list ascii :=
  match s with
  | c :: s' => if is_space c then drop_space s' else s
  | [] => []
  end.

Definition strip (s : list ascii) : list ascii :=
  rev (drop_space (rev (drop_space s))).

(** Digits, with single underscores allowed between two digits.
    [after_digit] tells whether the previous character was a digit. *)
Fixpoint digits (s : list ascii) (acc : Z) (after_digit : bool) : option Z :=
  match s with
  | [] => if after_digit then Some acc else None
  | c :: s' =>
      match digit_of c with
      | Some d => digits s' (10 * acc + d)%Z true
      | None =>
          if (Ascii.eqb c "_" && after_digit)%bool
          then match s' with
               | c' :: _ => match digit_of c' with
                            | Some _ => digits s' acc false
                            | None => None
                            end
               | [] => None
               end
          else None
      end
  end.

Definition int_of_str (s : string) : option Z :=
  match strip (list_ascii_of_string s) with
  | "-"%char :: ds => option_map Z.opp (digits ds 0%Z false)
  | "+"%char :: ds => digits ds 0%Z false
  | ds => digits ds 0%Z false
  end.

(** [int(v)]. *)
Definition py_int (v : json) : outcome Z :=
  match v with
  | JInt z => Ok z
  | JBool b => Ok (if b then 1 else 0)%Z
  | JStr s => match int_of_str s with Some z => Ok z | None => Raise ValueError end
  | _ => Raise TypeError
  end.

(** [str.isdigit()]. *)
Definition isdigit (s : string) : bool :=
  match list_ascii_of_string s with
  | [] => false
  | cs => forallb (fun c => match digit_of c with Some _ => true | None => false end) cs
  end.

(** ** Regular expressions, matched with derivatives ([Pattern.fullmatch]) *)

Inductive regex : Type :=
| Void
| Eps
| Chr (p : ascii -> bool)
| Cat (r s : regex)
| Alt (r s : regex)
| Star (r : regex).

Fixpoint nullable (r : regex) : bool :=
  match r with
  | Void => false
  | Eps => true
  | Chr _ => false
  | Cat r s => nullable r && nullable s
  | Alt r s => nullable r || nullable s
  | Star _ => true
  end.

Definition cat (r s : regex) : regex :=
  match r, s with
  | Void, _ | _, Void => Void
  | Eps, _ => s
  | _, _ => Cat r s
  end.

Definition alt (r s : regex) : regex :=
  match r, s with
  | Void, _ => s
  | _, Void => r
  | _, _ => Alt r s
  end.

Fixpoint deriv (c : ascii) (r : regex) : regex :=
  match r with
  | Void | Eps => Void
  | Chr p => if p c then Eps else Void
  | Cat r s => alt (cat (deriv c r) s) (if nullable r then deriv c s else Void)
  | Alt r s => alt (deriv c r) (deriv c s)
  | Star r' => cat (deriv c r') r
  end.

Definition fullmatch (r : regex) (s : string) : bool :=
  nullable (fold_left (fun r c => deriv c r) (list_ascii_of_string s) r).

Fixpoint lit (s : string) : regex :=
  match s with
  | EmptyString => Eps
  | String c s' => Cat (Chr (Ascii.eqb c)) (lit s')
  end.

(** [\w] *)
Definition word_char (c : ascii) : bool :=
  let n := nat_of_ascii c in
  ((48 <=? n) && (n <=? 57) || (65 <=? n) && (n <=? 90)
   || (97 <=? n) && (n <=? 122) || (n =? 95))%nat.

(** [[\w_-]*(webdriver|blink_(web|wpt))_tests.*\(with patch\)[^|]*] *)
Definition run_web_tests_pattern : regex :=
  Cat (Star (Chr (fun c => word_char c || Ascii.eqb c "_" || Ascii.eqb c "-")))
 (Cat (Alt (lit "webdriver") (Cat (lit "blink_") (Alt (lit "web") (lit "wpt"))))
 (Cat (lit "_tests")
 (Cat (Star (Chr (fun c => negb (Ascii.eqb c "010"))))
 (Cat (lit "(with patch)")
      (Star (Chr (fun c => negb (Ascii.eqb c "|")))))))).


(** ** Data model *)

(** A raw build as Buildbucket returns it under the field mask
    [_build_fields]. [None] stands for a key that the response lacks. *)
Record Log : Type := {
  log_name : option string;
  log_viewUrl : option string
}.

Record Step : Type := {
  step_name : option string;
  step_logs : option (list Log)
}.

Record BuilderID : Type := {
  builder_builder : option string;
  builder_bucket : option string
}.

Record Output : Type := {
  output_properties : option (list (string * json))
}.

Record RawBuild : Type := {
  raw_id : option string;
  raw_number : option Z;
  raw_builder : option BuilderID;
  raw_status : option string;
  raw_output : option Output;
  raw_steps : option (list Step)
}.

(** [d[key]] and [d.get(key, default)] on the typed records. *)
Definition getitem {A} (key : string) (field : option A) : outcome A :=
  match field with
  | Some a => Ok a
  | None => Raise (KeyError key)
  end.

Definition get_or {A} (field : option A) (default : A) : A :=
  match field with
  | Some a => a
  | None => default
  end.

(** Modelled from the spec: the identifier type [Build] of
    [blinkpy.common.net.rpc], a named tuple of builder name, optional build
    number, optional internal id and bucket; equality is field-wise, and
    [Build(name)] leaves number and id unset in the try bucket. *)
Record Build : Type := {
  builder_name : string;
  build_number : option Z;
  build_id : option string;
  bucket : string
}.

Definition Build_of_builder (name : string) : Build :=
  {| builder_name := name; build_number := None; build_id := None;
     bucket := "try" |}.

(** Modelled from the spec: [TryJobStatus] of [blinkpy.common.net.git_cl],
    a pair of status code and optional result. *)
Record TryJobStatus : Type := {
  status : string;
  result : option string
}.

Definition option_eqb {A} (eqb : A -> A -> bool) (x y : option A) : bool :=
  match x, y with
  | Some a, Some b => eqb a b
  | None, None => true
  | _, _ => false
  end.

Definition Build_eqb (a b : Build) : bool :=
  String.eqb a.(builder_name) b.(builder_name)
  && option_eqb Z.eqb a.(build_number) b.(build_number)
  && option_eqb String.eqb a.(build_id) b.(build_id)
  && String.eqb a.(bucket) b.(bucket).

Definition TryJobStatus_eqb (a b : TryJobStatus) : bool :=
  String.eqb a.(status) b.(status)
  && option_eqb String.eqb a.(result) b.(result).

(** *** Dictionaries keyed by [Build], in insertion order *)

Section BuildDict.
Context {V : Type}.

Definition dict : Type := list (Build * V).

Fixpoint dict_get (k : Build) (d : dict) : option V :=
  match d with
  | [] => None
  | (k', v) :: d' => if Build_eqb k k' then Some v else dict_get k d'
  end.

(** [d[k] = v]: an existing key keeps its place. *)
Fixpoint dict_set (k : Build) (v : V) (d : dict) : dict :=
  match d with
  | [] => [(k, v)]
  | (k', v') :: d' =>
      if Build_eqb k k' then (k', v) :: d' else (k', v') :: dict_set k v d'
  end.

(** [d.update(other)]. *)
Definition dict_update (d other : dict) : dict :=
  fold_left (fun acc kv => dict_set (fst kv) (snd kv) acc) other d.

Definition keys (d : dict) : list Build := map fst d.
Definition values (d : dict) : list V := map snd d.
End BuildDict.
Arguments dict V : clear implicits.

Definition BuildStatuses : Type := dict TryJobStatus.

(** *** Sets of builder names *)

Definition set_mem (x : string) (s : list string) : bool :=
  existsb (String.eqb x) s.

Definition set_add (x : string) (s : list string) : list string :=
  if set_mem x s then s else s ++ [x].

Definition set_diff (s t : list string) : list string :=
  filter (fun x => negb (set_mem x t)) s.

(** ** The collaborators of the resolver *)

(** A queued Buildbucket request ([add_get_build_req],
    [add_search_builds_req]). *)
Record Predicate : Type := {
  predicate_builder : list (string * string);
  predicate_status : string
}.

Inductive BBRequest : Type :=
| GetBuild (build : Build) (build_fields : list string)
| SearchBuilds (predicate : Predicate) (build_fields : list string) (count : nat).

(** [self._web]: the reply to [session.get(url, params={'format': 'raw'})]
    followed by [.json()]. *)
Record Web : Type := {
  session_get_json : string -> outcome json
}.

(** [self._git_cl]. The replies of the remote services are functions of the
    request; [bb_round_trip] is the single round trip behind
    [bb_client.execute_batch()]. *)
Record GitCL : Type := {
  get_issue_number : string;
  latest_try_jobs : string -> list string -> option Z -> outcome BuildStatuses;
  trigger_reply : list string -> outcome unit;
  bb_round_trip : list BBRequest -> outcome (list RawBuild)
}.

(** An [Executor]: the order in which the pool runs the [n] tasks handed to
    [Executor.map], every task once. *)
Record Executor : Type := {
  run_order : nat -> list nat;
  run_order_complete : forall n, Permutation (run_order n) (seq 0 n)
}.

Record BuildResolver : Type := {
  _web : Web;
  _git_cl : GitCL;
  _io_pool : option Executor;
  _can_trigger_jobs : bool
}.

(** *** The mutable world *)

Inductive Level : Type := INFO | WARNING.

(** One call of [_log.info(msg, *args)] or [_log.warning(msg, *args)]. *)
Record LogRecord : Type := {
  levelname : Level;
  msg : string;
  args : list string
}.

Record World : Type := {
  bb_requests : list BBRequest;
  trigger_calls : list (list string);
  log : list LogRecord
}.

Definition M (A : Type) : Type := World -> outcome A * World.

Definition ret {A} (a : A) : M A := fun w => (Ok a, w).
Definition raise {A} (e : exn) : M A := fun w => (Raise e, w).
Definition lift {A} (r : outcome A) : M A := fun w => (r, w).

Definition bind {A B} (m : M A) (k : A -> M B) : M B :=
  fun w =>
    match m w with
    | (Ok a, w') => k a w'
    | (Raise e, w') => (Raise e, w')
    end.

Declare Scope M_scope.
Delimit Scope M_scope with M.
Notation "x <- m ;; k" := (bind m (fun x => k))
  (at level 61, m at next level, right associativity) : M_scope.
Notation "m ;; k" := (bind m (fun _ => k))
  (at level 61, right associativity) : M_scope.

Definition add_get_build_req (build : Build) (build_fields : list string) : M unit :=
  fun w =>
    (Ok tt, {| bb_requests := w.(bb_requests) ++ [GetBuild build build_fields];
               trigger_calls := w.(trigger_calls); log := w.(log) |}).

Definition add_search_builds_req (predicate : Predicate)
    (build_fields : list string) (count : nat) : M unit :=
  fun w =>
    (Ok tt, {| bb_requests :=
                 w.(bb_requests) ++ [SearchBuilds predicate build_fields count];
               trigger_calls := w.(trigger_calls); log := w.(log) |}).

(** Modelled from the spec: [execute_batch] of the Buildbucket client runs
    everything queued as one round trip and returns the raw records in
    request order; with nothing queued it returns the empty list and makes
    no call. The queue is single-use. *)
Definition execute_batch (git_cl : GitCL) : M (list RawBuild) :=
  fun w =>
    match w.(bb_requests) with
    | [] => (Ok [], w)
    | reqs => (git_cl.(bb_round_trip) reqs,
               {| bb_requests := []; trigger_calls := w.(trigger_calls);
                  log := w.(log) |})
    end.

Definition trigger_try_jobs (git_cl : GitCL) (builders : list string) : M unit :=
  fun w =>
    (git_cl.(trigger_reply) builders,
     {| bb_requests := w.(bb_requests);
        trigger_calls := w.(trigger_calls) ++ [builders]; log := w.(log) |}).

Definition emit (l : Level) (m : string) (a : list string) : M unit :=
  fun w =>
    (Ok tt, {| bb_requests := w.(bb_requests);
               trigger_calls := w.(trigger_calls);
               log := w.(log) ++ [{| levelname := l; msg := m; args := a |}] |}).

Definition _log_info := emit INFO.
Definition _log_warning := emit WARNING.

(** ** Module-level helpers *)

Definition dquote : string := String (ascii_of_nat 34) EmptyString.

(** [str(n)] *)
Definition str_of_Z (n : Z) : string := NilZero.string_of_int (Z.to_int n).
Definition str_of_nat (n : nat) : string := NilZero.string_of_uint (Nat.to_uint n).

(** [build.build_number or 0] and [str(build.build_number or '--')]. *)
Definition number_or_0 (n : option Z) : Z :=
  match n with
  | Some z => z
  | None => 0
  end.

Definition number_or_dashes (n : option Z) : string :=
  match n with
  | Some z => if Z.eqb z 0 then "--" else str_of_Z z
  | None => "--"
  end.

(** [if build.build_number:] *)
Definition has_number (n : option Z) : bool :=
  match n with
  | Some z => negb (Z.eqb z 0)
  | None => false
  end.

Definition _build_sort_key (build : Build) : string * Z :=
  (build.(builder_name), number_or_0 build.(build_number)).

(** Comparison of the key tuples, first component first. *)
Definition key_le (a b : string * Z) : bool :=
  match String.compare (fst a) (fst b) with
  | Lt => true
  | Eq => Z.leb (snd a) (snd b)
  | Gt => false
  end.

(** [sorted(xs, key=key)]: the sort is stable, so its result is the one of
    insertion from the right, each element going before the first one whose
    key is not smaller. *)
Section Sorted.
Context {A : Type} (key : A -> string * Z).

Fixpoint insert (x : A) (l : list A) : list A :=
  match l with
  | [] => [x]
  | y :: l' => if key_le (key x) (key y) then x :: l else y :: insert x l'
  end.

Fixpoint sorted (l : list A) : list A :=
  match l with
  | [] => []
  | x :: l' => insert x (sorted l')
  end.
End Sorted.

Section Resolver.
(** Names of [blinkpy] that the resolver imports and whose definitions are
    outside this file's sources: [TryJobStatus.from_bb_status], the
    tuple [exit_codes.ERROR_CODES], [GitCL.filter_incomplete],
    [grammar.pluralize] and [str] of a [CLRevisionID]. *)
Variable from_bb_status : string -> outcome TryJobStatus.
Variable ERROR_CODES : list Z.
Variable filter_incomplete : BuildStatuses -> list Build.
Variable pluralize : string -> nat -> string.
Variable CLRevisionID_str : Z -> option Z -> string.

Local Open Scope outcome_scope.

Definition TRIGGERED : TryJobStatus :=
  {| status := "TRIGGERED"; result := None |}.

Definition MISSING : TryJobStatus :=
  {| status := "MISSING"; result := None |}.

Definition _build_fields : list string :=
  ["id"; "number"; "builder.builder"; "builder.bucket"; "status";
   "output.properties"; "steps.*.name"; "steps.*.logs.*.name";
   "steps.*.logs.*.view_url"].

Definition _builder_predicate (build : Build) : list (string * string) :=
  [("project", "chromium"); ("bucket", build.(bucket));
   ("builder", build.(builder_name))].

Definition _shard_interrupted (shard : json) : outcome bool :=
  code <- py_get shard "exit_code" (JInt 0) ;;
  n <- py_int code ;;
  Ok (existsb (Z.eqb n) ERROR_CODES).

(** [any(map(f, xs))]: stops at the first true, raises at the first
    element on which [f] raises before that. *)
Fixpoint any_map (f : json -> outcome bool) (xs : list json) : outcome bool :=
  match xs with
  | [] => Ok false
  | x :: xs' => b <- f x ;; if b : bool then Ok true else any_map f xs'
  end.

(** The loop of [_fetch_swarming_summary] over [step.get('logs', [])];
    [JNull] is the final [return None]. A suppressed exception leaves the
    [with] block and the loop goes on with the next log. *)
Fixpoint _fetch_swarming_summary_logs (web : Web) (logs : list Log)
    (log_name_wanted : string) : outcome json :=
  match logs with
  | [] => Ok JNull
  | log :: logs' =>
      name <- getitem "name" log.(log_name) ;;
      if String.eqb name log_name_wanted
      then match (url <- getitem "viewUrl" log.(log_viewUrl) ;;
                  web.(session_get_json) url) with
           | Ok summary => Ok summary
           | Raise e =>
               if is_RequestException e
               then _fetch_swarming_summary_logs web logs' log_name_wanted
               else Raise e
           end
      else _fetch_swarming_summary_logs web logs' log_name_wanted
  end.

Definition _fetch_swarming_summary (self : BuildResolver) (step : Step)
    : outcome json :=
  _fetch_swarming_summary_logs self.(_web) (get_or step.(step_logs) [])
    "chromium_swarming.summary".

(** The [for step in raw_build.get('steps', [])] loop of
    [_status_if_interrupted]: [true] when the loop returns from inside. *)
Fixpoint steps_interrupted (self : BuildResolver) (steps : list Step)
    : outcome bool :=
  match steps with
  | [] => Ok false
  | step :: steps' =>
      name <- getitem "name" step.(step_name) ;;
      if fullmatch run_web_tests_pattern name
      then summary <- _fetch_swarming_summary self step ;;
           shards <- py_get (if truthy summary then summary else JDict [])
                            "shards" (JList []) ;;
           shards <- py_iter shards ;;
           interrupted <- any_map _shard_interrupted shards ;;
           if interrupted : bool then Ok true else steps_interrupted self steps'
      else steps_interrupted self steps'
  end.

Definition failure_type_of (raw_build : RawBuild) : json :=
  let output_props :=
    get_or (get_or raw_build.(raw_output) {| output_properties := None |})
             .(output_properties) [] in
  get_or (lookup "failure_type" output_props) JNull.

Definition _status_if_interrupted (self : BuildResolver) (raw_build : RawBuild)
    : outcome TryJobStatus :=
  test_or_none <- in_set (failure_type_of raw_build)
                         [JNull; JStr "TEST_FAILURE"] ;;
  if negb test_or_none
  then from_bb_status "INFRA_FAILURE"
  else interrupted <- steps_interrupted self (get_or raw_build.(raw_steps) []) ;;
       if interrupted : bool
       then from_bb_status "INFRA_FAILURE"
       else bb_status <- getitem "status" raw_build.(raw_status) ;;
            from_bb_status bb_status.

(** *** [_build_statuses_from_responses] *)

Fixpoint find_done {B} (i : nat) (done : list (nat * B)) : option B :=
  match done with
  | [] => None
  | (j, b) :: done' => if Nat.eqb i j then Some b else find_done i done'
  end.

(** [Executor.map(f, xs)]: the pool runs the tasks in its own order, the
    returned iterator yields the results in the order of [xs]. *)
Definition record_task {A B} (f : A -> outcome B) (xs : list A)
    (done : list (nat * outcome B)) (i : nat) : list (nat * outcome B) :=
  match nth_error xs i with
  | Some x => (i, f x) :: done
  | None => done
  end.

Definition pool_map {A B} (pool : Executor) (f : A -> outcome B) (xs : list A)
    : list (outcome B) :=
  let done :=
    fold_left (record_task f xs) (pool.(run_order) (List.length xs)) [] in
  map (fun i => match find_done i done with
                | Some r => r
                | None => Raise (RPCError "task never ran")
                end)
      (seq 0 (List.length xs)).

Definition map_fn {A B} (self : BuildResolver) (f : A -> outcome B)
    (xs : list A) : list (outcome B) :=
  match self.(_io_pool) with
  | Some pool => pool_map pool f xs
  | None => map f xs
  end.

Definition Build_of_raw (build : RawBuild) : outcome Build :=
  builder <- getitem "builder" build.(raw_builder) ;;
  name <- getitem "builder" builder.(builder_builder) ;;
  number <- getitem "number" build.(raw_number) ;;
  id <- getitem "id" build.(raw_id) ;;
  bucket <- getitem "bucket" builder.(builder_bucket) ;;
  Ok {| builder_name := name; build_number := Some number;
        build_id := Some id; bucket := bucket |}.

(** The dict comprehension over [zip(raw_builds, statuses)]: the next
    status is taken first, then the key is built. *)
Fixpoint statuses_dict (pairs : list (RawBuild * outcome TryJobStatus))
    (acc : BuildStatuses) : outcome BuildStatuses :=
  match pairs with
  | [] => Ok acc
  | (build, st) :: pairs' =>
      st <- st ;;
      key <- Build_of_raw build ;;
      statuses_dict pairs' (dict_set key st acc)
  end.

Definition _build_statuses_from_responses (self : BuildResolver)
    (raw_builds : list RawBuild) : outcome BuildStatuses :=
  let statuses := map_fn self (_status_if_interrupted self) raw_builds in
  statuses_dict (combine raw_builds statuses) [].
(** *** [fetch_or_trigger_try_jobs] *)

Local Open Scope M_scope.

Definition set_of_list (xs : list string) : list string :=
  fold_left (fun s x => set_add x s) xs [].

Definition is_empty {A} (l : list A) : bool :=
  match l with
  | [] => true
  | _ => false
  end.

Definition add_placeholders (builders : list string)
    (placeholder_status : TryJobStatus) (build_statuses : BuildStatuses)
    : BuildStatuses :=
  fold_left (fun d builder => dict_set (Build_of_builder builder)
                                       placeholder_status d)
            builders build_statuses.

Definition no_issue_message : string := "No issue number for current branch.".

Definition aborted_message : string :=
  "Aborted: no try jobs and '--no-trigger-jobs' or '--dry-run' passed.".

Definition fetch_or_trigger_try_jobs (self : BuildResolver)
    (builders : list string) (patchset : option Z) : M BuildStatuses :=
  let issue_number := self.(_git_cl).(get_issue_number) in
  if negb (isdigit issue_number)
  then raise (UnresolvedBuildException no_issue_message)
  else
    let cl := CLRevisionID_str (get_or (int_of_str issue_number) 0%Z) patchset in
    _log_info ("Fetching status for "
               ++ pluralize "build" (List.length builders)
               ++ " from " ++ cl ++ ".") [] ;;
    build_statuses <-
      lift (self.(_git_cl).(latest_try_jobs) issue_number builders patchset) ;;
    if is_empty build_statuses && negb self.(_can_trigger_jobs)
    then raise (UnresolvedBuildException aborted_message)
    else
      let builders_without_results :=
        set_diff (set_of_list builders)
                 (map builder_name (keys build_statuses)) in
      if self.(_can_trigger_jobs) && negb (is_empty builders_without_results)
      then trigger_try_jobs self.(_git_cl) builders_without_results ;;
           ret (add_placeholders builders_without_results TRIGGERED
                                 build_statuses)
      else ret (add_placeholders builders_without_results MISSING
                                 build_statuses).

(** *** Logging *)

(** The loop runs over the items in the sorted order of their keys: the
    source sorts the keys and looks each one up again. *)
Definition _log_build_statuses (build_statuses : dict string) : M unit :=
  if is_empty build_statuses then raise AssertionError
  else
    let builder_names := map builder_name (keys build_statuses) in
    let name_column_width :=
      fold_left Nat.max (map String.length builder_names) 20%nat in
    let template :=
      ("  %-" ++ str_of_nat name_column_width ++ "s %-7s %-9s %-6s")%string in
    _log_info template ["BUILDER"; "NUMBER"; "STATUS"; "BUCKET"] ;;
    fold_left
      (fun (m : M unit) (item : Build * string) =>
         m ;;
         _log_info template
           [(fst item).(builder_name);
            number_or_dashes (fst item).(build_number);
            snd item;
            (fst item).(bucket)])
      (sorted (fun item => _build_sort_key (fst item)) build_statuses)
      (ret tt).

Definition _warn_about_incomplete_results (build_statuses : BuildStatuses)
    : M unit :=
  let builds_with_incomplete_results := filter_incomplete build_statuses in
  if is_empty builds_with_incomplete_results then ret tt
  else
    _log_warning "Some builds have incomplete results:" [] ;;
    fold_left
      (fun (m : M unit) (build : Build) =>
         m ;;
         _log_warning ("  " ++ dquote ++ "%s" ++ dquote ++ " build %s")
           [build.(builder_name); number_or_dashes build.(build_number)])
      (sorted _build_sort_key builds_with_incomplete_results)
      (ret tt) ;;
    _log_warning "Examples of incomplete results include:" [] ;;
    _log_warning "  * Shard terminated the harness after timing out." [] ;;
    _log_warning "  * Harness exited early due to excessive unexpected failures." [] ;;
    _log_warning "  * Build failed on a non-test step." [] ;;
    _log_warning "Please consider retrying the failed builders or giving the builders more shards." [] ;;
    _log_warning "See https://chromium.googlesource.com/chromium/src/+/HEAD/docs/testing/web_test_expectations.md#handle-bot-timeouts" [].

Definition result_or_dashes (r : option string) : string :=
  match r with
  | Some s => if String.eqb s "" then "--" else s
  | None => "--"
  end.

Definition dict_mem {V} (k : Build) (d : dict V) : bool :=
  match dict_get k d with
  | Some _ => true
  | None => false
  end.

Definition log_builds (build_statuses : BuildStatuses) : M unit :=
  _warn_about_incomplete_results build_statuses ;;
  let finished_builds : dict string :=
    dict_update []
      (map (fun item => (fst item, result_or_dashes (snd item).(result)))
           (filter (fun item => String.eqb (snd item).(status) "COMPLETED")
                   build_statuses)) in
  if Nat.eqb (List.length finished_builds) (List.length build_statuses)
  then _log_info "All builds finished." []
  else
    (if negb (is_empty finished_builds)
     then _log_info "Finished builds:" [] ;;
          _log_build_statuses finished_builds
     else _log_info "No finished builds." []) ;;
    let unfinished_builds : dict string :=
      dict_update []
        (map (fun item => (fst item, (snd item).(status)))
             (filter (fun item =>
                        negb (dict_mem (fst item) finished_builds)
                        && negb (String.eqb (snd item).(status) "MISSING"))
                     build_statuses)) in
    if negb (is_empty unfinished_builds)
    then _log_info "Scheduled or started builds:" [] ;;
         _log_build_statuses unfinished_builds
    else ret tt.

(** *** [resolve_builds] *)

(** The first loop: requests with a number are queued as they come,
    try builders without one are collected, the others are searched for
    their latest failure. *)
Fixpoint partition_builds (builds : list Build)
    (try_builders_to_infer : list string) : M (list string) :=
  match builds with
  | [] => ret try_builders_to_infer
  | build :: builds' =>
      if has_number build.(build_number)
      then add_get_build_req build _build_fields ;;
           partition_builds builds' try_builders_to_infer
      else if String.eqb build.(bucket) "try"
      then partition_builds builds'
             (set_add build.(builder_name) try_builders_to_infer)
      else add_search_builds_req
             {| predicate_builder := _builder_predicate build;
                predicate_status := "FAILURE" |}
             _build_fields 1 ;;
           partition_builds builds' try_builders_to_infer
  end.

(** Re-request completed try builds. *)
Fixpoint rerequest_completed (items : list (Build * TryJobStatus)) : M unit :=
  match items with
  | [] => ret tt
  | (build, st) :: items' =>
      (if has_number build.(build_number)
          && String.eqb st.(status) "COMPLETED"
       then add_get_build_req build _build_fields
       else ret tt) ;;
      rerequest_completed items'
  end.

Definition pending_message : string :=
  "Once all pending try jobs have finished, please re-run the tool to fetch new results.".

(** [resolve_builds] up to the last update of [build_statuses]: the three
    kinds of requests, the inferred try builds and the batch. *)
Definition collect_build_statuses (self : BuildResolver) (builds : list Build)
    (patchset : option Z) : M BuildStatuses :=
  try_builders_to_infer <- partition_builds builds [] ;;
  build_statuses <-
    (if negb (is_empty try_builders_to_infer)
     then try_build_statuses <-
            fetch_or_trigger_try_jobs self try_builders_to_infer patchset ;;
          rerequest_completed try_build_statuses ;;
          ret (dict_update [] try_build_statuses)
     else ret []) ;;
  raw_builds <- execute_batch self.(_git_cl) ;;
  responses <- lift (_build_statuses_from_responses self raw_builds) ;;
  ret (dict_update build_statuses responses).

(** The rest of it: the summary, then the check for pending builds. *)
Definition resolve_builds (self : BuildResolver) (builds : list Build)
    (patchset : option Z) : M BuildStatuses :=
  build_statuses <- collect_build_statuses self builds patchset ;;
  (if negb (is_empty build_statuses)
   then log_builds build_statuses
   else ret tt) ;;
  if existsb (TryJobStatus_eqb TRIGGERED) (values build_statuses)
  then raise (UnresolvedBuildException pending_message)
  else ret build_statuses.
End Resolver.

(** ** Vocabulary of the design document *)

(** The exit code that [_shard_interrupted] reads off a shard. *)
Definition shard_exit_code (shard : json) : outcome Z :=
  (code <- py_get shard "exit_code" (JInt 0) ;; py_int code)%outcome.

(** The shards that the classifier iterates over, given a step's summary. *)
Definition shards_of_summary (summary : json) : outcome (list json) :=
  (shards <- py_get (if truthy summary then summary else JDict [])
                    "shards" (JList []) ;;
   py_iter shards)%outcome.

(** A step whose name matches the test-execution pattern and whose shard
    summary contains an exit code of the infrastructure-error set. *)
Definition step_reports_infra_exit_code (ERROR_CODES : list Z)
    (self : BuildResolver) (step : Step) : Prop :=
  exists name summary shards shard code,
    step.(step_name) = Some name
    /\ fullmatch run_web_tests_pattern name = true
    /\ _fetch_swarming_summary self step = Ok summary
    /\ shards_of_summary summary = Ok shards
    /\ In shard shards
    /\ shard_exit_code shard = Ok code
    /\ In code ERROR_CODES.

(** A step that the classifier can read: it has a name and, when the name
    matches, its summary was fetched (or is absent) and is an object whose
    shards all carry a readable exit code, explicit or defaulted. *)
Definition step_well_formed (self : BuildResolver) (step : Step) : Prop :=
  exists name,
    step.(step_name) = Some name
    /\ (fullmatch run_web_tests_pattern name = true ->
        exists summary shards,
          _fetch_swarming_summary self step = Ok summary
          /\ shards_of_summary summary = Ok shards
          /\ Forall (fun shard => exists code, shard_exit_code shard = Ok code)
                    shards).

(** A summary log whose fetch raises a [RequestException]. *)
Definition fetch_fails (web : Web) (log : Log) : bool :=
  match log.(log_name), log.(log_viewUrl) with
  | Some name, Some url =>
      String.eqb name "chromium_swarming.summary"
      && match web.(session_get_json) url with
         | Ok _ => false
         | Raise e => is_RequestException e
         end
  | _, _ => false
  end.






(** The world after the logger has taken some more records. *)
Definition log_append (w : World) (records : list LogRecord) : World :=
  {| bb_requests := w.(bb_requests); trigger_calls := w.(trigger_calls);
     log := w.(log) ++ records |}.

Definition info (m : string) (a : list string) : LogRecord :=
  {| levelname := INFO; msg := m; args := a |}.

Definition warning (m : string) (a : list string) : LogRecord :=
  {| levelname := WARNING; msg := m; args := a |}.

(** The table that [_log_build_statuses] writes: the header, then one row
    per build in the order of [sorted(build_statuses, key=_build_sort_key)]. *)
Definition table_template (build_statuses : dict string) : string :=
  ("  %-"
   ++ str_of_nat (fold_left Nat.max
                    (map String.length (map builder_name (keys build_statuses)))
                    20%nat)
   ++ "s %-7s %-9s %-6s")%string.

Definition table_row (template : string) (item : Build * string) : LogRecord :=
  info template
    [(fst item).(builder_name); number_or_dashes (fst item).(build_number);
     snd item; (fst item).(bucket)].

Definition sorted_items (build_statuses : dict string) : dict string :=
  sorted (fun item => _build_sort_key (fst item)) build_statuses.

Definition table (build_statuses : dict string) : list LogRecord :=
  info (table_template build_statuses) ["BUILDER"; "NUMBER"; "STATUS"; "BUCKET"]
  :: map (table_row (table_template build_statuses))
         (sorted_items build_statuses).

(** The order that [sorted(xs, key=key)] establishes. *)
Definition ordered_by {A} (key : A -> string * Z) (x y : A) : Prop :=
  key_le (key x) (key y) = true.

(** A table with two builds of one builder, one of them without a number. *)
Definition two_builds_of_linux_rel : dict string :=
  [({| builder_name := "linux-rel"; build_number := Some 5%Z;
       build_id := Some "8765"; bucket := "try" |}, "STARTED");
   (Build_of_builder "linux-rel", "TRIGGERED")].

(** The design document's reading of the order: among the builds of one
    builder, nothing with a number comes after a build without one. *)
Definition unnumbered_sort_last (builds : list Build) : Prop :=
  forall (i j : nat) (a b : Build),
    (i < j)%nat ->
    nth_error builds i = Some a ->
    nth_error builds j = Some b ->
    a.(builder_name) = b.(builder_name) ->
    has_number a.(build_number) = false ->
    has_number b.(build_number) = false.

(** What the code does instead: nothing without a number comes after a
    build with a positive number. *)
Definition unnumbered_sort_first (builds : list Build) : Prop :=
  forall (i j : nat) (a b : Build) (n : Z),
    (i < j)%nat ->
    nth_error builds i = Some a ->
    nth_error builds j = Some b ->
    a.(builder_name) = b.(builder_name) ->
    a.(build_number) = Some n ->
    (0 < n)%Z ->
    has_number b.(build_number) = true.

(** A request for a try builder that leaves the build number open. *)
Definition try_without_number (build : Build) : Prop :=
  has_number build.(build_number) = false /\ build.(bucket) = "try".

(** The set of builder names that such requests make the resolver infer. *)
Definition try_builder_names (builds : list Build) : list string :=
  fold_left (fun names build => set_add build.(builder_name) names) builds [].

(** The builders among [builders] for which [build_statuses] has no build. *)
Definition builders_without_builds (builders : list string)
    (build_statuses : BuildStatuses) : list string :=
  set_diff (set_of_list builders) (map builder_name (keys build_statuses)).

Definition placeholders (builders : list string) (st : TryJobStatus)
    : BuildStatuses :=
  map (fun builder => (Build_of_builder builder, st)) builders.

(** The world after one more call of [trigger_try_jobs]. *)
Definition trigger_append (w : World) (builders : list string) : World :=
  {| bb_requests := w.(bb_requests);
     trigger_calls := w.(trigger_calls) ++ [builders]; log := w.(log) |}.

(** The world after some more requests were queued. *)
Definition queue_append (w : World) (requests : list BBRequest) : World :=
  {| bb_requests := w.(bb_requests) ++ requests;
     trigger_calls := w.(trigger_calls); log := w.(log) |}.

(** A dictionary proper: no key twice. *)
Definition unique_keys {V} (d : dict V) : Prop := NoDup (keys d).

(** The records that [_warn_about_incomplete_results] and [log_builds]
    write, as functions of the statuses. *)
Definition warn_records (filter_incomplete : BuildStatuses -> list Build)
    (build_statuses : BuildStatuses) : list LogRecord :=
  match filter_incomplete build_statuses with
  | [] => []
  | incomplete =>
      warning "Some builds have incomplete results:" []
      :: map (fun build =>
                warning ("  " ++ dquote ++ "%s" ++ dquote ++ " build %s")
                  [build.(builder_name); number_or_dashes build.(build_number)])
             (sorted _build_sort_key incomplete)
      ++ [warning "Examples of incomplete results include:" [];
          warning "  * Shard terminated the harness after timing out." [];
          warning "  * Harness exited early due to excessive unexpected failures." [];
          warning "  * Build failed on a non-test step." [];
          warning "Please consider retrying the failed builders or giving the builders more shards." [];
          warning "See https://chromium.googlesource.com/chromium/src/+/HEAD/docs/testing/web_test_expectations.md#handle-bot-timeouts" []]
  end.

Definition finished_builds_of (build_statuses : BuildStatuses) : dict string :=
  dict_update []
    (map (fun item => (fst item, result_or_dashes (snd item).(result)))
         (filter (fun item => String.eqb (snd item).(status) "COMPLETED")
                 build_statuses)).

Definition unfinished_builds_of (build_statuses : BuildStatuses) : dict string :=
  dict_update []
    (map (fun item => (fst item, (snd item).(status)))
         (filter (fun item =>
                    negb (dict_mem (fst item) (finished_builds_of build_statuses))
                    && negb (String.eqb (snd item).(status) "MISSING"))
                 build_statuses)).

Definition summary_records (build_statuses : BuildStatuses) : list LogRecord :=
  if Nat.eqb (List.length (finished_builds_of build_statuses))
             (List.length build_statuses)
  then [info "All builds finished." []]
  else
    (if is_empty (finished_builds_of build_statuses)
     then [info "No finished builds." []]
     else info "Finished builds:" [] :: table (finished_builds_of build_statuses))
    ++ (if is_empty (unfinished_builds_of build_statuses)
        then []
        else info "Scheduled or started builds:" []
             :: table (unfinished_builds_of build_statuses)).

(** The line that [fetch_or_trigger_try_jobs] logs before it asks for the
    latest try jobs. *)
Definition fetching_record (pluralize : string -> nat -> string)
    (CLRevisionID_str : Z -> option Z -> string) (self : BuildResolver)
    (builders : list string) (patchset : option Z) : LogRecord :=
  info ("Fetching status for " ++ pluralize "build" (List.length builders)
        ++ " from "
        ++ CLRevisionID_str
             (get_or (int_of_str self.(_git_cl).(get_issue_number)) 0%Z) patchset
        ++ ".") [].

(** ** Instances for the examples *)

(** Modelled from the spec: [TryJobStatus.from_bb_status] of
    [blinkpy.common.net.git_cl], read off the design's data model: the
    status code is SCHEDULED, STARTED, INFRA_FAILURE or COMPLETED, and only
    COMPLETED carries a result, SUCCESS or FAILURE. *)
Definition example_from_bb_status (bb_status : string) : outcome TryJobStatus :=
  if String.eqb bb_status "SCHEDULED" || String.eqb bb_status "STARTED"
     || String.eqb bb_status "INFRA_FAILURE"
  then Ok {| status := bb_status; result := None |}
  else if String.eqb bb_status "SUCCESS" || String.eqb bb_status "FAILURE"
  then Ok {| status := "COMPLETED"; result := Some bb_status |}
  else Raise AssertionError.

(** Modelled from the spec: a fixed set of infrastructure-error exit codes
    for [exit_codes.ERROR_CODES] (interrupted, early exit, system
    dependencies, no tests, no devices, unexpected error). *)
Definition example_ERROR_CODES : list Z := [130; 251; 252; 253; 254; 255]%Z.

(** A log server with one readable summary, whose only shard was
    interrupted, and one summary that is not JSON. *)
Definition example_web : Web :=
  {| session_get_json := fun url =>
       if String.eqb url "https://logs.example/interrupted"
       then Ok (JDict [("shards",
                        JList [JDict [("exit_code", JStr "130");
                                      ("state", JStr "COMPLETED")]])])
       else if String.eqb url "https://logs.example/garbled"
       then Raise (RequestException JSONDecodeError)
       else Raise (RequestException ConnectionError) |}.

(** A change 5678 whose try builds are [found], and a Buildbucket that
    answers every batch with [raw_builds]. *)
Definition example_git_cl (found : BuildStatuses) (raw_builds : list RawBuild)
    : GitCL :=
  {| get_issue_number := "5678";
     latest_try_jobs := fun _ _ _ => Ok found;
     trigger_reply := fun _ => Ok tt;
     bb_round_trip := fun _ => Ok raw_builds |}.

Definition example_resolver_with (found : BuildStatuses)
    (raw_builds : list RawBuild) (can_trigger_jobs : bool) : BuildResolver :=
  {| _web := example_web; _git_cl := example_git_cl found raw_builds;
     _io_pool := None; _can_trigger_jobs := can_trigger_jobs |}.

Definition example_resolver : bool -> BuildResolver :=
  example_resolver_with [] [].

Definition example_pluralize (noun : string) (n : nat) : string :=
  str_of_nat n ++ " " ++ noun ++ (if Nat.eqb n 1 then "" else "s").

Definition example_CLRevisionID_str (issue : Z) (patchset : option Z) : string :=
  "https://crrev.com/c/" ++ str_of_Z issue
  ++ match patchset with
     | Some n => "/" ++ str_of_Z n
     | None => ""
     end.

Definition example_filter_incomplete (build_statuses : BuildStatuses)
    : list Build :=
  keys (filter (fun item => String.eqb (snd item).(status) "INFRA_FAILURE")
               build_statuses).

Definition mac_rel_77 : Build :=
  {| builder_name := "mac-rel"; build_number := Some 77%Z;
     build_id := Some "8001"; bucket := "try" |}.

Definition STARTED : TryJobStatus := {| status := "STARTED"; result := None |}.

Definition linux_rel (number : Z) : Build :=
  {| builder_name := "linux-rel"; build_number := Some number;
     build_id := None; bucket := "try" |}.

Definition raw_linux_rel (id : string) (number : Z) : RawBuild :=
  {| raw_id := Some id; raw_number := Some number;
     raw_builder := Some {| builder_builder := Some "linux-rel";
                            builder_bucket := Some "try" |};
     raw_status := Some "SUCCESS"; raw_output := None; raw_steps := None |}.

Definition example_step (url : string) : Step :=
  {| step_name := Some "blink_web_tests (with patch) on Ubuntu-22.04";
     step_logs := Some [{| log_name := Some "stdout";
                           log_viewUrl := Some "https://logs.example/stdout" |};
                        {| log_name := Some "chromium_swarming.summary";
                           log_viewUrl := Some url |}] |}.

Definition example_raw_build (failure_type : option json) (steps : list Step)
    : RawBuild :=
  {| raw_id := Some "8765"; raw_number := Some 12345%Z;
     raw_builder := Some {| builder_builder := Some "linux-rel";
                            builder_bucket := Some "try" |};
     raw_status := Some "FAILURE";
     raw_output :=
       Some {| output_properties :=
                 Some match failure_type with
                      | Some v => [("failure_type", v)]
                      | None => []
                      end |};
     raw_steps := Some steps |}.


Definition empty_world : World :=
  {| bb_requests := []; trigger_calls := []; log := [] |}.

(** ** Vocabulary for the rest of the resolver *)

(** A request that [resolve_builds] hands to the inference of try builds. *)
Definition needs_inference (build : Build) : bool :=
  negb (has_number build.(build_number)) && String.eqb build.(bucket) "try".

(** What the first loop of [resolve_builds] queues for one request. *)
Definition first_loop_requests (build : Build) : list BBRequest :=
  if has_number build.(build_number)
  then [GetBuild build _build_fields]
  else if String.eqb build.(bucket) "try"
  then []
  else [SearchBuilds {| predicate_builder := _builder_predicate build;
                        predicate_status := "FAILURE" |} _build_fields 1].

(** The request with a build number of 0 taken for no number at all. *)
Definition without_zero (build : Build) : Build :=
  if has_number build.(build_number)
  then build
  else {| builder_name := build.(builder_name); build_number := None;
          build_id := build.(build_id); bucket := build.(bucket) |}.

(** The width of the first column of the table. *)
Definition name_column_width (build_statuses : dict string) : nat :=
  fold_left Nat.max
    (map String.length (map builder_name (keys build_statuses))) 20%nat.

(** A log that is named and is not a summary, or whose summary cannot be
    fetched. *)
Definition skipped_log (web : Web) (log : Log) : Prop :=
  exists name,
    log.(log_name) = Some name
    /\ (name <> "chromium_swarming.summary" \/ fetch_fails web log = true).

(** A log that is named and is not a summary. *)
Definition other_log (log : Log) : Prop :=
  exists name,
    log.(log_name) = Some name /\ name <> "chromium_swarming.summary".

(** A step that gives the classifier nothing to fetch: its name does not
    match, or none of its logs is a summary. *)
Definition step_without_summary (step : Step) : Prop :=
  exists name,
    step.(step_name) = Some name
    /\ (fullmatch run_web_tests_pattern name = false
        \/ Forall other_log (get_or step.(step_logs) [])).

(** A shard that is read and found not interrupted. *)
Definition shard_passes (ERROR_CODES : list Z) (shard : json) : Prop :=
  _shard_interrupted ERROR_CODES shard = Ok false.

(** The requests of the second loop of [resolve_builds]: the try builds of
    the CL that have a number and are completed. *)
Definition rerequests (items : BuildStatuses) : list BBRequest :=
  flat_map (fun item : Build * TryJobStatus =>
              if has_number (build_number (fst item))
                 && String.eqb (status (snd item)) "COMPLETED"
              then [GetBuild (fst item) _build_fields]
              else [])
           items.

(** The builds of each table of [log_builds], told by their status. *)
Definition finished_rows (build_statuses : BuildStatuses) : dict string :=
  map (fun item => (fst item, result_or_dashes (result (snd item))))
      (filter (fun item => String.eqb (status (snd item)) "COMPLETED")
              build_statuses).

Definition pending_rows (build_statuses : BuildStatuses) : dict string :=
  map (fun item => (fst item, status (snd item)))
      (filter (fun item =>
                 negb (String.eqb (status (snd item)) "COMPLETED")
                 && negb (String.eqb (status (snd item)) "MISSING"))
              build_statuses).

(** The line that [_warn_about_incomplete_results] writes for one build. *)
Definition incomplete_record (build : Build) : LogRecord :=
  warning ("  " ++ dquote ++ "%s" ++ dquote ++ " build %s")
    [build.(builder_name); number_or_dashes build.(build_number)].

(** ** Instances for the further examples *)

Definition stdout_log : Log :=
  {| log_name := Some "stdout";
     log_viewUrl := Some "https://logs.example/stdout" |}.

Definition summary_log (url : string) : Log :=
  {| log_name := Some "chromium_swarming.summary"; log_viewUrl := Some url |}.

Definition unnamed_log : Log := {| log_name := None; log_viewUrl := None |}.

(** A step of the build that runs no web tests. *)
Definition compile_step : Step :=
  {| step_name := Some "compile (with patch)"; step_logs := Some [stdout_log] |}.

Definition unnamed_step : Step := {| step_name := None; step_logs := None |}.

(** A log server that answers every request with [summary]. *)
Definition resolver_with_summary (summary : json) : BuildResolver :=
  {| _web := {| session_get_json := fun _ => Ok summary |};
     _git_cl := example_git_cl [] []; _io_pool := None;
     _can_trigger_jobs := false |}.

Definition passed_shard : json :=
  JDict [("exit_code", JStr "0"); ("state", JStr "COMPLETED")].

Definition interrupted_shard : json :=
  JDict [("exit_code", JStr "130"); ("state", JStr "COMPLETED")].

(** A raw build like [raw_linux_rel] with another reported status. *)
Definition raw_linux_rel_with (id : string) (number : Z) (bb_status : option string)
    : RawBuild :=
  {| raw_id := Some id; raw_number := Some number;
     raw_builder := Some {| builder_builder := Some "linux-rel";
                            builder_bucket := Some "try" |};
     raw_status := bb_status; raw_output := None; raw_steps := None |}.

(** A raw build that came back without its number. *)
Definition raw_without_number : RawBuild :=
  {| raw_id := Some "8003"; raw_number := None;
     raw_builder := Some {| builder_builder := Some "linux-rel";
                            builder_bucket := Some "try" |};
     raw_status := Some "SUCCESS"; raw_output := None; raw_steps := None |}.

(** A branch without a change: the issue number reads None. *)
Definition resolver_without_issue : BuildResolver :=
  {| _web := example_web;
     _git_cl := {| get_issue_number := "None";
                   latest_try_jobs := fun _ _ _ => Ok [];
                   trigger_reply := fun _ => Ok tt;
                   bb_round_trip := fun _ => Ok [] |};
     _io_pool := None; _can_trigger_jobs := true |}.

(** A resolver whose CL services all fail, with the Buildbucket of
    [example_git_cl]. *)
Definition resolver_with_broken_CL (raw_builds : list RawBuild) : BuildResolver :=
  {| _web := example_web;
     _git_cl := {| get_issue_number := "";
                   latest_try_jobs := fun _ _ _ => Raise (RPCError "unavailable");
                   trigger_reply := fun _ => Raise (RPCError "unavailable");
                   bb_round_trip := fun _ => Ok raw_builds |};
     _io_pool := None; _can_trigger_jobs := true |}.

Definition linux_rel_5 : Build :=
  {| builder_name := "linux-rel"; build_number := Some 5%Z;
     build_id := Some "8001"; bucket := "try" |}.

Definition linux_rel_6 : Build :=
  {| builder_name := "linux-rel"; build_number := Some 6%Z;
     build_id := Some "8002"; bucket := "try" |}.

Definition SUCCESS : TryJobStatus :=
  {| status := "COMPLETED"; result := Some "SUCCESS" |}.

Definition FAILURE : TryJobStatus :=
  {| status := "COMPLETED"; result := Some "FAILURE" |}.

(** * Properties *)

Unset Implicit Arguments.

Section Classifier.
Variable from_bb_status : string -> outcome TryJobStatus.
Variable ERROR_CODES : list Z.

Local Abbreviation status_if_interrupted :=
  (_status_if_interrupted from_bb_status ERROR_CODES).
Local Abbreviation shard_interrupted := (_shard_interrupted ERROR_CODES).

Lemma scalar_eqb_JNull (v : json) : v <> JNull -> scalar_eqb v JNull = false.
Proof. destruct v; simpl; congruence. Qed.

Lemma scalar_eqb_JStr (v : json) (s : string) :
  v <> JStr s -> scalar_eqb v (JStr s) = false.
Proof.
  destruct v; simpl; try reflexivity.
  intros H. apply String.eqb_neq. congruence.
Qed.

(** C1. A raw build whose [output.properties.failure_type] is present and
    is neither null nor ["TEST_FAILURE"] is classified as
    [from_bb_status('INFRA_FAILURE')], whatever its steps (and the rest of
    the record) contain. The value is one Python can hash, as the set
    membership test of the classifier needs. *)
Theorem C1_failure_type_is_infra_failure
    (self : BuildResolver) (raw_build : RawBuild) (out : Output)
    (props : list (string * json)) (failure_type : json) :
  raw_build.(raw_output) = Some out ->
  out.(output_properties) = Some props ->
  lookup "failure_type" props = Some failure_type ->
  failure_type <> JNull ->
  failure_type <> JStr "TEST_FAILURE" ->
  hashable failure_type = true ->
  status_if_interrupted self raw_build = from_bb_status "INFRA_FAILURE".
Proof.
  intros Hout Hprops Hft Hnull Htest Hhash.
  unfold _status_if_interrupted, failure_type_of.
  rewrite Hout; simpl. rewrite Hprops; simpl. rewrite Hft; simpl.
  unfold in_set. rewrite Hhash. simpl.
  rewrite (scalar_eqb_JNull _ Hnull), (scalar_eqb_JStr _ _ Htest).
  reflexivity.
Qed.

(** *** Shards *)

Lemma shard_interrupted_code (shard : json) (code : Z) :
  shard_exit_code shard = Ok code ->
  shard_interrupted shard = Ok (existsb (Z.eqb code) ERROR_CODES).
Proof.
  unfold shard_exit_code, _shard_interrupted.
  destruct (py_get shard "exit_code" (JInt 0)) as [v|e]; simpl; [|discriminate].
  destruct (py_int v) as [n|e]; simpl; [|discriminate].
  intros H; injection H as ->. reflexivity.
Qed.

Lemma existsb_Zeqb_In (code : Z) (l : list Z) :
  existsb (Z.eqb code) l = true <-> In code l.
Proof.
  rewrite existsb_exists. split.
  - intros [x [Hin Heq]]. apply Z.eqb_eq in Heq. now subst.
  - intros Hin. exists code. split; [assumption | apply Z.eqb_refl].
Qed.

(** On readable shards, [any(map(_shard_interrupted, shards))] is true
    exactly when one of the exit codes is an error code. *)
Lemma any_map_readable (shards : list json) :
  Forall (fun shard => exists code, shard_exit_code shard = Ok code) shards ->
  (any_map shard_interrupted shards = Ok true
   /\ exists shard code, In shard shards /\ shard_exit_code shard = Ok code
                         /\ In code ERROR_CODES)
  \/ (any_map shard_interrupted shards = Ok false
      /\ forall shard code, In shard shards -> shard_exit_code shard = Ok code
                            -> ~ In code ERROR_CODES).
Proof.
  induction 1 as [|shard shards [code Hcode] _ IH]; simpl.
  - right. split; [reflexivity | intros ? ? []].
  - rewrite (shard_interrupted_code _ _ Hcode). simpl.
    destruct (existsb (Z.eqb code) ERROR_CODES) eqn:Hex.
    + left. split; [reflexivity|].
      exists shard, code. rewrite existsb_Zeqb_In in Hex. auto.
    + destruct IH as [[-> (sh & c & Hin & Hc & Herr)] | [-> Hnone]].
      * left. split; [reflexivity|]. exists sh, c. auto.
      * right. split; [reflexivity|].
        intros sh c [<- | Hin] Hc.
        -- rewrite Hcode in Hc. injection Hc as <-.
           rewrite <- existsb_Zeqb_In. congruence.
        -- eauto.
Qed.
(** *** Steps *)

Lemma steps_interrupted_step (self : BuildResolver) (step : Step)
    (steps : list Step) (name : string) (summary : json) (shards : list json) :
  step.(step_name) = Some name ->
  fullmatch run_web_tests_pattern name = true ->
  _fetch_swarming_summary self step = Ok summary ->
  shards_of_summary summary = Ok shards ->
  steps_interrupted ERROR_CODES self (step :: steps)
  = (interrupted <- any_map shard_interrupted shards ;;
     if interrupted : bool then Ok true
     else steps_interrupted ERROR_CODES self steps)%outcome.
Proof.
  intros Hname Hmatch Hfetch Hshards. simpl.
  rewrite Hname; simpl. rewrite Hmatch, Hfetch; simpl.
  unfold shards_of_summary in Hshards.
  destruct (py_get (if truthy summary then summary else JDict []) "shards"
                   (JList [])) as [v|e]; simpl in *; [|discriminate].
  rewrite Hshards. reflexivity.
Qed.

Lemma steps_interrupted_skip (self : BuildResolver) (step : Step)
    (steps : list Step) (name : string) :
  step.(step_name) = Some name ->
  fullmatch run_web_tests_pattern name = false ->
  steps_interrupted ERROR_CODES self (step :: steps)
  = steps_interrupted ERROR_CODES self steps.
Proof.
  intros Hname Hmatch. simpl. rewrite Hname; simpl. now rewrite Hmatch.
Qed.

Lemma steps_interrupted_well_formed (self : BuildResolver) (steps : list Step) :
  Forall (step_well_formed self) steps ->
  (steps_interrupted ERROR_CODES self steps = Ok true
   /\ Exists (step_reports_infra_exit_code ERROR_CODES self) steps)
  \/ (steps_interrupted ERROR_CODES self steps = Ok false
      /\ ~ Exists (step_reports_infra_exit_code ERROR_CODES self) steps).
Proof.
  induction 1 as [|step steps [name [Hname Hwf]] _ IH].
  - right. split; [reflexivity|]. intros H; inversion H.
  - destruct (fullmatch run_web_tests_pattern name) eqn:Hmatch.
    + destruct (Hwf eq_refl) as (summary & shards & Hfetch & Hshards & Hread).
      rewrite (steps_interrupted_step self step steps _ _ _ Hname Hmatch Hfetch Hshards).
      destruct (any_map_readable _ Hread)
        as [[-> (sh & c & Hin & Hc & Herr)] | [-> Hnone]]; simpl.
      * left. split; [reflexivity|]. apply Exists_cons_hd.
        exists name, summary, shards, sh, c. auto 10.
      * destruct IH as [[-> Hex] | [-> Hnex]].
        -- left. split; [reflexivity | now apply Exists_cons_tl].
        -- right. split; [reflexivity|].
           intros Hex. inversion Hex as [? ? Hhd | ? ? Htl]; subst; [|tauto].
           destruct Hhd as (n' & su' & shs' & sh & c & _ & _ & Hf' & Hs' & Hin & Hc & Herr).
           rewrite Hfetch in Hf'. injection Hf' as <-.
           rewrite Hshards in Hs'. injection Hs' as <-.
           exact (Hnone sh c Hin Hc Herr).
    + rewrite (steps_interrupted_skip self step steps _ Hname Hmatch).
      destruct IH as [[-> Hex] | [-> Hnex]].
      * left. split; [reflexivity | now apply Exists_cons_tl].
      * right. split; [reflexivity|].
        intros Hex. inversion Hex as [? ? Hhd | ? ? Htl]; subst; [|tauto].
        destruct Hhd as (n' & su' & shs' & sh & c & Hn' & Hm' & _).
        rewrite Hname in Hn'. injection Hn' as <-. congruence.
Qed.

(** C2. A raw build without a disqualifying [failure_type] (the field is
    absent, null or ["TEST_FAILURE"]) whose steps can be read: if some step
    with a matching name has a shard summary with an exit code of the
    infrastructure-error set, the classifier returns
    [from_bb_status('INFRA_FAILURE')]; otherwise it returns the status that
    Buildbucket reported, converted by [from_bb_status] and nothing else. *)
Theorem C2_shard_exit_code_or_reported_status
    (self : BuildResolver) (raw_build : RawBuild) (bb_status : string) :
  failure_type_of raw_build = JNull
  \/ failure_type_of raw_build = JStr "TEST_FAILURE" ->
  raw_build.(raw_status) = Some bb_status ->
  Forall (step_well_formed self) (get_or raw_build.(raw_steps) []) ->
  (Exists (step_reports_infra_exit_code ERROR_CODES self)
          (get_or raw_build.(raw_steps) []) ->
   status_if_interrupted self raw_build = from_bb_status "INFRA_FAILURE")
  /\ (~ Exists (step_reports_infra_exit_code ERROR_CODES self)
              (get_or raw_build.(raw_steps) []) ->
      status_if_interrupted self raw_build = from_bb_status bb_status).
Proof.
  intros Hft Hstatus Hwf.
  assert (Hset : in_set (failure_type_of raw_build) [JNull; JStr "TEST_FAILURE"]
                 = Ok true)
    by (destruct Hft as [-> | ->]; reflexivity).
  unfold _status_if_interrupted. rewrite Hset; simpl.
  destruct (steps_interrupted_well_formed _ _ Hwf) as [[-> Hex] | [-> Hnex]]; simpl.
  - split; [reflexivity | tauto].
  - split; [tauto|]. intros _. now rewrite Hstatus.
Qed.

(** *** Shards without an exit code *)

(** C10. A shard object that lacks ['exit_code'] is read as exit code 0:
    [_shard_interrupted] answers for it what it answers for the same shard
    with an explicit 0. Exit code 0 not being an error code, such a shard is
    not interrupted, and its presence among the shards of a summary never
    changes what [any(map(_shard_interrupted, shards))] yields. *)
Theorem C10_missing_exit_code_is_zero (d : list (string * json)) :
  lookup "exit_code" d = None ->
  ~ In 0%Z ERROR_CODES ->
  shard_exit_code (JDict d) = Ok 0%Z
  /\ shard_interrupted (JDict d)
     = shard_interrupted (JDict (("exit_code", JInt 0) :: d))
  /\ shard_interrupted (JDict d) = Ok false
  /\ (forall before after : list json,
        any_map shard_interrupted (before ++ JDict d :: after)
        = any_map shard_interrupted (before ++ after))
  /\ forall shards : list json,
       Forall (fun shard => exists d', shard = JDict d'
                                       /\ lookup "exit_code" d' = None) shards ->
       any_map shard_interrupted shards = Ok false.
Proof.
  intros Hnone Hzero.
  assert (Hcode : shard_exit_code (JDict d) = Ok 0%Z)
    by (unfold shard_exit_code; simpl; now rewrite Hnone).
  assert (Hfalse : shard_interrupted (JDict d) = Ok false).
  { rewrite (shard_interrupted_code _ _ Hcode). f_equal.
    destruct (existsb (Z.eqb 0) ERROR_CODES) eqn:Hex; [|reflexivity].
    apply existsb_Zeqb_In in Hex. contradiction. }
  repeat split; try assumption.
  - rewrite (shard_interrupted_code _ _ Hcode).
    now rewrite (shard_interrupted_code (JDict (("exit_code", JInt 0) :: d)) 0%Z).
  - intros before after. induction before as [|x before IH]; simpl.
    + now rewrite Hfalse.
    + destruct (shard_interrupted x) as [[|]|e]; simpl; congruence.
  - induction 1 as [|shard shards (d' & -> & Hd') _ IH]; simpl; [reflexivity|].
    rewrite (shard_interrupted_code (JDict d') 0%Z).
    + destruct (existsb (Z.eqb 0) ERROR_CODES) eqn:Hex; [|exact IH].
      apply existsb_Zeqb_In in Hex. contradiction.
    + unfold shard_exit_code; simpl. now rewrite Hd'.
Qed.

(** *** Summaries that cannot be fetched *)






End Classifier.

Section WorkerPool.
Variable from_bb_status : string -> outcome TryJobStatus.
Variable ERROR_CODES : list Z.

Section PoolMap.
Context {A B : Type} (f : A -> outcome B) (xs : list A).

Lemma find_done_kept (i : nat) (x : A) (order : list nat) :
  forall done : list (nat * outcome B),
    nth_error xs i = Some x ->
    find_done i done = Some (f x) ->
    find_done i (fold_left (record_task f xs) order done) = Some (f x).
Proof.
  induction order as [|j order IH]; intros done Hx Hdone; simpl; [assumption|].
  apply IH; [assumption|]. unfold record_task.
  destruct (nth_error xs j) as [y|] eqn:Hy; [|assumption].
  simpl. destruct (Nat.eqb i j) eqn:Hij; [|assumption].
  apply Nat.eqb_eq in Hij. subst j. congruence.
Qed.

Lemma find_done_ran (i : nat) (x : A) (order : list nat) :
  forall done : list (nat * outcome B),
    nth_error xs i = Some x ->
    In i order ->
    find_done i (fold_left (record_task f xs) order done) = Some (f x).
Proof.
  induction order as [|j order IH]; intros done Hx Hin; simpl; [destruct Hin|].
  destruct (Nat.eq_dec j i) as [->|Hne].
  - apply find_done_kept; [assumption|]. unfold record_task.
    rewrite Hx. simpl. now rewrite Nat.eqb_refl.
  - destruct Hin as [Heq|Hin]; [contradiction|]. now apply IH.
Qed.

Lemma map_by_index (g : nat -> outcome B) :
  forall (ys : list A) (k : nat),
    (forall i y, nth_error ys i = Some y -> g (k + i)%nat = f y) ->
    map g (seq k (List.length ys)) = map f ys.
Proof.
  induction ys as [|y ys IH]; intros k Hg; simpl; [reflexivity|].
  f_equal.
  - rewrite <- (Hg 0%nat y eq_refl). f_equal. lia.
  - apply IH. intros i y' Hy'. rewrite <- (Hg (S i) y' Hy'). f_equal. lia.
Qed.

(** Whatever the order in which the pool runs the tasks, the iterator of
    [Executor.map] yields what the built-in [map] yields. *)
Lemma pool_map_is_map (pool : Executor) : pool_map pool f xs = map f xs.
Proof.
  unfold pool_map. apply map_by_index. intros i x Hx. simpl.
  assert (Hin : In i (run_order pool (List.length xs))).
  { apply (Permutation_in i (Permutation_sym (run_order_complete pool _))).
    apply in_seq. split; [lia|]. simpl.
    apply nth_error_Some. congruence. }
  now rewrite (find_done_ran i x _ [] Hx Hin).
Qed.
End PoolMap.

(** The classifier reads nothing of the resolver but its web client. *)
Lemma steps_interrupted_web (self self' : BuildResolver) (steps : list Step) :
  _web self = _web self' ->
  steps_interrupted ERROR_CODES self steps
  = steps_interrupted ERROR_CODES self' steps.
Proof.
  intros Hweb. induction steps as [|step steps IH]; [reflexivity|].
  cbn [steps_interrupted]. unfold _fetch_swarming_summary.
  now rewrite Hweb, IH.
Qed.

Lemma status_if_interrupted_web (self self' : BuildResolver) :
  _web self = _web self' ->
  forall raw_build : RawBuild,
    _status_if_interrupted from_bb_status ERROR_CODES self raw_build
    = _status_if_interrupted from_bb_status ERROR_CODES self' raw_build.
Proof.
  intros Hweb raw_build. unfold _status_if_interrupted.
  now rewrite (steps_interrupted_web self self' _ Hweb).
Qed.

(** C9. Classifying the raw builds through an injected worker pool gives
    the same [BuildStatuses] (or raises the same exception) as classifying
    them one after the other without a pool, for every pool and every
    order in which it runs its tasks. *)
Theorem C9_pool_does_not_change_statuses
    (web : Web) (git_cl : GitCL) (can_trigger_jobs : bool) (pool : Executor)
    (raw_builds : list RawBuild) :
  _build_statuses_from_responses from_bb_status ERROR_CODES
    {| _web := web; _git_cl := git_cl; _io_pool := Some pool;
       _can_trigger_jobs := can_trigger_jobs |} raw_builds
  = _build_statuses_from_responses from_bb_status ERROR_CODES
      {| _web := web; _git_cl := git_cl; _io_pool := None;
         _can_trigger_jobs := can_trigger_jobs |} raw_builds.
Proof.
  unfold _build_statuses_from_responses, map_fn; simpl.
  rewrite pool_map_is_map. do 2 f_equal.
  apply map_ext. apply status_if_interrupted_web. reflexivity.
Qed.
End WorkerPool.

Section Sorting.

Lemma string_compare_refl (s : string) : String.compare s s = Eq.
Proof. now apply OrderedTypeEx.String_as_OT.cmp_eq. Qed.

Lemma string_compare_lt_trans (a b c : string) :
  String.compare a b = Lt -> String.compare b c = Lt -> String.compare a c = Lt.
Proof.
  intros Hab Hbc. apply OrderedTypeEx.String_as_OT.cmp_lt.
  apply OrderedTypeEx.String_as_OT.cmp_lt in Hab, Hbc.
  exact (OrderedTypeEx.String_as_OT.lt_trans _ _ _ Hab Hbc).
Qed.

Lemma key_le_total (a b : string * Z) : key_le a b = false -> key_le b a = true.
Proof.
  unfold key_le. rewrite (String.compare_antisym (fst b) (fst a)).
  destruct (String.compare (fst a) (fst b)); simpl; try congruence.
  intros H. apply Z.leb_gt in H. apply Z.leb_le. lia.
Qed.

Lemma key_le_trans (a b c : string * Z) :
  key_le a b = true -> key_le b c = true -> key_le a c = true.
Proof.
  unfold key_le.
  destruct (String.compare (fst a) (fst b)) eqn:Hab; try discriminate;
    destruct (String.compare (fst b) (fst c)) eqn:Hbc; try discriminate;
    intros H1 H2.
  - apply String.compare_eq_iff in Hab, Hbc.
    rewrite Hab, Hbc, string_compare_refl.
    apply Z.leb_le in H1, H2. apply Z.leb_le. lia.
  - apply String.compare_eq_iff in Hab. now rewrite Hab, Hbc.
  - apply String.compare_eq_iff in Hbc. now rewrite <- Hbc, Hab.
  - now rewrite (string_compare_lt_trans _ _ _ Hab Hbc).
Qed.

Context {A : Type} (key : A -> string * Z).

Local Abbreviation ordered := (ordered_by key).

Lemma insert_perm (x : A) (l : list A) : Permutation (insert key x l) (x :: l).
Proof.
  induction l as [|y l IH]; simpl; [reflexivity|].
  destruct (key_le (key x) (key y)); [reflexivity|].
  rewrite IH. apply perm_swap.
Qed.

Lemma sorted_perm (l : list A) : Permutation (sorted key l) l.
Proof.
  induction l as [|x l IH]; simpl; [reflexivity|].
  rewrite insert_perm. now constructor.
Qed.

Lemma insert_sorted (x : A) (l : list A) :
  StronglySorted ordered l -> StronglySorted ordered (insert key x l).
Proof.
  induction 1 as [|y l Hsorted IH Hall]; simpl.
  - constructor; constructor.
  - destruct (key_le (key x) (key y)) eqn:Hxy.
    + constructor; [now constructor|].
      constructor; [exact Hxy|].
      eapply Forall_impl; [|exact Hall].
      intros z Hyz. exact (key_le_trans _ _ _ Hxy Hyz).
    + constructor; [exact IH|].
      apply (Permutation_Forall (Permutation_sym (insert_perm x l))).
      constructor; [exact (key_le_total _ _ Hxy) | exact Hall].
Qed.

Lemma sorted_sorted (l : list A) : StronglySorted ordered (sorted key l).
Proof.
  induction l as [|x l IH]; simpl; [constructor | now apply insert_sorted].
Qed.

Lemma StronglySorted_nth (l : list A) :
  StronglySorted ordered l ->
  forall (i j : nat) (a b : A),
    (i < j)%nat -> nth_error l i = Some a -> nth_error l j = Some b ->
    ordered a b.
Proof.
  induction 1 as [|x l Hsorted IH Hall]; intros i j a b Hij Ha Hb.
  - destruct i; discriminate.
  - destruct j as [|j]; [lia|]. simpl in Hb.
    destruct i as [|i]; simpl in Ha.
    + injection Ha as <-. rewrite Forall_forall in Hall.
      apply Hall. eapply nth_error_In. exact Hb.
    + apply (IH i j); [lia | assumption | assumption].
Qed.
End Sorting.

Section Logging.

Lemma log_append_nil (w : World) : log_append w [] = w.
Proof. destruct w. unfold log_append; simpl. now rewrite app_nil_r. Qed.

Lemma log_append_app (w : World) (r1 r2 : list LogRecord) :
  log_append (log_append w r1) r2 = log_append w (r1 ++ r2).
Proof. unfold log_append; simpl. now rewrite app_assoc. Qed.

Lemma emit_appends (l : Level) (m : string) (a : list string) (w : World) :
  emit l m a w = (Ok tt, log_append w [{| levelname := l; msg := m; args := a |}]).
Proof. reflexivity. Qed.

(** A loop whose body logs one record per element. *)
Lemma fold_emit {X : Type} (act : X -> M unit) (mk : X -> LogRecord) :
  (forall x w, act x w = (Ok tt, log_append w [mk x])) ->
  forall (xs : list X) (m0 : M unit) (w : World) (before : list LogRecord),
    m0 w = (Ok tt, log_append w before) ->
    fold_left (fun (m : M unit) (x : X) => (m ;; act x)%M) xs m0 w
    = (Ok tt, log_append w (before ++ map mk xs)).
Proof.
  intros Hact xs. induction xs as [|x xs IH]; intros m0 w before Hm0; simpl.
  - now rewrite app_nil_r.
  - rewrite (IH _ w (before ++ [mk x])).
    + now rewrite <- app_assoc.
    + unfold bind. rewrite Hm0, Hact. now rewrite log_append_app.
Qed.

Lemma log_build_statuses_table (build_statuses : dict string) (w : World) :
  build_statuses <> [] ->
  _log_build_statuses build_statuses w
  = (Ok tt, log_append w (table build_statuses)).
Proof.
  intros Hne. unfold _log_build_statuses.
  destruct build_statuses as [|item rest] eqn:Hbs; [congruence|].
  cbn [is_empty]. rewrite <- Hbs. unfold bind at 1.
  unfold _log_info at 1. rewrite emit_appends.
  rewrite (fold_emit
             (fun item => _log_info (table_template build_statuses)
                            [builder_name (fst item);
                             number_or_dashes (build_number (fst item));
                             snd item; bucket (fst item)])
             (table_row (table_template build_statuses))
             (fun x w0 => eq_refl) _ _ _ []).
  - rewrite log_append_app. reflexivity.
  - now rewrite log_append_nil.
Qed.

Lemma nth_error_keys {V : Type} (d : dict V) (i : nat) (k : Build) :
  nth_error (keys d) i = Some k ->
  exists v, nth_error d i = Some (k, v).
Proof.
  unfold keys. rewrite nth_error_map.
  destruct (nth_error d i) as [[k' v]|]; simpl; [|discriminate].
  intros H; injection H as <-. now exists v.
Qed.

(** C3 (as the code has it). [_log_build_statuses] writes the header and
    then the rows of the table in the order of
    [sorted(build_statuses, key=_build_sort_key)]: a permutation of the
    builds, ordered by builder name and then by build number, a missing
    number counting as 0. Among the builds of one builder, those without a
    number therefore come first, before every positive build number. *)
Theorem C3_summary_sorted_by_name_then_number_or_0
    (build_statuses : dict string) (w : World) :
  build_statuses <> [] ->
  _log_build_statuses build_statuses w
  = (Ok tt, log_append w (table build_statuses))
  /\ Permutation (sorted_items build_statuses) build_statuses
  /\ StronglySorted (ordered_by (fun item => _build_sort_key (fst item)))
                    (sorted_items build_statuses)
  /\ unnumbered_sort_first (keys (sorted_items build_statuses)).
Proof.
  intros Hne. split; [now apply log_build_statuses_table|].
  split; [apply sorted_perm|].
  assert (Hsorted := sorted_sorted (fun item : Build * string =>
                                      _build_sort_key (fst item))
                                   build_statuses).
  split; [exact Hsorted|].
  intros i j a b n Hij Ha Hb Hname Hnum Hpos.
  destruct (nth_error_keys _ _ _ Ha) as [va Ha'].
  destruct (nth_error_keys _ _ _ Hb) as [vb Hb'].
  assert (Hab := StronglySorted_nth _ _ Hsorted i j _ _ Hij Ha' Hb').
  unfold ordered_by, key_le, _build_sort_key in Hab; simpl in Hab.
  rewrite Hname, string_compare_refl, Hnum in Hab; simpl in Hab.
  apply Z.leb_le in Hab. unfold has_number.
  destruct (build_number b) as [m|]; simpl in Hab.
  - apply negb_true_iff. apply Z.eqb_neq. lia.
  - lia.
Qed.
End Logging.

Section Dictionaries.

Lemma option_eqb_eq {A : Type} (eqb : A -> A -> bool) :
  (forall a b, eqb a b = true <-> a = b) ->
  forall x y : option A, option_eqb eqb x y = true <-> x = y.
Proof.
  intros Heqb [a|] [b|]; simpl; try (split; congruence).
  rewrite Heqb. split; congruence.
Qed.

Lemma Build_eqb_eq (a b : Build) : Build_eqb a b = true <-> a = b.
Proof.
  unfold Build_eqb. rewrite !andb_true_iff, !String.eqb_eq.
  rewrite (option_eqb_eq Z.eqb Z.eqb_eq),
          (option_eqb_eq String.eqb String.eqb_eq).
  destruct a, b; simpl. split.
  - intros [[[-> ->] ->] ->]. reflexivity.
  - intros H; injection H as -> -> -> ->. auto.
Qed.

Lemma Build_eqb_refl (a : Build) : Build_eqb a a = true.
Proof. now apply Build_eqb_eq. Qed.

Lemma Build_eqb_neq (a b : Build) : Build_eqb a b = false <-> a <> b.
Proof.
  rewrite <- Build_eqb_eq. destruct (Build_eqb a b); split; congruence.
Qed.

Lemma TryJobStatus_eqb_eq (a b : TryJobStatus) :
  TryJobStatus_eqb a b = true <-> a = b.
Proof.
  unfold TryJobStatus_eqb. rewrite andb_true_iff, String.eqb_eq.
  rewrite (option_eqb_eq String.eqb String.eqb_eq).
  destruct a, b; simpl. split.
  - intros [-> ->]. reflexivity.
  - intros H; injection H as -> ->. auto.
Qed.

Context {V : Type}.
Implicit Types (d other : dict V) (k : Build) (v : V).

Lemma dict_get_In k v d : dict_get k d = Some v -> In (k, v) d.
Proof.
  induction d as [|[k' v'] d IH]; simpl; [discriminate|].
  destruct (Build_eqb k k') eqn:Hk.
  - apply Build_eqb_eq in Hk. intros H; injection H as ->. left. now subst.
  - intros H. right. now apply IH.
Qed.

Lemma dict_get_None k d : dict_get k d = None <-> ~ In k (keys d).
Proof.
  induction d as [|[k' v'] d IH]; simpl; [tauto|].
  destruct (Build_eqb k k') eqn:Hk.
  - apply Build_eqb_eq in Hk. split; [discriminate | intuition congruence].
  - apply Build_eqb_neq in Hk. rewrite IH. intuition congruence.
Qed.

Lemma dict_get_unique k v d :
  unique_keys d -> In (k, v) d -> dict_get k d = Some v.
Proof.
  unfold unique_keys.
  induction d as [|[k' v'] d IH]; simpl; intros Hnd Hin; [destruct Hin|].
  inversion Hnd as [|? ? Hnotin Hnd']; subst.
  destruct Hin as [Heq|Hin].
  - injection Heq as -> ->. now rewrite Build_eqb_refl.
  - destruct (Build_eqb k k') eqn:Hk.
    + apply Build_eqb_eq in Hk. subst k'. exfalso. apply Hnotin.
      apply (in_map fst) in Hin. exact Hin.
    + now apply IH.
Qed.

Lemma dict_set_fresh k v d : ~ In k (keys d) -> dict_set k v d = d ++ [(k, v)].
Proof.
  induction d as [|[k' v'] d IH]; simpl; intros Hnotin; [reflexivity|].
  destruct (Build_eqb k k') eqn:Hk.
  - apply Build_eqb_eq in Hk. intuition congruence.
  - rewrite IH; [reflexivity | intuition].
Qed.

Lemma keys_dict_set k v d :
  keys (dict_set k v d) = if dict_mem k d then keys d else keys d ++ [k].
Proof.
  unfold dict_mem. induction d as [|[k' v'] d IH]; simpl; [reflexivity|].
  destruct (Build_eqb k k') eqn:Hk; simpl; [reflexivity|].
  rewrite IH. now destruct (dict_get k d).
Qed.

Lemma dict_get_set k k' v d :
  dict_get k (dict_set k' v d)
  = if Build_eqb k k' then Some v else dict_get k d.
Proof.
  induction d as [|[k0 v0] d IH]; simpl.
  - now destruct (Build_eqb k k').
  - destruct (Build_eqb k' k0) eqn:Hk0; simpl.
    + apply Build_eqb_eq in Hk0. subst k0.
      now destruct (Build_eqb k k').
    + rewrite IH. destruct (Build_eqb k k0) eqn:Hkk0; [|reflexivity].
      apply Build_eqb_eq in Hkk0. subst k0.
      destruct (Build_eqb k k') eqn:Hkk'; [|reflexivity].
      apply Build_eqb_eq in Hkk'. subst k'.
      rewrite Build_eqb_refl in Hk0. discriminate.
Qed.

Lemma unique_keys_set k v d : unique_keys d -> unique_keys (dict_set k v d).
Proof.
  unfold unique_keys. intros Hnd. rewrite keys_dict_set. unfold dict_mem.
  destruct (dict_get k d) eqn:Hget; [assumption|].
  apply dict_get_None in Hget.
  apply NoDup_rev in Hnd. rewrite <- (rev_involutive (keys d ++ [k])).
  apply NoDup_rev. rewrite rev_app_distr. simpl.
  constructor; [|assumption]. now rewrite <- in_rev.
Qed.

Lemma unique_keys_update d other :
  unique_keys d -> unique_keys (dict_update d other).
Proof.
  unfold dict_update. revert d.
  induction other as [|[k v] other IH]; intros d Hd; simpl; [assumption|].
  apply IH. now apply unique_keys_set.
Qed.

Lemma dict_update_fresh d other :
  NoDup (keys (d ++ other)) -> dict_update d other = d ++ other.
Proof.
  unfold dict_update. revert d.
  induction other as [|[k v] other IH]; intros d Hnd; simpl.
  - now rewrite app_nil_r.
  - rewrite dict_set_fresh.
    + rewrite IH; rewrite <- app_assoc; [reflexivity | exact Hnd].
    + unfold keys in Hnd. rewrite map_app in Hnd. simpl in Hnd.
      apply NoDup_remove_2 in Hnd. intros Hin. apply Hnd.
      apply in_or_app. now left.
Qed.

Lemma dict_get_update_other k d other :
  ~ In k (keys other) -> dict_get k (dict_update d other) = dict_get k d.
Proof.
  unfold dict_update. revert d.
  induction other as [|[k' v'] other IH]; intros d Hnotin; simpl; [reflexivity|].
  simpl in Hnotin. rewrite IH by intuition. rewrite dict_get_set.
  destruct (Build_eqb k k') eqn:Hk; [|reflexivity].
  apply Build_eqb_eq in Hk. intuition congruence.
Qed.

Lemma length_dict_set k v d : (List.length (dict_set k v d) <= S (List.length d))%nat.
Proof.
  induction d as [|[k' v'] d IH]; simpl; [lia|].
  destruct (Build_eqb k k'); simpl; lia.
Qed.

Lemma length_dict_update d other :
  (List.length (dict_update d other) <= List.length d + List.length other)%nat.
Proof.
  unfold dict_update. revert d.
  induction other as [|[k v] other IH]; intros d; simpl; [lia|].
  specialize (IH (dict_set k v d)). pose proof (length_dict_set k v d). lia.
Qed.

Lemma dict_get_values k v d : dict_get k d = Some v -> In v (values d).
Proof.
  intros H. apply dict_get_In in H. apply (in_map snd) in H. exact H.
Qed.
End Dictionaries.

Section Summary.
Variable from_bb_status : string -> outcome TryJobStatus.
Variable ERROR_CODES : list Z.
Variable filter_incomplete : BuildStatuses -> list Build.
Variable pluralize : string -> nat -> string.
Variable CLRevisionID_str : Z -> option Z -> string.

Local Abbreviation collect :=
  (collect_build_statuses from_bb_status ERROR_CODES pluralize CLRevisionID_str).
Local Abbreviation resolve :=
  (resolve_builds from_bb_status ERROR_CODES filter_incomplete pluralize
     CLRevisionID_str).

Lemma bind_Ok {A B : Type} (m : M A) (k : A -> M B) (w w1 : World) (a : A) :
  m w = (Ok a, w1) -> bind m k w = k a w1.
Proof. intros H. unfold bind. now rewrite H. Qed.

Lemma bind_Raise {A B : Type} (m : M A) (k : A -> M B) (w w1 : World) (e : exn) :
  m w = (Raise e, w1) -> bind m k w = (Raise e, w1).
Proof. intros H. unfold bind. now rewrite H. Qed.

Lemma fold_emit_ret {X : Type} (act : X -> M unit) (mk : X -> LogRecord) :
  (forall x w, act x w = (Ok tt, log_append w [mk x])) ->
  forall (xs : list X) (w : World),
    fold_left (fun (m : M unit) (x : X) => (m ;; act x)%M) xs (ret tt) w
    = (Ok tt, log_append w (map mk xs)).
Proof.
  intros Hact xs w.
  apply (fold_emit act mk Hact xs (ret tt) w []).
  unfold ret. now rewrite log_append_nil.
Qed.

Ltac same_log :=
  first [ reflexivity
        | f_equal; f_equal; simpl; rewrite <- ?app_assoc; reflexivity ].

Lemma warn_appends (build_statuses : BuildStatuses) (w : World) :
  _warn_about_incomplete_results filter_incomplete build_statuses w
  = (Ok tt, log_append w (warn_records filter_incomplete build_statuses)).
Proof.
  unfold _warn_about_incomplete_results, warn_records.
  destruct (filter_incomplete build_statuses) as [|b bs] eqn:Hfi.
  - simpl. unfold ret. now rewrite log_append_nil.
  - cbn [is_empty]. unfold _log_warning.
    rewrite (bind_Ok _ _ _ _ _ (emit_appends _ _ _ _)).
    rewrite (bind_Ok _ _ _ _ _
               (fold_emit_ret
                  (fun build : Build =>
                     emit WARNING ("  " ++ dquote ++ "%s" ++ dquote ++ " build %s")
                       [builder_name build; number_or_dashes (build_number build)])
                  (fun build : Build =>
                     warning ("  " ++ dquote ++ "%s" ++ dquote ++ " build %s")
                       [builder_name build; number_or_dashes (build_number build)])
                  (fun x w0 => eq_refl) _ _)).
    repeat rewrite (bind_Ok _ _ _ _ _ (emit_appends _ _ _ _)).
    rewrite emit_appends. rewrite !log_append_app. same_log.
Qed.

Lemma is_empty_false {X : Type} (l : list X) : is_empty l = false -> l <> [].
Proof. destruct l; [discriminate | congruence]. Qed.

Lemma log_builds_appends (build_statuses : BuildStatuses) (w : World) :
  log_builds filter_incomplete build_statuses w
  = (Ok tt, log_append w (warn_records filter_incomplete build_statuses
                          ++ summary_records build_statuses)).
Proof.
  unfold log_builds, summary_records.
  rewrite (bind_Ok _ _ _ _ _ (warn_appends _ _)).
  fold (finished_builds_of build_statuses).
  fold (unfinished_builds_of build_statuses).
  destruct (Nat.eqb _ _).
  { unfold _log_info. now rewrite emit_appends, log_append_app. }
  destruct (is_empty (finished_builds_of build_statuses)) eqn:Hfin; cbn [negb].
  - unfold _log_info at 1.
    rewrite (bind_Ok _ _ _ _ _ (emit_appends _ _ _ _)).
    destruct (is_empty (unfinished_builds_of build_statuses)) eqn:Hunf; cbn [negb].
    + unfold ret. now rewrite log_append_app, app_nil_r.
    + unfold _log_info.
      rewrite (bind_Ok _ _ _ _ _ (emit_appends _ _ _ _)).
      rewrite (log_build_statuses_table _ _ (is_empty_false _ Hunf)).
      now rewrite !log_append_app.
  - unfold _log_info at 1.
    erewrite bind_Ok.
    2:{ erewrite bind_Ok; [|apply emit_appends].
        apply log_build_statuses_table. exact (is_empty_false _ Hfin). }
    destruct (is_empty (unfinished_builds_of build_statuses)) eqn:Hunf; cbn [negb].
    + unfold ret. now rewrite !log_append_app, app_nil_r.
    + unfold _log_info.
      rewrite (bind_Ok _ _ _ _ _ (emit_appends _ _ _ _)).
      rewrite (log_build_statuses_table _ _ (is_empty_false _ Hunf)).
      rewrite !log_append_app. same_log.
Qed.
Lemma bind_inv_Ok {A B : Type} (m : M A) (k : A -> M B) (w w2 : World) (b : B) :
  bind m k w = (Ok b, w2) ->
  exists a w1, m w = (Ok a, w1) /\ k a w1 = (Ok b, w2).
Proof.
  unfold bind. destruct (m w) as [[a|e] w1]; [|discriminate].
  intros H. now exists a, w1.
Qed.

Lemma NoDup_keys_filter {X : Type} (p : Build * X -> bool) (l : list (Build * X)) :
  NoDup (map fst l) -> NoDup (map fst (filter p l)).
Proof.
  induction l as [|x l IH]; simpl; intros Hnd; [constructor|].
  inversion Hnd as [|? ? Hnotin Hnd']; subst.
  destruct (p x); simpl; [|now apply IH].
  constructor; [|now apply IH].
  rewrite in_map_iff in *. intros [y [Hy Hin]]. apply Hnotin.
  exists y. split; [assumption|]. apply filter_In in Hin. tauto.
Qed.

Lemma filter_length_lt {X : Type} (p : X -> bool) (l : list X) (x : X) :
  In x l -> p x = false -> (List.length (filter p l) < List.length l)%nat.
Proof.
  induction l as [|y l IH]; simpl; intros Hin Hp; [destruct Hin|].
  pose proof (filter_length_le p l).
  destruct Hin as [->|Hin].
  - rewrite Hp. lia.
  - specialize (IH Hin Hp). destruct (p y); simpl; lia.
Qed.

Lemma dict_of_unique_items {X Y : Type} (f : Build * X -> Y)
    (p : Build * X -> bool) (d : dict X) :
  unique_keys d ->
  dict_update [] (map (fun item => (fst item, f item)) (filter p d))
  = map (fun item => (fst item, f item)) (filter p d).
Proof.
  intros Hd. apply (dict_update_fresh []). simpl.
  unfold keys. rewrite map_map. simpl.
  now apply NoDup_keys_filter.
Qed.

Lemma collect_unique_keys (self : BuildResolver) (builds : list Build)
    (patchset : option Z) (w w1 : World) (build_statuses : BuildStatuses) :
  collect self builds patchset w = (Ok build_statuses, w1) ->
  unique_keys build_statuses.
Proof.
  intros H. unfold collect_build_statuses in H.
  apply bind_inv_Ok in H as (names & w0 & _ & H).
  apply bind_inv_Ok in H as (d & w2 & Hd & H).
  apply bind_inv_Ok in H as (raws & w3 & _ & H).
  apply bind_inv_Ok in H as (responses & w4 & _ & H).
  unfold ret in H. injection H as <- _.
  apply unique_keys_update.
  destruct (negb (is_empty names)).
  - apply bind_inv_Ok in Hd as (t & w5 & _ & Hd).
    apply bind_inv_Ok in Hd as (u & w6 & _ & Hd).
    unfold ret in Hd. injection Hd as <- _.
    apply unique_keys_update. constructor.
  - unfold ret in Hd. injection Hd as <- _. constructor.
Qed.

Lemma triggered_row_logged (build_statuses : BuildStatuses) (build : Build) :
  unique_keys build_statuses ->
  In (build, TRIGGERED) build_statuses ->
  In (info "Scheduled or started builds:" []) (summary_records build_statuses)
  /\ In (table_row (table_template (unfinished_builds_of build_statuses))
                   (build, "TRIGGERED"))
        (summary_records build_statuses).
Proof.
  intros Huniq Hin.
  assert (Hfin : finished_builds_of build_statuses
                 = map (fun item => (fst item, result_or_dashes (result (snd item))))
                       (filter (fun item => String.eqb (status (snd item)) "COMPLETED")
                               build_statuses)).
  { unfold finished_builds_of.
    apply (dict_of_unique_items
             (fun item => result_or_dashes (result (snd item)))). exact Huniq. }
  assert (Hnotfin : dict_mem build (finished_builds_of build_statuses) = false).
  { unfold dict_mem.
    destruct (dict_get build (finished_builds_of build_statuses)) eqn:Hget;
      [|reflexivity].
    apply dict_get_In in Hget. rewrite Hfin in Hget.
    apply in_map_iff in Hget. destruct Hget as [[b st] [Heq Hfilter]].
    simpl in Heq. injection Heq as -> _.
    apply filter_In in Hfilter. destruct Hfilter as [Hb Hst]. simpl in Hst.
    pose proof (dict_get_unique _ _ _ Huniq Hin) as H1.
    pose proof (dict_get_unique _ _ _ Huniq Hb) as H2.
    rewrite H1 in H2. injection H2 as <-. discriminate Hst. }
  assert (Hunf : In (build, "TRIGGERED") (unfinished_builds_of build_statuses)).
  { unfold unfinished_builds_of.
    rewrite (dict_of_unique_items (fun item => status (snd item))) by exact Huniq.
    apply in_map_iff. exists (build, TRIGGERED). split; [reflexivity|].
    apply filter_In. split; [exact Hin|]. simpl. now rewrite Hnotfin. }
  assert (Hlen : Nat.eqb (List.length (finished_builds_of build_statuses))
                         (List.length build_statuses) = false).
  { apply Nat.eqb_neq. rewrite Hfin, length_map.
    pose proof (filter_length_lt
                  (fun item : Build * TryJobStatus =>
                     String.eqb (status (snd item)) "COMPLETED")
                  build_statuses (build, TRIGGERED) Hin eq_refl). lia. }
  unfold summary_records. rewrite Hlen.
  destruct (is_empty (unfinished_builds_of build_statuses)) eqn:Hempty.
  { destruct (unfinished_builds_of build_statuses); [destruct Hunf | discriminate]. }
  split; apply in_or_app; right; [now left|].
  right. unfold table. right. apply in_map.
  apply (Permutation_in _ (Permutation_sym (sorted_perm _ _))). exact Hunf.
Qed.

Lemma existsb_TRIGGERED (sts : list TryJobStatus) :
  existsb (TryJobStatus_eqb TRIGGERED) sts = true <-> In TRIGGERED sts.
Proof.
  rewrite existsb_exists. split.
  - intros [st [Hin Heq]]. apply TryJobStatus_eqb_eq in Heq. now subst.
  - intros Hin. exists TRIGGERED. split; [assumption|].
    now apply TryJobStatus_eqb_eq.
Qed.

Lemma resolve_raises_pending
    (self : BuildResolver) (builds : list Build) (patchset : option Z)
    (w w1 : World) (build_statuses : BuildStatuses) :
  collect self builds patchset w = (Ok build_statuses, w1) ->
  In TRIGGERED (values build_statuses) ->
  resolve self builds patchset w
  = (Raise (UnresolvedBuildException pending_message),
     log_append w1 (warn_records filter_incomplete build_statuses
                    ++ summary_records build_statuses)).
Proof.
  intros Hcollect Htrig.
  unfold resolve_builds. rewrite (bind_Ok _ _ _ _ _ Hcollect).
  assert (Hne : is_empty build_statuses = false)
    by (destruct build_statuses; [destruct Htrig | reflexivity]).
  rewrite Hne. cbn [negb].
  rewrite (bind_Ok _ _ _ _ _ (log_builds_appends _ _)).
  apply existsb_TRIGGERED in Htrig. rewrite Htrig. reflexivity.
Qed.

(** C7. Whenever the statuses that [resolve_builds] has collected contain
    a TRIGGERED build, the call raises [UnresolvedBuildException] for the
    pending builds in a world whose log already holds what [log_builds]
    wrote for these statuses: the warnings, the line announcing the
    unfinished builds and, for every TRIGGERED build, its row of the table.
    The summary is therefore logged before the pending check raises. *)
Theorem C7_summary_logged_before_pending_raise
    (self : BuildResolver) (builds : list Build) (patchset : option Z)
    (w w1 : World) (build_statuses : BuildStatuses) :
  collect self builds patchset w = (Ok build_statuses, w1) ->
  In TRIGGERED (values build_statuses) ->
  resolve self builds patchset w
  = (Raise (UnresolvedBuildException pending_message),
     log_append w1 (warn_records filter_incomplete build_statuses
                    ++ summary_records build_statuses))
  /\ In (info "Scheduled or started builds:" [])
        (summary_records build_statuses)
  /\ forall build : Build,
       In (build, TRIGGERED) build_statuses ->
       In (table_row (table_template (unfinished_builds_of build_statuses))
                     (build, "TRIGGERED"))
          (summary_records build_statuses).
Proof.
  intros Hcollect Htrig.
  pose proof (collect_unique_keys _ _ _ _ _ _ Hcollect) as Huniq.
  split.
  - now apply resolve_raises_pending.
  - unfold values in Htrig. apply in_map_iff in Htrig.
    destruct Htrig as [[b st] [Hst Hin]]. simpl in Hst. subst st.
    split.
    + exact (proj1 (triggered_row_logged _ _ Huniq Hin)).
    + intros build Hbuild. exact (proj2 (triggered_row_logged _ _ Huniq Hbuild)).
Qed.
End Summary.

Section TryJobs.
Variable from_bb_status : string -> outcome TryJobStatus.
Variable ERROR_CODES : list Z.
Variable filter_incomplete : BuildStatuses -> list Build.
Variable pluralize : string -> nat -> string.
Variable CLRevisionID_str : Z -> option Z -> string.

Local Abbreviation fetch :=
  (fetch_or_trigger_try_jobs pluralize CLRevisionID_str).
Local Abbreviation fetching := (fetching_record pluralize CLRevisionID_str).
Local Abbreviation collect :=
  (collect_build_statuses from_bb_status ERROR_CODES pluralize CLRevisionID_str).
Local Abbreviation resolve :=
  (resolve_builds from_bb_status ERROR_CODES filter_incomplete pluralize
     CLRevisionID_str).
Local Abbreviation responses_of :=
  (_build_statuses_from_responses from_bb_status ERROR_CODES).

(** *** Sets of builder names *)

Lemma set_mem_In (x : string) (s : list string) : set_mem x s = true <-> In x s.
Proof.
  unfold set_mem. rewrite existsb_exists. split.
  - intros [y [Hin Heq]]. apply String.eqb_eq in Heq. now subst.
  - intros Hin. exists x. split; [assumption | apply String.eqb_refl].
Qed.

Lemma set_mem_not_In (x : string) (s : list string) :
  set_mem x s = false <-> ~ In x s.
Proof.
  rewrite <- set_mem_In. destruct (set_mem x s); split; congruence.
Qed.

Lemma In_set_add (y x : string) (s : list string) :
  In y (set_add x s) <-> In y s \/ y = x.
Proof.
  unfold set_add. destruct (set_mem x s) eqn:Hmem.
  - apply set_mem_In in Hmem. split; [tauto|]. intros [H| ->]; assumption.
  - rewrite in_app_iff. simpl. intuition.
Qed.

Lemma NoDup_set_add (x : string) (s : list string) :
  NoDup s -> NoDup (set_add x s).
Proof.
  intros Hnd. unfold set_add. destruct (set_mem x s) eqn:Hmem; [assumption|].
  apply set_mem_not_In in Hmem.
  apply NoDup_rev in Hnd. rewrite <- (rev_involutive (s ++ [x])).
  apply NoDup_rev. rewrite rev_app_distr. simpl.
  constructor; [|assumption]. now rewrite <- in_rev.
Qed.

Lemma fold_set_add {X : Type} (f : X -> string) (xs : list X) :
  forall acc : list string,
    (NoDup acc ->
     NoDup (fold_left (fun s x => set_add (f x) s) xs acc))
    /\ (forall y,
          In y (fold_left (fun s x => set_add (f x) s) xs acc)
          <-> In y acc \/ In y (map f xs))
    /\ (acc <> [] \/ xs <> [] ->
        fold_left (fun s x => set_add (f x) s) xs acc <> []).
Proof.
  induction xs as [|x xs IH]; intros acc; simpl.
  - split; [tauto|]. split; [intros y; tauto|]. intros [H|H]; congruence.
  - destruct (IH (set_add (f x) acc)) as (Hnd & Hin & Hne).
    split; [|split].
    + intros H. apply Hnd. now apply NoDup_set_add.
    + intros y. rewrite Hin, In_set_add. intuition congruence.
    + intros _. apply Hne. left. unfold set_add.
      destruct (set_mem (f x) acc) eqn:Hmem.
      * apply set_mem_In in Hmem. intros ->. destruct Hmem.
      * destruct acc; discriminate.
Qed.

Lemma NoDup_without (builders : list string) (found : BuildStatuses) :
  NoDup (builders_without_builds builders found).
Proof.
  unfold builders_without_builds, set_diff, set_of_list.
  apply NoDup_filter.
  apply (proj1 (fold_set_add (fun x : string => x) builders [])). constructor.
Qed.

Lemma In_without (b : string) (builders : list string) (found : BuildStatuses) :
  In b (builders_without_builds builders found)
  <-> In b builders /\ ~ In b (map builder_name (keys found)).
Proof.
  unfold builders_without_builds, set_diff, set_of_list.
  rewrite filter_In, negb_true_iff, set_mem_not_In.
  rewrite (proj1 (proj2 (fold_set_add (fun x : string => x) builders []))).
  rewrite map_id. simpl. tauto.
Qed.

(** *** Placeholders *)

Lemma add_placeholders_fresh (st : TryJobStatus) (missing : list string) :
  forall found : BuildStatuses,
    NoDup missing ->
    (forall b, In b missing -> ~ In b (map builder_name (keys found))) ->
    add_placeholders missing st found = found ++ placeholders missing st.
Proof.
  unfold add_placeholders.
  induction missing as [|b missing IH]; intros found Hnd Hfresh; simpl.
  - now rewrite app_nil_r.
  - inversion Hnd as [|? ? Hnotin Hnd']; subst.
    rewrite dict_set_fresh.
    + rewrite IH; [now rewrite <- app_assoc | assumption |].
      intros b' Hb'. unfold keys. rewrite !map_app, in_app_iff. simpl.
      intros [Hin | [<- | []]].
      * exact (Hfresh b' (or_intror Hb') Hin).
      * exact (Hnotin Hb').
    + intros Hin. apply (Hfresh b (or_introl eq_refl)).
      change b with (builder_name (Build_of_builder b)). now apply in_map.
Qed.

(** *** The first loop *)

Lemma partition_try (builds : list Build) :
  Forall try_without_number builds ->
  forall (acc : list string) (w : World),
    partition_builds builds acc w
    = (Ok (fold_left (fun names build => set_add (builder_name build) names)
                     builds acc), w).
Proof.
  induction 1 as [|build builds [Hnum Hbucket] _ IH]; intros acc w; simpl.
  - reflexivity.
  - rewrite Hnum, Hbucket. simpl. apply IH.
Qed.

(** *** The four ways out of [fetch_or_trigger_try_jobs] *)

Lemma fetch_no_issue (self : BuildResolver) (builders : list string)
    (patchset : option Z) (w : World) :
  isdigit (get_issue_number (_git_cl self)) = false ->
  fetch self builders patchset w
  = (Raise (UnresolvedBuildException no_issue_message), w).
Proof.
  intros Hissue. unfold fetch_or_trigger_try_jobs. now rewrite Hissue.
Qed.

Lemma fetch_aborted (self : BuildResolver) (builders : list string)
    (patchset : option Z) (w : World) :
  isdigit (get_issue_number (_git_cl self)) = true ->
  latest_try_jobs (_git_cl self) (get_issue_number (_git_cl self)) builders
    patchset = Ok [] ->
  _can_trigger_jobs self = false ->
  fetch self builders patchset w
  = (Raise (UnresolvedBuildException aborted_message),
     log_append w [fetching self builders patchset]).
Proof.
  intros Hissue Hlatest Hcan. unfold fetch_or_trigger_try_jobs.
  rewrite Hissue. cbn [negb]. unfold _log_info.
  rewrite (bind_Ok _ _ _ _ _ (emit_appends _ _ _ _)).
  unfold lift at 1. unfold bind at 1. rewrite Hlatest, Hcan. reflexivity.
Qed.

Lemma fetch_missing (self : BuildResolver) (builders : list string)
    (patchset : option Z) (w : World) (found : BuildStatuses) :
  isdigit (get_issue_number (_git_cl self)) = true ->
  latest_try_jobs (_git_cl self) (get_issue_number (_git_cl self)) builders
    patchset = Ok found ->
  _can_trigger_jobs self = false ->
  found <> [] ->
  fetch self builders patchset w
  = (Ok (found ++ placeholders (builders_without_builds builders found) MISSING),
     log_append w [fetching self builders patchset]).
Proof.
  intros Hissue Hlatest Hcan Hfound. unfold fetch_or_trigger_try_jobs.
  rewrite Hissue. cbn [negb]. unfold _log_info.
  rewrite (bind_Ok _ _ _ _ _ (emit_appends _ _ _ _)).
  unfold lift at 1. unfold bind at 1. rewrite Hlatest, Hcan.
  destruct found as [|item found']; [congruence|]. cbn [is_empty andb].
  fold (builders_without_builds builders (item :: found')).
  unfold ret. f_equal. f_equal. apply add_placeholders_fresh.
  - apply NoDup_without.
  - intros b Hb. now apply In_without in Hb.
Qed.

Lemma fetch_triggered (self : BuildResolver) (builders : list string)
    (patchset : option Z) (w : World) (found : BuildStatuses) :
  isdigit (get_issue_number (_git_cl self)) = true ->
  latest_try_jobs (_git_cl self) (get_issue_number (_git_cl self)) builders
    patchset = Ok found ->
  _can_trigger_jobs self = true ->
  builders_without_builds builders found <> [] ->
  trigger_reply (_git_cl self) (builders_without_builds builders found) = Ok tt ->
  fetch self builders patchset w
  = (Ok (found ++ placeholders (builders_without_builds builders found) TRIGGERED),
     trigger_append (log_append w [fetching self builders patchset])
                    (builders_without_builds builders found)).
Proof.
  intros Hissue Hlatest Hcan Hmissing Hreply. unfold fetch_or_trigger_try_jobs.
  rewrite Hissue. cbn [negb]. unfold _log_info.
  rewrite (bind_Ok _ _ _ _ _ (emit_appends _ _ _ _)).
  unfold lift at 1. unfold bind at 1. rewrite Hlatest, Hcan.
  rewrite andb_false_r. cbn [andb].
  fold (builders_without_builds builders found).
  destruct (builders_without_builds builders found) as [|b bs] eqn:Hwithout;
    [congruence|].
  cbn [is_empty negb]. unfold trigger_try_jobs, bind. rewrite Hreply.
  unfold ret. f_equal. f_equal. rewrite <- Hwithout.
  apply add_placeholders_fresh.
  - apply NoDup_without.
  - intros b' Hb'. now apply In_without in Hb'.
Qed.
(** *** Through the batch *)

Lemma rerequest_keeps_calls (items : list (Build * TryJobStatus)) :
  forall w : World,
    exists w', rerequest_completed items w = (Ok tt, w')
               /\ trigger_calls w' = trigger_calls w.
Proof.
  induction items as [|[build st] items IH]; intros w; simpl.
  - now exists w.
  - destruct (has_number (build_number build)
              && String.eqb (status st) "COMPLETED").
    + destruct (IH (queue_append w [GetBuild build _build_fields]))
        as (w' & Hw' & Hcalls).
      exists w'. split; [|exact Hcalls].
      now rewrite (bind_Ok _ _ _ _ _ (eq_refl : add_get_build_req _ _ w = _)).
    + destruct (IH w) as (w' & Hw' & Hcalls).
      exists w'. split; [|exact Hcalls].
      now rewrite (bind_Ok _ _ _ _ _ (eq_refl : ret tt w = _)).
Qed.

Lemma responses_of_nil (self : BuildResolver) : responses_of self [] = Ok [].
Proof.
  unfold _build_statuses_from_responses, map_fn.
  destruct (_io_pool self); reflexivity.
Qed.

Lemma execute_batch_Ok (self : BuildResolver) :
  (forall requests, exists raw_builds responses,
      bb_round_trip (_git_cl self) requests = Ok raw_builds
      /\ responses_of self raw_builds = Ok responses) ->
  forall w : World,
    exists raw_builds responses w',
      execute_batch (_git_cl self) w = (Ok raw_builds, w')
      /\ responses_of self raw_builds = Ok responses
      /\ trigger_calls w' = trigger_calls w.
Proof.
  intros Hbatch w. unfold execute_batch.
  destruct (bb_requests w) as [|req reqs] eqn:Hreqs.
  - exists [], [], w. split; [reflexivity|]. split; [apply responses_of_nil|reflexivity].
  - destruct (Hbatch (req :: reqs)) as (raws & responses & Hraws & Hresp).
    exists raws, responses. eexists. rewrite Hraws.
    split; [reflexivity|]. split; [exact Hresp | reflexivity].
Qed.

Lemma Build_of_raw_id (raw_build : RawBuild) (k : Build) :
  Build_of_raw raw_build = Ok k -> build_id k <> None.
Proof.
  unfold Build_of_raw.
  destruct (raw_builder raw_build) as [b|]; simpl; [|discriminate].
  destruct (builder_builder b); simpl; [|discriminate].
  destruct (raw_number raw_build); simpl; [|discriminate].
  destruct (raw_id raw_build); simpl; [|discriminate].
  destruct (builder_bucket b); simpl; [|discriminate].
  intros H; injection H as <-. discriminate.
Qed.

Lemma statuses_dict_keys (pairs : list (RawBuild * outcome TryJobStatus)) :
  forall (acc d : BuildStatuses),
    statuses_dict pairs acc = Ok d ->
    forall k, In k (keys d) -> In k (keys acc) \/ build_id k <> None.
Proof.
  induction pairs as [|[raw st] pairs IH]; intros acc d; simpl.
  - intros H; injection H as <-. auto.
  - destruct st as [st|e]; simpl; [|discriminate].
    destruct (Build_of_raw raw) as [key|e] eqn:Hkey; simpl; [|discriminate].
    intros Hd k Hk. destruct (IH _ _ Hd k Hk) as [Hin|Hid]; [|now right].
    rewrite keys_dict_set in Hin. destruct (dict_mem key acc); [now left|].
    apply in_app_iff in Hin. destruct Hin as [Hin | [<- | []]]; [now left|].
    right. exact (Build_of_raw_id _ _ Hkey).
Qed.

Lemma responses_have_ids (self : BuildResolver) (raw_builds : list RawBuild)
    (responses : BuildStatuses) :
  responses_of self raw_builds = Ok responses ->
  forall k, In k (keys responses) -> build_id k <> None.
Proof.
  unfold _build_statuses_from_responses. intros H k Hk.
  destruct (statuses_dict_keys _ _ _ H k Hk) as [[]|Hid]. exact Hid.
Qed.

Lemma dict_get_update_last {V : Type} (k : Build) (v : V)
    (d l1 l2 : dict V) :
  ~ In k (keys l2) ->
  dict_get k (dict_update d (l1 ++ (k, v) :: l2)) = Some v.
Proof.
  intros Hnotin. unfold dict_update. rewrite fold_left_app. simpl.
  fold (dict_update (dict_set k v (fold_left
          (fun acc kv => dict_set (fst kv) (snd kv) acc) l1 d)) l2).
  rewrite dict_get_update_other by assumption.
  now rewrite dict_get_set, Build_eqb_refl.
Qed.

Lemma placeholder_stays (builders : list string) (st : TryJobStatus)
    (found responses : BuildStatuses) (b : string) (self : BuildResolver)
    (raw_builds : list RawBuild) :
  NoDup builders ->
  In b builders ->
  responses_of self raw_builds = Ok responses ->
  dict_get (Build_of_builder b)
    (dict_update (dict_update [] (found ++ placeholders builders st)) responses)
  = Some st.
Proof.
  intros Hnd Hin Hresp.
  rewrite dict_get_update_other.
  - apply in_split in Hin. destruct Hin as (m1 & m2 & ->).
    unfold placeholders. rewrite map_app. simpl. rewrite app_assoc.
    apply dict_get_update_last.
    apply NoDup_remove_2 in Hnd. intros Hk. apply Hnd.
    apply in_or_app. right. unfold keys in Hk. rewrite map_map in Hk.
    simpl in Hk. apply in_map_iff in Hk. destruct Hk as (b' & Heq & Hb').
    injection Heq as ->. exact Hb'.
  - intros Hk. now apply (responses_have_ids _ _ _ Hresp _ Hk).
Qed.
Lemma try_builder_names_nonempty (builds : list Build) :
  builds <> [] -> is_empty (try_builder_names builds) = false.
Proof.
  intros Hne. unfold try_builder_names.
  pose proof (proj2 (proj2 (fold_set_add builder_name builds []))
                    (or_intror Hne)) as H.
  now destruct (fold_left _ builds []).
Qed.

(** C5. Try builders requested without build numbers, triggering
    disabled, no build at all for the revision: [resolve_builds] raises
    [UnresolvedBuildException] (for the missing issue number, or else with
    the message of the check in [fetch_or_trigger_try_jobs]). That check
    raises exactly when no status was found: as soon as one build exists,
    [fetch_or_trigger_try_jobs] returns, and the builders without a build
    are MISSING. *)
Theorem C5_no_builds_and_no_trigger_raises
    (self : BuildResolver) (builds : list Build) (patchset : option Z)
    (w : World) :
  builds <> [] ->
  Forall try_without_number builds ->
  _can_trigger_jobs self = false ->
  latest_try_jobs (_git_cl self) (get_issue_number (_git_cl self))
    (try_builder_names builds) patchset = Ok [] ->
  (exists message w',
      resolve self builds patchset w
      = (Raise (UnresolvedBuildException message), w'))
  /\ (isdigit (get_issue_number (_git_cl self)) = true ->
      resolve self builds patchset w
      = (Raise (UnresolvedBuildException aborted_message),
         log_append w [fetching self (try_builder_names builds) patchset]))
  /\ (forall (builders : list string) (found : BuildStatuses),
        isdigit (get_issue_number (_git_cl self)) = true ->
        latest_try_jobs (_git_cl self) (get_issue_number (_git_cl self))
          builders patchset = Ok found ->
        (found = [] ->
         fetch self builders patchset w
         = (Raise (UnresolvedBuildException aborted_message),
            log_append w [fetching self builders patchset]))
        /\ (found <> [] ->
            fetch self builders patchset w
            = (Ok (found ++ placeholders
                              (builders_without_builds builders found) MISSING),
               log_append w [fetching self builders patchset]))).
Proof.
  intros Hne Htry Hcan Hlatest.
  assert (Hraise : forall e w',
             fetch self (try_builder_names builds) patchset w = (Raise e, w') ->
             resolve self builds patchset w = (Raise e, w')).
  { intros e w' Hfetch. unfold resolve_builds, collect_build_statuses.
    apply bind_Raise.
    rewrite (bind_Ok _ _ _ _ _ (partition_try builds Htry [] w)).
    fold (try_builder_names builds).
    rewrite (try_builder_names_nonempty builds Hne). cbn [negb].
    apply bind_Raise. apply bind_Raise. exact Hfetch. }
  split; [|split].
  - destruct (isdigit (get_issue_number (_git_cl self))) eqn:Hissue.
    + do 2 eexists. apply Hraise. now apply fetch_aborted.
    + do 2 eexists. apply Hraise. now apply fetch_no_issue.
  - intros Hissue. apply Hraise. now apply fetch_aborted.
  - intros builders found Hissue Hfound. split.
    + intros ->. now apply fetch_aborted.
    + intros Hsome. now apply fetch_missing.
Qed.

(** C4. Try builders requested without build numbers, triggering enabled,
    some of them without a build for the revision:
    [fetch_or_trigger_try_jobs] issues one trigger call, for exactly the
    builders without a build, and returns the statuses of the existing
    builds, unchanged, followed by a TRIGGERED placeholder for each of those
    builders; [resolve_builds] then raises [UnresolvedBuildException] for
    the pending builds, having made that one trigger call and no other. *)
Theorem C4_missing_builders_triggered_then_unresolved
    (self : BuildResolver) (builds : list Build) (patchset : option Z)
    (w : World) (found : BuildStatuses) (missing : list string) :
  Forall try_without_number builds ->
  _can_trigger_jobs self = true ->
  isdigit (get_issue_number (_git_cl self)) = true ->
  latest_try_jobs (_git_cl self) (get_issue_number (_git_cl self))
    (try_builder_names builds) patchset = Ok found ->
  missing = builders_without_builds (try_builder_names builds) found ->
  missing <> [] ->
  trigger_reply (_git_cl self) missing = Ok tt ->
  (forall requests, exists raw_builds responses,
      bb_round_trip (_git_cl self) requests = Ok raw_builds
      /\ responses_of self raw_builds = Ok responses) ->
  (forall b, In b missing
             <-> In b (map builder_name builds)
                 /\ ~ In b (map builder_name (keys found)))
  /\ fetch self (try_builder_names builds) patchset w
     = (Ok (found ++ placeholders missing TRIGGERED),
        trigger_append
          (log_append w [fetching self (try_builder_names builds) patchset])
          missing)
  /\ exists w',
       resolve self builds patchset w
       = (Raise (UnresolvedBuildException pending_message), w')
       /\ trigger_calls w' = trigger_calls w ++ [missing].
Proof.
  intros Htry Hcan Hissue Hlatest -> Hmissing Hreply Hbatch.
  set (names := try_builder_names builds) in *.
  set (missing := builders_without_builds names found) in *.
  assert (Hnames : forall b, In b names <-> In b (map builder_name builds)).
  { intros b. unfold names, try_builder_names.
    rewrite (proj1 (proj2 (fold_set_add builder_name builds []))). simpl. tauto. }
  pose proof (fetch_triggered self names patchset w found
                Hissue Hlatest Hcan Hmissing Hreply) as Hfetch.
  split; [|split; [exact Hfetch|]].
  { intros b. unfold missing. rewrite In_without, Hnames. tauto. }
  assert (Hnonempty : is_empty names = false).
  { destruct missing as [|b0 m] eqn:Hm; [congruence|].
    assert (Hb0 : In b0 names).
    { apply (In_without b0 names found). fold missing. rewrite Hm. now left. }
    destruct names; [destruct Hb0 | reflexivity]. }
  destruct (rerequest_keeps_calls (found ++ placeholders missing TRIGGERED)
              (trigger_append (log_append w [fetching self names patchset])
                              missing))
    as (w3 & Hrereq & Hcalls3).
  destruct (execute_batch_Ok self Hbatch w3)
    as (raws & responses & w4 & Hexec & Hresp & Hcalls4).
  assert (Hcollect :
            collect self builds patchset w
            = (Ok (dict_update
                     (dict_update [] (found ++ placeholders missing TRIGGERED))
                     responses), w4)).
  { unfold collect_build_statuses.
    rewrite (bind_Ok _ _ _ _ _ (partition_try builds Htry [] w)).
    fold (try_builder_names builds). fold names.
    rewrite Hnonempty. cbn [negb].
    erewrite bind_Ok.
    2:{ erewrite bind_Ok; [|exact Hfetch].
        erewrite bind_Ok; [|exact Hrereq]. reflexivity. }
    rewrite (bind_Ok _ _ _ _ _ Hexec).
    unfold lift at 1. unfold bind at 1. rewrite Hresp. reflexivity. }
  eexists. split.
  - apply (resolve_raises_pending from_bb_status ERROR_CODES filter_incomplete
             pluralize CLRevisionID_str _ _ _ _ _ _ Hcollect).
    destruct missing as [|b0 m] eqn:Hm; [congruence|].
    apply (dict_get_values (Build_of_builder b0)).
    apply (placeholder_stays (b0 :: m) TRIGGERED found responses b0 self raws).
    + rewrite <- Hm. apply NoDup_without.
    + now left.
    + exact Hresp.
  - simpl. rewrite Hcalls4, Hcalls3. reflexivity.
Qed.
(** *** Keys of the result *)

Lemma bind_same {A B : Type} (m m' : M A) (k : A -> M B) (w : World) :
  m w = m' w -> bind m k w = bind m' k w.
Proof. intros H. unfold bind. now rewrite H. Qed.


End TryJobs.

(** * Further properties of the classifier *)

Section ClassifierEdges.
Variable from_bb_status : string -> outcome TryJobStatus.
Variable ERROR_CODES : list Z.

Local Abbreviation status_if_interrupted :=
  (_status_if_interrupted from_bb_status ERROR_CODES).
Local Abbreviation shard_interrupted := (_shard_interrupted ERROR_CODES).

Lemma fetch_logs_skip (web : Web) (skipped rest : list Log) :
  Forall (skipped_log web) skipped ->
  _fetch_swarming_summary_logs web (skipped ++ rest) "chromium_swarming.summary"
  = _fetch_swarming_summary_logs web rest "chromium_swarming.summary".
Proof.
  induction 1 as [|log skipped (name & Hname & Hskip) _ IH]; [reflexivity|].
  simpl. rewrite Hname; simpl.
  destruct (String.eqb name "chromium_swarming.summary") eqn:Heq.
  - apply String.eqb_eq in Heq. destruct Hskip as [Hne|Hfail]; [congruence|].
    unfold fetch_fails in Hfail. rewrite Hname in Hfail.
    destruct (log_viewUrl log) as [url|]; [|discriminate]. simpl.
    apply andb_prop in Hfail. destruct Hfail as [_ Hfail].
    destruct (session_get_json web url) as [summary|e]; [discriminate|].
    rewrite Hfail. exact IH.
  - exact IH.
Qed.

(** X1. [_fetch_swarming_summary] returns the content of the first summary
    log that can be fetched: logs before it that are no summaries, or whose
    fetch raised a [RequestException], are passed over, and the logs after
    it are never looked at, whatever they are. *)
Theorem X1_first_readable_summary_wins
    (self : BuildResolver) (step : Step) (skipped after : list Log)
    (log : Log) (url : string) (summary : json) :
  step_logs step = Some (skipped ++ log :: after) ->
  Forall (skipped_log (_web self)) skipped ->
  log_name log = Some "chromium_swarming.summary" ->
  log_viewUrl log = Some url ->
  session_get_json (_web self) url = Ok summary ->
  _fetch_swarming_summary self step = Ok summary.
Proof.
  intros Hlogs Hskipped Hname Hurl Hget.
  unfold _fetch_swarming_summary. rewrite Hlogs. simpl.
  rewrite (fetch_logs_skip _ _ _ Hskipped). simpl.
  rewrite Hname; simpl. rewrite Hurl; simpl. now rewrite Hget.
Qed.

Lemma other_log_skipped (web : Web) (log : Log) :
  other_log log -> skipped_log web log.
Proof. intros (name & Hname & Hne). exists name. auto. Qed.

Lemma fetch_without_summary_log (self : BuildResolver) (step : Step) :
  Forall other_log (get_or (step_logs step) []) ->
  _fetch_swarming_summary self step = Ok JNull.
Proof.
  intros Hother. unfold _fetch_swarming_summary.
  rewrite <- (app_nil_r (get_or (step_logs step) [])).
  rewrite fetch_logs_skip; [reflexivity|].
  eapply Forall_impl; [|exact Hother]. intros log. apply other_log_skipped.
Qed.

Lemma steps_without_summary (self : BuildResolver) (steps : list Step) :
  Forall step_without_summary steps ->
  steps_interrupted ERROR_CODES self steps = Ok false.
Proof.
  induction 1 as [|step steps (name & Hname & Hcase) _ IH]; [reflexivity|].
  cbn [steps_interrupted]. rewrite Hname; simpl.
  destruct (fullmatch run_web_tests_pattern name) eqn:Hmatch; [|exact IH].
  destruct Hcase as [Hno|Hother]; [discriminate|].
  rewrite (fetch_without_summary_log self step Hother). simpl. exact IH.
Qed.

(** X2. When no step has both a matching name and a summary log, the
    classifier asks the log server for nothing: for every web client it
    returns the status that Buildbucket reported, converted by
    [from_bb_status]. *)
Theorem X2_nothing_to_fetch_passes_status_through
    (self : BuildResolver) (raw_build : RawBuild) (bb_status : string) :
  failure_type_of raw_build = JNull
  \/ failure_type_of raw_build = JStr "TEST_FAILURE" ->
  Forall step_without_summary (get_or (raw_steps raw_build) []) ->
  raw_status raw_build = Some bb_status ->
  forall web : Web,
    status_if_interrupted
      {| _web := web; _git_cl := _git_cl self; _io_pool := _io_pool self;
         _can_trigger_jobs := _can_trigger_jobs self |} raw_build
    = from_bb_status bb_status.
Proof.
  intros Hft Hsteps Hstatus web. unfold _status_if_interrupted.
  assert (Hset : in_set (failure_type_of raw_build) [JNull; JStr "TEST_FAILURE"]
                 = Ok true)
    by (destruct Hft as [-> | ->]; reflexivity).
  rewrite Hset; simpl.
  rewrite (steps_without_summary _ _ Hsteps); simpl.
  now rewrite Hstatus.
Qed.

(** X3. A step without a name stops the classification with
    [KeyError('name')] as soon as the loop reaches it, that is when the
    steps before it gave nothing to fetch. *)
Theorem X3_unnamed_step_raises_KeyError
    (self : BuildResolver) (raw_build : RawBuild)
    (before after : list Step) (step : Step) :
  failure_type_of raw_build = JNull
  \/ failure_type_of raw_build = JStr "TEST_FAILURE" ->
  raw_steps raw_build = Some (before ++ step :: after) ->
  Forall step_without_summary before ->
  step_name step = None ->
  status_if_interrupted self raw_build = Raise (KeyError "name").
Proof.
  intros Hft Hsteps Hbefore Hname. unfold _status_if_interrupted.
  assert (Hset : in_set (failure_type_of raw_build) [JNull; JStr "TEST_FAILURE"]
                 = Ok true)
    by (destruct Hft as [-> | ->]; reflexivity).
  rewrite Hset, Hsteps; simpl.
  assert (Hscan : steps_interrupted ERROR_CODES self (before ++ step :: after)
                  = Raise (KeyError "name")).
  { clear Hsteps. induction Hbefore as [|s before (name & Hs & Hcase) Hrest IH].
    - simpl. now rewrite Hname.
    - cbn [app steps_interrupted]. rewrite Hs; simpl.
      destruct (fullmatch run_web_tests_pattern name) eqn:Hmatch; [|exact IH].
      destruct Hcase as [Hno|Hother]; [discriminate|].
      rewrite (fetch_without_summary_log self s Hother). simpl. exact IH. }
  now rewrite Hscan.
Qed.

(** X4. The reported status is the last thing the classifier reads: a
    record without ['status'] raises [KeyError('status')] when the scan of
    the steps found no interruption, and is still classified as
    [from_bb_status('INFRA_FAILURE')] when it found one. *)
Theorem X4_status_is_read_last
    (self : BuildResolver) (raw_build : RawBuild) (interrupted : bool) :
  failure_type_of raw_build = JNull
  \/ failure_type_of raw_build = JStr "TEST_FAILURE" ->
  steps_interrupted ERROR_CODES self (get_or (raw_steps raw_build) [])
  = Ok interrupted ->
  raw_status raw_build = None ->
  status_if_interrupted self raw_build
  = if interrupted then from_bb_status "INFRA_FAILURE"
    else Raise (KeyError "status").
Proof.
  intros Hft Hscan Hstatus. unfold _status_if_interrupted.
  assert (Hset : in_set (failure_type_of raw_build) [JNull; JStr "TEST_FAILURE"]
                 = Ok true)
    by (destruct Hft as [-> | ->]; reflexivity).
  rewrite Hset, Hscan; simpl. destruct interrupted; [reflexivity|].
  now rewrite Hstatus.
Qed.

Lemma any_map_passes (passing rest : list json) :
  Forall (shard_passes ERROR_CODES) passing ->
  any_map shard_interrupted (passing ++ rest) = any_map shard_interrupted rest.
Proof.
  induction 1 as [|shard passing Hpass _ IH]; [reflexivity|].
  simpl. unfold shard_passes in Hpass. rewrite Hpass. simpl. exact IH.
Qed.

(** X5. The scan of a summary stops at the first shard that decides:
    after shards that were read and not interrupted, an interrupted shard
    makes the step (and the loop over the steps) answer at once, and a
    shard that cannot be read raises its exception; neither the shards nor
    the steps after it are looked at. *)
Theorem X5_shard_scan_stops_at_first_decision
    (self : BuildResolver) (step : Step) (steps : list Step) (name : string)
    (summary : json) (passing after : list json) (shard : json)
    (decision : outcome bool) :
  step_name step = Some name ->
  fullmatch run_web_tests_pattern name = true ->
  _fetch_swarming_summary self step = Ok summary ->
  shards_of_summary summary = Ok (passing ++ shard :: after) ->
  Forall (shard_passes ERROR_CODES) passing ->
  shard_interrupted shard = decision ->
  decision <> Ok false ->
  steps_interrupted ERROR_CODES self (step :: steps)
  = match decision with
    | Ok _ => Ok true
    | Raise e => Raise e
    end.
Proof.
  intros Hname Hmatch Hfetch Hshards Hpassing Hshard Hdecides.
  rewrite (steps_interrupted_step ERROR_CODES self step steps _ _ _
             Hname Hmatch Hfetch Hshards).
  rewrite (any_map_passes _ _ Hpassing). simpl. rewrite Hshard.
  destruct decision as [[|]|e]; simpl; [reflexivity | congruence | reflexivity].
Qed.

(** X6. A summary that is empty in Python's eyes (null, an empty object,
    array or string, zero, false) or an object without ['shards'] has no
    shards: the step is not interrupted and the scan goes on with the next
    step. *)
Theorem X6_summary_without_shards_is_not_interrupted
    (self : BuildResolver) (step : Step) (steps : list Step) (name : string)
    (summary : json) :
  step_name step = Some name ->
  fullmatch run_web_tests_pattern name = true ->
  _fetch_swarming_summary self step = Ok summary ->
  truthy summary = false
  \/ (exists d, summary = JDict d /\ lookup "shards" d = None) ->
  steps_interrupted ERROR_CODES self (step :: steps)
  = steps_interrupted ERROR_CODES self steps.
Proof.
  intros Hname Hmatch Hfetch Hempty.
  assert (Hshards : shards_of_summary summary = Ok []).
  { unfold shards_of_summary. destruct Hempty as [Hfalsy | (d & -> & Hnone)].
    - now rewrite Hfalsy.
    - destruct (truthy (JDict d)); simpl; [now rewrite Hnone | reflexivity]. }
  now rewrite (steps_interrupted_step ERROR_CODES self step steps _ _ _
                 Hname Hmatch Hfetch Hshards).
Qed.
End ClassifierEdges.

(** * Further properties of the responses *)

Section Responses.
Variable from_bb_status : string -> outcome TryJobStatus.
Variable ERROR_CODES : list Z.

Local Abbreviation status_if_interrupted :=
  (_status_if_interrupted from_bb_status ERROR_CODES).
Local Abbreviation responses_of :=
  (_build_statuses_from_responses from_bb_status ERROR_CODES).

Lemma map_fn_is_map {A B : Type} (self : BuildResolver) (f : A -> outcome B)
    (xs : list A) :
  map_fn self f xs = map f xs.
Proof.
  unfold map_fn. destruct (_io_pool self) as [pool|]; [|reflexivity].
  apply pool_map_is_map.
Qed.

Lemma combine_map_self {A B : Type} (f : A -> B) (xs : list A) :
  combine xs (map f xs) = map (fun x => (x, f x)) xs.
Proof. induction xs as [|x xs IH]; simpl; [reflexivity | now rewrite IH]. Qed.

Lemma responses_as_fold (self : BuildResolver) (raw_builds : list RawBuild) :
  responses_of self raw_builds
  = statuses_dict
      (map (fun raw => (raw, status_if_interrupted self raw)) raw_builds) [].
Proof.
  unfold _build_statuses_from_responses.
  now rewrite map_fn_is_map, combine_map_self.
Qed.

Lemma statuses_dict_app (p1 p2 : list (RawBuild * outcome TryJobStatus)) :
  forall acc : BuildStatuses,
    statuses_dict (p1 ++ p2) acc
    = match statuses_dict p1 acc with
      | Ok d => statuses_dict p2 d
      | Raise e => Raise e
      end.
Proof.
  induction p1 as [|[raw st] p1 IH]; intros acc; simpl; [reflexivity|].
  destruct st as [st|e]; simpl; [|reflexivity].
  destruct (Build_of_raw raw) as [key|e]; simpl; [|reflexivity].
  apply IH.
Qed.

Lemma dict_mem_In {V : Type} (k : Build) (d : dict V) :
  dict_mem k d = true <-> In k (keys d).
Proof.
  unfold dict_mem. pose proof (dict_get_None k d) as Hnone.
  destruct (dict_get k d) as [v|].
  - split; [|reflexivity]. intros _.
    destruct (in_dec (fun a b : Build =>
                        match Build_eqb a b as c
                              return (Build_eqb a b = c -> {a = b} + {a <> b})
                        with
                        | true => fun H => left (proj1 (Build_eqb_eq a b) H)
                        | false => fun H => right (proj1 (Build_eqb_neq a b) H)
                        end eq_refl) k (keys d)) as [Hin|Hnot]; [exact Hin|].
    apply Hnone in Hnot. discriminate.
  - split; [discriminate|]. intros Hin. exfalso.
    now apply (proj1 Hnone eq_refl).
Qed.

Lemma In_keys_dict_set {V : Type} (k k' : Build) (v : V) (d : dict V) :
  In k (keys (dict_set k' v d)) <-> In k (keys d) \/ k = k'.
Proof.
  rewrite keys_dict_set. destruct (dict_mem k' d) eqn:Hmem.
  - apply dict_mem_In in Hmem. split; [auto|].
    intros [Hin| ->]; assumption.
  - rewrite in_app_iff. simpl. intuition congruence.
Qed.

Lemma statuses_dict_inv (pairs : list (RawBuild * outcome TryJobStatus)) :
  forall acc d : BuildStatuses,
    statuses_dict pairs acc = Ok d ->
    unique_keys acc ->
    unique_keys d
    /\ (List.length d <= List.length acc + List.length pairs)%nat
    /\ (forall k, In k (keys d) ->
         In k (keys acc)
         \/ exists raw st, In (raw, st) pairs /\ Build_of_raw raw = Ok k)
    /\ (forall k, In k (keys acc) -> In k (keys d))
    /\ (forall raw st, In (raw, st) pairs ->
         exists k s, st = Ok s /\ Build_of_raw raw = Ok k /\ In k (keys d)).
Proof.
  induction pairs as [|[raw st] pairs IH]; intros acc d Hd Hacc; simpl in Hd.
  - injection Hd as <-. repeat split; auto; [lia | intros raw st []].
  - destruct st as [s|e]; simpl in Hd; [|discriminate].
    destruct (Build_of_raw raw) as [key|e] eqn:Hkey; simpl in Hd; [|discriminate].
    destruct (IH _ _ Hd (unique_keys_set key s acc Hacc))
      as (Hunique & Hlen & Hfrom & Hkept & Hall).
    split; [exact Hunique|]. split.
    { pose proof (length_dict_set key s acc). simpl. lia. }
    split.
    { intros k Hk. destruct (Hfrom k Hk) as [Hin|(raw' & st' & Hin & Hraw')].
      - apply In_keys_dict_set in Hin. destruct Hin as [Hin| ->]; [now left|].
        right. exists raw, (Ok s). split; [now left | exact Hkey].
      - right. exists raw', st'. split; [now right | exact Hraw']. }
    split.
    { intros k Hk. apply Hkept. apply In_keys_dict_set. now left. }
    intros raw' st' [Heq|Hin].
    + injection Heq as <- <-. exists key, s. repeat split; auto.
      apply Hkept. apply In_keys_dict_set. now right.
    + now apply Hall.
Qed.

(** X7. When [_build_statuses_from_responses] returns, its result is a
    dictionary with no key twice and at most one entry per raw build; every
    key is the [Build] of some raw build of the batch and carries its build
    id and build number, and every raw build of the batch is represented by
    its key. *)
Theorem X7_responses_cover_the_batch
    (self : BuildResolver) (raw_builds : list RawBuild)
    (responses : BuildStatuses) :
  responses_of self raw_builds = Ok responses ->
  unique_keys responses
  /\ (List.length responses <= List.length raw_builds)%nat
  /\ (forall k, In k (keys responses) ->
       build_id k <> None /\ build_number k <> None
       /\ exists raw, In raw raw_builds /\ Build_of_raw raw = Ok k)
  /\ (forall raw, In raw raw_builds ->
       exists k, Build_of_raw raw = Ok k /\ In k (keys responses)).
Proof.
  intros Hresponses. rewrite responses_as_fold in Hresponses.
  destruct (statuses_dict_inv _ _ _ Hresponses (NoDup_nil _))
    as (Hunique & Hlen & Hfrom & _ & Hall).
  split; [exact Hunique|]. split.
  { rewrite length_map in Hlen. simpl in Hlen. exact Hlen. }
  split.
  - intros k Hk. destruct (Hfrom k Hk) as [[]|(raw & st & Hin & Hraw)].
    apply in_map_iff in Hin. destruct Hin as (raw' & Heq & Hin).
    injection Heq as -> _.
    split; [exact (Build_of_raw_id raw k Hraw)|]. split.
    + unfold Build_of_raw in Hraw.
      destruct (raw_builder raw) as [builder|]; simpl in Hraw; [|discriminate].
      destruct (builder_builder builder); simpl in Hraw; [|discriminate].
      destruct (raw_number raw); simpl in Hraw; [|discriminate].
      destruct (raw_id raw); simpl in Hraw; [|discriminate].
      destruct (builder_bucket builder); simpl in Hraw; [|discriminate].
      injection Hraw as <-. discriminate.
    + now exists raw.
  - intros raw Hin.
    destruct (Hall raw (status_if_interrupted self raw)) as (k & s & _ & Hk & Hd).
    { apply in_map_iff. now exists raw. }
    now exists k.
Qed.

Lemma statuses_dict_get_other (k : Build)
    (pairs : list (RawBuild * outcome TryJobStatus)) :
  forall acc d : BuildStatuses,
    statuses_dict pairs acc = Ok d ->
    (forall raw st, In (raw, st) pairs -> Build_of_raw raw <> Ok k) ->
    dict_get k d = dict_get k acc.
Proof.
  induction pairs as [|[raw st] pairs IH]; intros acc d Hd Hother; simpl in Hd.
  - now injection Hd as <-.
  - destruct st as [s|e]; simpl in Hd; [|discriminate].
    destruct (Build_of_raw raw) as [key|e] eqn:Hkey; simpl in Hd; [|discriminate].
    rewrite (IH _ _ Hd); [|intros raw' st' Hin; apply (Hother raw' st'); now right].
    rewrite dict_get_set. destruct (Build_eqb k key) eqn:Heq; [|reflexivity].
    apply Build_eqb_eq in Heq. subst key.
    exfalso. apply (Hother raw (Ok s)); [now left | exact Hkey].
Qed.

(** X8. When several raw builds of one batch have the same key, the entry
    of that key holds the status of the last of them: the comprehension
    overwrites earlier values. *)
Theorem X8_last_response_of_a_key_wins
    (self : BuildResolver) (before after : list RawBuild) (raw : RawBuild)
    (k : Build) (responses : BuildStatuses) :
  responses_of self (before ++ raw :: after) = Ok responses ->
  Build_of_raw raw = Ok k ->
  (forall later, In later after -> Build_of_raw later <> Ok k) ->
  exists st,
    status_if_interrupted self raw = Ok st
    /\ dict_get k responses = Some st.
Proof.
  intros Hresponses Hkey Hlater. rewrite responses_as_fold in Hresponses.
  rewrite map_app, statuses_dict_app in Hresponses.
  destruct (statuses_dict _ []) as [d1|e]; [|discriminate].
  simpl in Hresponses.
  destruct (status_if_interrupted self raw) as [st|e]; simpl in Hresponses;
    [|discriminate].
  rewrite Hkey in Hresponses. simpl in Hresponses.
  exists st. split; [reflexivity|].
  rewrite (statuses_dict_get_other k _ _ _ Hresponses).
  - rewrite dict_get_set. now rewrite Build_eqb_refl.
  - intros raw' st' Hin. apply in_map_iff in Hin.
    destruct Hin as (later & Heq & Hin). injection Heq as -> _.
    now apply Hlater.
Qed.

(** X9. One raw build that cannot be classified or keyed makes the whole
    call raise: the exception of the first such raw build, in batch order,
    is the exception of [_build_statuses_from_responses], with the status
    taken before the key. *)
Theorem X9_first_unreadable_response_raises
    (self : BuildResolver) (before after : list RawBuild) (raw : RawBuild)
    (e : exn) :
  Forall (fun r => exists st k, status_if_interrupted self r = Ok st
                                /\ Build_of_raw r = Ok k) before ->
  status_if_interrupted self raw = Raise e
  \/ ((exists st, status_if_interrupted self raw = Ok st)
      /\ Build_of_raw raw = Raise e) ->
  responses_of self (before ++ raw :: after) = Raise e.
Proof.
  intros Hbefore Hraw. rewrite responses_as_fold, map_app, statuses_dict_app.
  assert (Hd : forall acc, exists d,
             statuses_dict
               (map (fun r => (r, status_if_interrupted self r)) before) acc
             = Ok d).
  { induction Hbefore as [|r before (st & k & Hst & Hk) _ IH]; intros acc; simpl.
    - now exists acc.
    - rewrite Hst, Hk. simpl. apply IH. }
  destruct (Hd []) as (d & ->). simpl.
  destruct Hraw as [-> | [(st & ->) ->]]; reflexivity.
Qed.
End Responses.

(** * Further properties of the first loop *)

Section FirstLoop.

Lemma queue_append_nil (w : World) : queue_append w [] = w.
Proof. destruct w. unfold queue_append. simpl. now rewrite app_nil_r. Qed.

Lemma partition_closed_form (builds : list Build) :
  forall (acc : list string) (w : World),
    partition_builds builds acc w
    = (Ok (fold_left (fun names build => set_add (builder_name build) names)
                     (filter needs_inference builds) acc),
       queue_append w (flat_map first_loop_requests builds)).
Proof.
  induction builds as [|build builds IH]; intros acc w; simpl.
  - now rewrite queue_append_nil.
  - unfold needs_inference at 1. unfold first_loop_requests at 1.
    destruct (has_number (build_number build)); simpl.
    + erewrite bind_Ok; [|reflexivity]. rewrite IH. f_equal.
      unfold queue_append. simpl. now rewrite <- app_assoc.
    + destruct (String.eqb (bucket build) "try"); simpl.
      * apply IH.
      * erewrite bind_Ok; [|reflexivity]. rewrite IH. f_equal.
        unfold queue_append. simpl. now rewrite <- app_assoc.
Qed.

Lemma set_add_spec (y x : string) (s : list string) :
  In y (set_add x s) <-> In y s \/ y = x.
Proof.
  unfold set_add. destruct (set_mem x s) eqn:Hmem.
  - apply set_mem_In in Hmem. split; [now left|].
    intros [Hy | ->]; assumption.
  - rewrite in_app_iff. simpl. split.
    + intros [Hy | [<- | []]]; [now left | now right].
    + intros [Hy | ->]; [now left | right; now left].
Qed.

Lemma names_spec {X : Type} (f : X -> string) (xs : list X) :
  forall acc : list string,
    NoDup acc ->
    NoDup (fold_left (fun names x => set_add (f x) names) xs acc)
    /\ forall b,
         In b (fold_left (fun names x => set_add (f x) names) xs acc)
         <-> In b acc \/ In b (map f xs).
Proof.
  induction xs as [|x xs IH]; intros acc Hacc; simpl.
  - split; [exact Hacc|]. intros b. split; [now left|].
    intros [Hb | []]. exact Hb.
  - destruct (IH (set_add (f x) acc) (NoDup_set_add (f x) acc Hacc))
      as [Hnodup Hin].
    split; [exact Hnodup|]. intros b. rewrite Hin, set_add_spec. split.
    + intros [[Hb | ->] | Hb];
        [now left | right; now left | right; now right].
    + intros [Hb | [<- | Hb]];
        [left; now left | left; now right | now right].
Qed.

Lemma In_names (builds : list Build) (b : string) :
  In b (try_builder_names (filter needs_inference builds))
  <-> exists build, In build builds
                    /\ needs_inference build = true
                    /\ builder_name build = b.
Proof.
  destruct (names_spec builder_name (filter needs_inference builds) []
              (NoDup_nil _)) as [_ Hin].
  unfold try_builder_names. rewrite Hin. split.
  - intros [[] | Hb]. apply in_map_iff in Hb.
    destruct Hb as (build & Hname & Hb).
    apply filter_In in Hb. destruct Hb as [Hb Hneeds]. now exists build.
  - intros (build & Hb & Hneeds & Hname). right. apply in_map_iff.
    exists build. split; [exact Hname|]. apply filter_In. now split.
Qed.

Lemma without_NoDup (builders : list string) (found : BuildStatuses) :
  NoDup (builders_without_builds builders found).
Proof.
  unfold builders_without_builds, set_diff, set_of_list.
  apply NoDup_filter.
  exact (proj1 (names_spec (fun x => x) builders [] (NoDup_nil _))).
Qed.

Lemma without_In (b : string) (builders : list string) (found : BuildStatuses) :
  In b (builders_without_builds builders found)
  <-> In b builders /\ ~ In b (map builder_name (keys found)).
Proof.
  unfold builders_without_builds, set_diff, set_of_list.
  rewrite filter_In.
  rewrite (proj2 (names_spec (fun x => x) builders [] (NoDup_nil _)) b).
  rewrite map_id, negb_true_iff, set_mem_not_In. split.
  - intros [[[] | Hb] Hnot]. now split.
  - intros [Hb Hnot]. split; [now right | exact Hnot].
Qed.

(** X10. The first loop of [resolve_builds] in closed form: it queues, in
    the order of the requests, one [GetBuild] per numbered build and one
    search for the latest failure per unnumbered build outside the try
    bucket, touches nothing else, and hands on the names of the unnumbered
    try builders, each once. *)
Theorem X10_first_loop_queues_in_request_order
    (builds : list Build) (w : World) :
  partition_builds builds [] w
  = (Ok (try_builder_names (filter needs_inference builds)),
     queue_append w (flat_map first_loop_requests builds))
  /\ NoDup (try_builder_names (filter needs_inference builds))
  /\ forall b : string,
       In b (try_builder_names (filter needs_inference builds))
       <-> exists build, In build builds
                         /\ needs_inference build = true
                         /\ builder_name build = b.
Proof.
  split; [apply partition_closed_form|]. split; [|apply In_names].
  exact (proj1 (names_spec builder_name (filter needs_inference builds) []
                  (NoDup_nil _))).
Qed.
End FirstLoop.

(** * Further properties of [resolve_builds] *)

Section Requests.
Variable from_bb_status : string -> outcome TryJobStatus.
Variable ERROR_CODES : list Z.
Variable filter_incomplete : BuildStatuses -> list Build.
Variable pluralize : string -> nat -> string.
Variable CLRevisionID_str : Z -> option Z -> string.

Local Abbreviation fetch :=
  (fetch_or_trigger_try_jobs pluralize CLRevisionID_str).
Local Abbreviation fetching := (fetching_record pluralize CLRevisionID_str).
Local Abbreviation collect :=
  (collect_build_statuses from_bb_status ERROR_CODES pluralize CLRevisionID_str).
Local Abbreviation resolve :=
  (resolve_builds from_bb_status ERROR_CODES filter_incomplete pluralize
     CLRevisionID_str).
Local Abbreviation responses_of :=
  (_build_statuses_from_responses from_bb_status ERROR_CODES).

(** *** Build numbers *)

Lemma without_zero_fields (build : Build) :
  has_number (build_number (without_zero build))
  = has_number (build_number build)
  /\ builder_name (without_zero build) = builder_name build
  /\ bucket (without_zero build) = bucket build
  /\ (has_number (build_number build) = true -> without_zero build = build).
Proof.
  unfold without_zero.
  destruct (has_number (build_number build)) eqn:Hnum; simpl; auto.
  repeat split; auto. discriminate.
Qed.

Lemma partition_without_zero (builds : list Build) :
  forall (acc : list string) (w : World),
    partition_builds (map without_zero builds) acc w
    = partition_builds builds acc w.
Proof.
  induction builds as [|build builds IH]; intros acc w; simpl; [reflexivity|].
  destruct (without_zero_fields build) as (Hnum & Hname & Hbucket & Hsame).
  rewrite Hnum, Hbucket, Hname. unfold _builder_predicate.
  rewrite Hname, Hbucket.
  destruct (has_number (build_number build)).
  - rewrite (Hsame eq_refl). unfold bind. simpl. apply IH.
  - destruct (String.eqb (bucket build) "try"); [apply IH|].
    unfold bind. simpl. apply IH.
Qed.

(** X11. A build number of 0 counts as no build number: a request with
    number 0 is resolved exactly as the same request without a number, for
    every reply of the services. *)
Theorem X11_number_zero_is_no_number
    (self : BuildResolver) (builds : list Build) (patchset : option Z)
    (w : World) :
  resolve self (map without_zero builds) patchset w
  = resolve self builds patchset w.
Proof.
  unfold resolve_builds, collect_build_statuses.
  apply bind_same. apply bind_same. apply partition_without_zero.
Qed.

(** *** Requests that need no inference *)

Lemma filter_none {X : Type} (p : X -> bool) (l : list X) :
  Forall (fun x => p x = false) l -> filter p l = [].
Proof.
  induction 1 as [|x l Hx _ IH]; simpl; [reflexivity | now rewrite Hx].
Qed.

Lemma collect_without_inference (self : BuildResolver) (builds : list Build)
    (patchset : option Z) (w : World) :
  Forall (fun build => needs_inference build = false) builds ->
  collect self builds patchset w
  = bind (execute_batch (_git_cl self))
         (fun raw_builds =>
            bind (lift (responses_of self raw_builds))
                 (fun responses => ret (dict_update [] responses)))
         (queue_append w (flat_map first_loop_requests builds)).
Proof.
  intros Hnone. unfold collect_build_statuses.
  erewrite bind_Ok; [|apply partition_closed_form].
  rewrite (filter_none _ _ Hnone). simpl.
  erewrite bind_Ok; [|reflexivity]. reflexivity.
Qed.

(** X12. When no request needs inference and Buildbucket has no build for
    the batch (or nothing was queued), [resolve_builds] returns the empty
    dictionary: nothing is logged, not even that all builds finished, and
    nothing is triggered. *)
Theorem X12_no_builds_found_returns_empty
    (self : BuildResolver) (builds : list Build) (patchset : option Z)
    (w : World) :
  Forall (fun build => needs_inference build = false) builds ->
  bb_requests w ++ flat_map first_loop_requests builds = []
  \/ bb_round_trip (_git_cl self)
       (bb_requests w ++ flat_map first_loop_requests builds) = Ok [] ->
  resolve self builds patchset w
  = (Ok [], {| bb_requests := []; trigger_calls := trigger_calls w;
               log := log w |}).
Proof.
  intros Hnone Hbatch. unfold resolve_builds.
  erewrite bind_Ok.
  2:{ rewrite (collect_without_inference _ _ _ _ Hnone).
      erewrite bind_Ok.
      2:{ unfold execute_batch, queue_append.
          cbn [bb_requests trigger_calls log].
          destruct Hbatch as [Hempty|Hreply].
          - rewrite Hempty. reflexivity.
          - revert Hreply.
            destruct (bb_requests w ++ flat_map first_loop_requests builds);
              intros Hreply; [reflexivity|].
            rewrite Hreply. reflexivity. }
      rewrite responses_of_nil. reflexivity. }
  reflexivity.
Qed.

(** X13. When a request needs inference and the branch has no numeric
    issue number, [resolve_builds] raises [UnresolvedBuildException] with
    the message about the issue number: the requests of the first loop stay
    queued and are never sent, nothing is logged and nothing is triggered. *)
Theorem X13_no_issue_number_raises_before_any_call
    (self : BuildResolver) (builds : list Build) (patchset : option Z)
    (w : World) (build : Build) :
  In build builds ->
  needs_inference build = true ->
  isdigit (get_issue_number (_git_cl self)) = false ->
  resolve self builds patchset w
  = (Raise (UnresolvedBuildException no_issue_message),
     queue_append w (flat_map first_loop_requests builds)).
Proof.
  intros Hin Hneeds Hissue. unfold resolve_builds.
  apply bind_Raise. unfold collect_build_statuses.
  erewrite bind_Ok; [|apply partition_closed_form].
  fold (try_builder_names (filter needs_inference builds)).
  rewrite (try_builder_names_nonempty from_bb_status pluralize).
  2:{ intros Hnil. assert (Hb : In build (filter needs_inference builds))
        by (apply filter_In; now split).
      rewrite Hnil in Hb. destruct Hb. }
  cbn [negb]. apply bind_Raise. apply bind_Raise.
  now apply fetch_no_issue.
Qed.

Lemma responses_of_web (self self' : BuildResolver) (raw_builds : list RawBuild) :
  _web self = _web self' ->
  responses_of self raw_builds = responses_of self' raw_builds.
Proof.
  intros Hweb. rewrite !responses_as_fold. f_equal. apply map_ext.
  intros raw. f_equal. now apply status_if_interrupted_web.
Qed.

(** X14. When no request needs inference, the result depends on the
    resolver only through its web client and the Buildbucket round trip:
    the issue number, the try jobs of the CL, the trigger switch and the
    worker pool play no part. *)
Theorem X14_explicit_requests_ignore_the_CL
    (self self' : BuildResolver) (builds : list Build) (patchset : option Z)
    (w : World) :
  Forall (fun build => needs_inference build = false) builds ->
  _web self = _web self' ->
  (forall requests,
      bb_round_trip (_git_cl self) requests
      = bb_round_trip (_git_cl self') requests) ->
  resolve self builds patchset w = resolve self' builds patchset w.
Proof.
  intros Hnone Hweb Hbatch. unfold resolve_builds. apply bind_same.
  rewrite !(collect_without_inference _ _ _ _ Hnone).
  unfold bind, execute_batch.
  destruct (bb_requests (queue_append w (flat_map first_loop_requests builds)))
    as [|request requests].
  - unfold lift. now rewrite !responses_of_nil.
  - rewrite Hbatch.
    destruct (bb_round_trip (_git_cl self') (request :: requests))
      as [raw_builds|e]; [|reflexivity].
    unfold lift. now rewrite (responses_of_web self self' raw_builds Hweb).
Qed.
End Requests.

(** * Further properties of the inferred try builds *)

Section InferredBuilds.
Variable from_bb_status : string -> outcome TryJobStatus.
Variable ERROR_CODES : list Z.
Variable filter_incomplete : BuildStatuses -> list Build.
Variable pluralize : string -> nat -> string.
Variable CLRevisionID_str : Z -> option Z -> string.

Local Abbreviation fetch :=
  (fetch_or_trigger_try_jobs pluralize CLRevisionID_str).
Local Abbreviation fetching := (fetching_record pluralize CLRevisionID_str).
Local Abbreviation collect :=
  (collect_build_statuses from_bb_status ERROR_CODES pluralize CLRevisionID_str).
Local Abbreviation resolve :=
  (resolve_builds from_bb_status ERROR_CODES filter_incomplete pluralize
     CLRevisionID_str).
Local Abbreviation responses_of :=
  (_build_statuses_from_responses from_bb_status ERROR_CODES).
Local Abbreviation latest self builders patchset :=
  (latest_try_jobs (_git_cl self) (get_issue_number (_git_cl self)) builders
     patchset).

Lemma bind_inv {A B : Type} (m : M A) (k : A -> M B) (w w' : World)
    (r : outcome B) :
  bind m k w = (r, w') ->
  (exists e, m w = (Raise e, w') /\ r = Raise e)
  \/ (exists a w1, m w = (Ok a, w1) /\ k a w1 = (r, w')).
Proof.
  unfold bind. destruct (m w) as [[a|e] w1]; intros H.
  - right. now exists a, w1.
  - left. injection H as <- <-. now exists e.
Qed.

(** The ways out of [fetch_or_trigger_try_jobs], by what happened to the
    world. *)
Lemma fetch_cases (self : BuildResolver) (builders : list string)
    (patchset : option Z) (w w' : World) (r : outcome BuildStatuses) :
  fetch self builders patchset w = (r, w') ->
  (w' = w /\ exists e, r = Raise e)
  \/ (w' = log_append w [fetching self builders patchset]
      /\ exists e, r = Raise e)
  \/ (exists found,
        isdigit (get_issue_number (_git_cl self)) = true
        /\ latest self builders patchset = Ok found
        /\ ((w' = log_append w [fetching self builders patchset]
             /\ (_can_trigger_jobs self = false
                 \/ builders_without_builds builders found = [])
             /\ r = Ok (found ++ placeholders
                                   (builders_without_builds builders found)
                                   MISSING))
            \/ (w' = trigger_append
                       (log_append w [fetching self builders patchset])
                       (builders_without_builds builders found)
                /\ _can_trigger_jobs self = true
                /\ builders_without_builds builders found <> []
                /\ (r = Ok (found ++ placeholders
                                      (builders_without_builds builders found)
                                      TRIGGERED)
                    \/ exists e, r = Raise e)))).
Proof.
  unfold fetch_or_trigger_try_jobs.
  destruct (isdigit (get_issue_number (_git_cl self))) eqn:Hissue; cbn [negb].
  2:{ unfold raise. intros H. injection H as <- <-. left. split; eauto. }
  unfold _log_info. rewrite (bind_Ok _ _ _ _ _ (emit_appends _ _ _ _)).
  unfold lift at 1. unfold bind at 1.
  destruct (latest_try_jobs (_git_cl self) (get_issue_number (_git_cl self))
              builders patchset) as [found|e] eqn:Hlatest.
  2:{ intros H. injection H as <- <-. right. left. split; eauto. }
  fold (builders_without_builds builders found).
  assert (Hfresh : forall st,
             add_placeholders (builders_without_builds builders found) st found
             = found ++ placeholders (builders_without_builds builders found) st).
  { intros st. apply add_placeholders_fresh.
    - apply without_NoDup.
    - intros b Hb.
      now apply without_In in Hb. }
  rewrite !Hfresh. clear Hfresh.
  destruct (_can_trigger_jobs self) eqn:Hcan.
  - rewrite andb_false_r. cbn [andb].
    destruct (builders_without_builds builders found) as [|b missing] eqn:Hmissing.
    + cbn [is_empty negb]. unfold ret. intros H. injection H as <- <-.
      right. right. exists found. split; [reflexivity|]. split; [reflexivity|].
      left. split; [reflexivity|]. split; [auto|].
      rewrite Hmissing. reflexivity.
    + cbn [is_empty negb]. unfold trigger_try_jobs, bind.
      destruct (trigger_reply (_git_cl self) (b :: missing)) as [[]|e];
        unfold ret; intros H; injection H as <- <-;
        right; right; exists found; rewrite !Hmissing; (split; [reflexivity|]);
        (split; [reflexivity|]); right; (split; [reflexivity|]);
        (split; [reflexivity|]); (split; [discriminate|]).
      * left. reflexivity.
      * right. eauto.
  - rewrite andb_true_r. cbn [andb].
    destruct (is_empty found) eqn:Hempty.
    + unfold raise. intros H. injection H as <- <-. right. left. split; eauto.
    + unfold ret. intros H. injection H as <- <-.
      right. right. exists found. split; [reflexivity|]. split; [reflexivity|].
      left. split; [reflexivity|]. split; [auto | reflexivity].
Qed.

Lemma batch_keeps_calls (self : BuildResolver) (build_statuses : BuildStatuses)
    (w w' : World) (r : outcome BuildStatuses) :
  bind (execute_batch (_git_cl self))
       (fun raw_builds =>
          bind (lift (responses_of self raw_builds))
               (fun responses => ret (dict_update build_statuses responses)))
       w = (r, w') ->
  trigger_calls w' = trigger_calls w.
Proof.
  unfold bind, execute_batch, lift, ret.
  destruct (bb_requests w) as [|request requests].
  - destruct (responses_of self []); intros H; injection H as <- <-; reflexivity.
  - destruct (bb_round_trip (_git_cl self) (request :: requests)) as [raws|e].
    + destruct (responses_of self raws); intros H; injection H as <- <-;
        reflexivity.
    + intros H. injection H as <- <-. reflexivity.
Qed.

Lemma summary_keeps_calls (build_statuses : BuildStatuses) (w w' : World)
    (r : outcome BuildStatuses) :
  bind (if negb (is_empty build_statuses)
        then log_builds filter_incomplete build_statuses
        else ret tt)
       (fun _ =>
          if existsb (TryJobStatus_eqb TRIGGERED) (values build_statuses)
          then raise (UnresolvedBuildException pending_message)
          else ret build_statuses)
       w = (r, w') ->
  trigger_calls w' = trigger_calls w.
Proof.
  destruct (is_empty build_statuses); cbn [negb].
  - unfold bind, ret, raise.
    destruct (existsb _ _); intros H; injection H as <- <-; reflexivity.
  - rewrite (bind_Ok _ _ _ _ _ (log_builds_appends _ _ _)).
    unfold ret, raise.
    destruct (existsb _ _); intros H; injection H as <- <-; reflexivity.
Qed.

Lemma collect_trigger_calls (self : BuildResolver) (builds : list Build)
    (patchset : option Z) (w w' : World) (r : outcome BuildStatuses) :
  collect self builds patchset w = (r, w') ->
  trigger_calls w' = trigger_calls w
  \/ (_can_trigger_jobs self = true
      /\ exists found,
           latest self (try_builder_names (filter needs_inference builds))
             patchset = Ok found
           /\ builders_without_builds
                (try_builder_names (filter needs_inference builds)) found <> []
           /\ trigger_calls w'
              = trigger_calls w
                ++ [builders_without_builds
                      (try_builder_names (filter needs_inference builds))
                      found]).
Proof.
  unfold collect_build_statuses.
  erewrite bind_Ok; [|apply partition_closed_form].
  fold (try_builder_names (filter needs_inference builds)).
  destruct (is_empty (try_builder_names (filter needs_inference builds)));
    cbn [negb].
  - erewrite bind_Ok; [|reflexivity]. intros H.
    left. now rewrite (batch_keeps_calls _ _ _ _ _ H).
  - intros H. apply bind_inv in H.
    assert (Hfetch : forall r1 w1,
               fetch self (try_builder_names (filter needs_inference builds))
                 patchset
                 (queue_append w (flat_map first_loop_requests builds))
               = (r1, w1) ->
               forall w2, trigger_calls w2 = trigger_calls w1 ->
               trigger_calls w2 = trigger_calls w
               \/ (_can_trigger_jobs self = true
                   /\ exists found,
                        latest self
                          (try_builder_names (filter needs_inference builds))
                          patchset = Ok found
                        /\ builders_without_builds
                             (try_builder_names (filter needs_inference builds))
                             found <> []
                        /\ trigger_calls w2
                           = trigger_calls w
                             ++ [builders_without_builds
                                   (try_builder_names
                                      (filter needs_inference builds))
                                   found])).
    { intros r1 w1 Hf w2 Hw2. rewrite Hw2.
      destruct (fetch_cases _ _ _ _ _ _ Hf)
        as [[-> _] | [[-> _] | (found & _ & Hlatest &
                                [(-> & _) | (-> & Hcan & Hmissing & _)])]];
        try (left; reflexivity).
      right. split; [exact Hcan|]. exists found. auto. }
    destruct H as [(e & H & _) | (bs0 & w3 & H & Hbatch)].
    + apply bind_inv in H. destruct H as [(e' & H & _) | (d & w1 & H & Hrest)].
      * exact (Hfetch _ _ H _ eq_refl).
      * apply (Hfetch _ _ H).
        destruct (rerequest_keeps_calls d w1) as (w2 & Hre & Hcalls).
        rewrite (bind_Ok _ _ _ _ _ Hre) in Hrest. unfold ret in Hrest.
        congruence.
    + apply bind_inv_Ok in H. destruct H as (d & w1 & H & Hrest).
      apply (Hfetch _ _ H).
      destruct (rerequest_keeps_calls d w1) as (w2 & Hre & Hcalls).
      rewrite (bind_Ok _ _ _ _ _ Hre) in Hrest. unfold ret in Hrest.
      injection Hrest as _ <-.
      now rewrite (batch_keeps_calls _ _ _ _ _ Hbatch).
Qed.

(** X15. However [resolve_builds] ends, it has called [trigger_try_jobs]
    at most once, and only when triggering is allowed; the one call names,
    each once, exactly the inferred try builders for which
    [latest_try_jobs] found no build. *)
Theorem X15_at_most_one_trigger_call
    (self : BuildResolver) (builds : list Build) (patchset : option Z)
    (w w' : World) (r : outcome BuildStatuses) :
  resolve self builds patchset w = (r, w') ->
  trigger_calls w' = trigger_calls w
  \/ (_can_trigger_jobs self = true
      /\ exists found missing,
           latest self (try_builder_names (filter needs_inference builds))
             patchset = Ok found
           /\ trigger_calls w' = trigger_calls w ++ [missing]
           /\ missing <> []
           /\ NoDup missing
           /\ forall b,
                In b missing
                <-> (exists build, In build builds
                                   /\ needs_inference build = true
                                   /\ builder_name build = b)
                    /\ ~ In b (map builder_name (keys found))).
Proof.
  unfold resolve_builds. intros H. apply bind_inv in H.
  assert (Hcollect : forall r1 w1,
             collect self builds patchset w = (r1, w1) ->
             trigger_calls w' = trigger_calls w1 ->
             trigger_calls w' = trigger_calls w
             \/ (_can_trigger_jobs self = true
                 /\ exists found missing,
                      latest self
                        (try_builder_names (filter needs_inference builds))
                        patchset = Ok found
                      /\ trigger_calls w' = trigger_calls w ++ [missing]
                      /\ missing <> []
                      /\ NoDup missing
                      /\ forall b,
                           In b missing
                           <-> (exists build, In build builds
                                              /\ needs_inference build = true
                                              /\ builder_name build = b)
                               /\ ~ In b (map builder_name (keys found)))).
  { intros r1 w1 Hc Hw'. rewrite Hw'.
    destruct (collect_trigger_calls _ _ _ _ _ _ Hc)
      as [Hsame | (Hcan & found & Hlatest & Hmissing & Hcalls)];
      [now left|].
    right. split; [exact Hcan|].
    exists found,
      (builders_without_builds
         (try_builder_names (filter needs_inference builds)) found).
    split; [exact Hlatest|]. split; [exact Hcalls|]. split; [exact Hmissing|].
    split; [apply without_NoDup|].
    intros b.
    rewrite without_In.
    now rewrite In_names. }
  destruct H as [(e & H & _) | (bs & w1 & H & Hrest)].
  - exact (Hcollect _ _ H eq_refl).
  - apply (Hcollect _ _ H). exact (summary_keeps_calls _ _ _ _ Hrest).
Qed.

Lemma In_keys_app {V : Type} (k : Build) (d1 d2 : dict V) :
  In k (keys (d1 ++ d2)) <-> In k (keys d1) \/ In k (keys d2).
Proof. unfold keys. rewrite map_app. apply in_app_iff. Qed.

Lemma fetch_covers (builders : list string) (found : BuildStatuses)
    (st : TryJobStatus) (b : string) :
  In b builders ->
  (exists k, In k (keys found) /\ builder_name k = b)
  \/ (In b (builders_without_builds builders found)
      /\ In (Build_of_builder b)
            (keys (placeholders (builders_without_builds builders found) st))).
Proof.
  intros Hb.
  destruct (in_dec string_dec b (map builder_name (keys found))) as [Hin|Hnot].
  - left. apply in_map_iff in Hin. destruct Hin as (k & Hname & Hk).
    now exists k.
  - right.
    assert (Hmissing : In b (builders_without_builds builders found))
      by (apply without_In;
          now split).
    split; [exact Hmissing|].
    unfold placeholders, keys. rewrite map_map. simpl.
    apply in_map_iff. now exists b.
Qed.

(** X16. When [fetch_or_trigger_try_jobs] returns, its result is what
    [latest_try_jobs] found, in that order, followed by one placeholder
    [Build(builder)] for every requested builder without a build; the
    placeholders are [TRIGGERED] when triggering is allowed and [MISSING]
    otherwise, and every requested builder has an entry. *)
Theorem X16_fetch_returns_found_then_placeholders
    (self : BuildResolver) (builders : list string) (patchset : option Z)
    (w w' : World) (build_statuses : BuildStatuses) :
  fetch self builders patchset w = (Ok build_statuses, w') ->
  exists found,
    latest self builders patchset = Ok found
    /\ build_statuses
       = found ++ placeholders (builders_without_builds builders found)
                               (if _can_trigger_jobs self
                                then TRIGGERED else MISSING)
    /\ (forall b, In b builders ->
         exists k, In k (keys build_statuses) /\ builder_name k = b)
    /\ log w' = log w ++ [fetching self builders patchset].
Proof.
  intros H.
  destruct (fetch_cases _ _ _ _ _ _ H)
    as [[_ (e & He)] | [[_ (e & He)] | (found & _ & Hlatest & Hcase)]];
    try discriminate.
  exists found. split; [exact Hlatest|].
  assert (Hd : build_statuses
               = found ++ placeholders (builders_without_builds builders found)
                                       (if _can_trigger_jobs self
                                        then TRIGGERED else MISSING)
               /\ log w' = log w ++ [fetching self builders patchset]).
  { destruct Hcase as [(-> & Hwhy & Hr) | (-> & Hcan & _ & [Hr | (e & He)])];
      try discriminate.
    - injection Hr as ->. split; [|reflexivity].
      destruct Hwhy as [-> | ->]; [reflexivity|].
      unfold placeholders. simpl. reflexivity.
    - injection Hr as ->. rewrite Hcan. split; reflexivity. }
  destruct Hd as [-> Hlog]. split; [reflexivity|]. split; [|exact Hlog].
  intros b Hb.
  destruct (fetch_covers builders found
              (if _can_trigger_jobs self then TRIGGERED else MISSING) b Hb)
    as [(k & Hk & Hname) | [_ Hplace]].
  - exists k. split; [|exact Hname]. apply In_keys_app. now left.
  - exists (Build_of_builder b). split; [|reflexivity].
    apply In_keys_app. now right.
Qed.

Lemma In_keys_update {V : Type} (k : Build) (other : dict V) :
  forall d : dict V,
    In k (keys (dict_update d other)) <-> In k (keys d) \/ In k (keys other).
Proof.
  unfold dict_update.
  induction other as [|[k' v] other IH]; intros d; simpl.
  - tauto.
  - rewrite IH, In_keys_dict_set. simpl. intuition congruence.
Qed.

(** X17. When [resolve_builds] returns, the result has no key twice and
    no [TRIGGERED] build, and every try builder that was requested without
    a number is in it: with a build that [latest_try_jobs] found, or else
    with the placeholder [Build(builder)] in status [MISSING]. *)
Theorem X17_returned_statuses_cover_inferred_builders
    (self : BuildResolver) (builds : list Build) (patchset : option Z)
    (w w' : World) (build_statuses : BuildStatuses) :
  resolve self builds patchset w = (Ok build_statuses, w') ->
  unique_keys build_statuses
  /\ ~ In TRIGGERED (values build_statuses)
  /\ forall build,
       In build builds ->
       needs_inference build = true ->
       exists found,
         latest self (try_builder_names (filter needs_inference builds))
           patchset = Ok found
         /\ ((exists k, In k (keys found)
                        /\ builder_name k = builder_name build
                        /\ In k (keys build_statuses))
             \/ dict_get (Build_of_builder (builder_name build)) build_statuses
                = Some MISSING).
Proof.
  unfold resolve_builds. intros H.
  apply bind_inv_Ok in H. destruct H as (bs & w1 & Hcollect & Hrest).
  apply bind_inv_Ok in Hrest. destruct Hrest as ([] & w2 & _ & Hret).
  destruct (existsb (TryJobStatus_eqb TRIGGERED) (values bs)) eqn:Hpending;
    [discriminate|].
  unfold ret in Hret. injection Hret as <- <-.
  split; [exact (collect_unique_keys _ _ _ _ _ _ _ _ _ _ Hcollect)|].
  assert (Hnone : ~ In TRIGGERED (values bs)).
  { intros Hin. apply existsb_TRIGGERED in Hin. congruence. }
  split; [exact Hnone|].
  intros build Hbuild Hneeds.
  assert (Hname : In (builder_name build)
                     (try_builder_names (filter needs_inference builds)))
    by (apply In_names; now exists build).
  unfold collect_build_statuses in Hcollect.
  erewrite bind_Ok in Hcollect; [|apply partition_closed_form].
  fold (try_builder_names (filter needs_inference builds)) in Hcollect.
  destruct (is_empty (try_builder_names (filter needs_inference builds)))
    eqn:Hempty.
  { destruct (try_builder_names (filter needs_inference builds));
      [destruct Hname | discriminate]. }
  cbn [negb] in Hcollect.
  apply bind_inv_Ok in Hcollect. destruct Hcollect as (bs0 & w3 & Hfirst & Hbatch).
  apply bind_inv_Ok in Hfirst. destruct Hfirst as (d & w4 & Hfetch & Hre).
  apply bind_inv_Ok in Hre. destruct Hre as ([] & w5 & _ & Hret).
  unfold ret in Hret. injection Hret as <- _.
  apply bind_inv_Ok in Hbatch. destruct Hbatch as (raws & w6 & _ & Hbatch).
  apply bind_inv_Ok in Hbatch. destruct Hbatch as (responses & w7 & Hresp & Hret).
  unfold lift in Hresp. injection Hresp as Hresp _.
  unfold ret in Hret. injection Hret as <- _.
  destruct (fetch_cases _ _ _ _ _ _ Hfetch)
    as [[_ (e & He)] | [[_ (e & He)] | (found & _ & Hlatest & Hcase)]];
    try discriminate.
  exists found. split; [exact Hlatest|].
  assert (Hd : exists st,
             d = found ++ placeholders
                            (builders_without_builds
                               (try_builder_names
                                  (filter needs_inference builds)) found) st
             /\ (st = TRIGGERED \/ st = MISSING)).
  { destruct Hcase as [(_ & _ & Hr) | (_ & _ & _ & [Hr | (e & He)])];
      try discriminate; injection Hr as ->; eauto. }
  destruct Hd as (st & -> & Hst).
  destruct (fetch_covers _ found st _ Hname)
    as [(k & Hk & Hkname) | [Hmissing _]].
  - left. exists k. split; [exact Hk|]. split; [exact Hkname|].
    apply In_keys_update. left. apply In_keys_update. right.
    apply In_keys_app. now left.
  - right.
    pose proof (placeholder_stays from_bb_status ERROR_CODES _ st found
                  responses _ self raws
                  (without_NoDup _ found)
                  Hmissing Hresp) as Hget.
    destruct Hst as [-> | ->]; [|exact Hget].
    exfalso. apply Hnone. exact (dict_get_values _ _ _ Hget).
Qed.

(** *** The batch *)

Lemma rerequest_closed_form (items : BuildStatuses) :
  forall w : World,
    rerequest_completed items w = (Ok tt, queue_append w (rerequests items)).
Proof.
  induction items as [|[build st] items IH]; intros w; simpl.
  - now rewrite queue_append_nil.
  - destruct (has_number (build_number build)
              && String.eqb (status st) "COMPLETED").
    + erewrite bind_Ok; [|reflexivity]. rewrite IH. f_equal.
      unfold queue_append. simpl. now rewrite <- app_assoc.
    + erewrite bind_Ok; [|reflexivity]. now rewrite IH.
Qed.

Lemma rerequests_placeholders (found : BuildStatuses) (builders : list string)
    (st : TryJobStatus) :
  rerequests (found ++ placeholders builders st) = rerequests found.
Proof.
  unfold rerequests. rewrite flat_map_app.
  assert (Hnone : flat_map
                    (fun item : Build * TryJobStatus =>
                       if has_number (build_number (fst item))
                          && String.eqb (status (snd item)) "COMPLETED"
                       then [GetBuild (fst item) _build_fields]
                       else [])
                    (placeholders builders st) = []).
  { induction builders as [|b builders IH]; simpl; [reflexivity | exact IH]. }
  rewrite Hnone. apply app_nil_r.
Qed.

(** X22. With try builds found and triggering off, [resolve_builds] makes
    one Buildbucket round trip, and none when there is nothing to ask: the
    batch holds the requests of the first loop, in request order, and then
    one [GetBuild] for every found try build that has a number and is
    completed; placeholders are never asked for. The responses are laid
    over the try builds and their placeholders. *)
Theorem X22_one_batch_explicit_then_completed_try_builds
    (self : BuildResolver) (builds : list Build) (patchset : option Z)
    (w : World) (found : BuildStatuses) (build : Build) :
  In build builds ->
  needs_inference build = true ->
  isdigit (get_issue_number (_git_cl self)) = true ->
  latest self (try_builder_names (filter needs_inference builds)) patchset
  = Ok found ->
  found <> [] ->
  _can_trigger_jobs self = false ->
  bb_requests w = [] ->
  collect self builds patchset w
  = ((raw_builds <-
        (if is_empty (flat_map first_loop_requests builds ++ rerequests found)
         then Ok []
         else bb_round_trip (_git_cl self)
                (flat_map first_loop_requests builds ++ rerequests found)) ;;
      responses <- responses_of self raw_builds ;;
      Ok (dict_update
            (dict_update []
               (found
                ++ placeholders
                     (builders_without_builds
                        (try_builder_names (filter needs_inference builds))
                        found)
                     MISSING))
            responses))%outcome,
     {| bb_requests := []; trigger_calls := trigger_calls w;
        log := log w
               ++ [fetching self
                     (try_builder_names (filter needs_inference builds))
                     patchset] |}).
Proof.
  intros Hbuild Hneeds Hissue Hlatest Hfound Hcan Hqueue.
  unfold collect_build_statuses.
  erewrite bind_Ok; [|apply partition_closed_form].
  fold (try_builder_names (filter needs_inference builds)).
  rewrite (try_builder_names_nonempty from_bb_status pluralize).
  2:{ intros Hnil. assert (Hb : In build (filter needs_inference builds))
        by (apply filter_In; now split).
      rewrite Hnil in Hb. destruct Hb. }
  cbn [negb].
  erewrite bind_Ok.
  2:{ erewrite bind_Ok.
      2:{ apply (fetch_missing from_bb_status filter_incomplete pluralize
                   CLRevisionID_str); eassumption. }
      erewrite bind_Ok; [|apply rerequest_closed_form]. reflexivity. }
  rewrite rerequests_placeholders.
  unfold bind, execute_batch, lift, ret, queue_append, log_append.
  cbn [bb_requests trigger_calls log].
  rewrite Hqueue. cbn [app].
  destruct (flat_map first_loop_requests builds ++ rerequests found)
    as [|request requests].
  - cbn [is_empty]. rewrite (responses_of_nil from_bb_status ERROR_CODES).
    simpl. reflexivity.
  - cbn [is_empty].
    destruct (bb_round_trip (_git_cl self) (request :: requests))
      as [raw_builds|e]; simpl; [|reflexivity].
    destruct (responses_of self raw_builds); reflexivity.
Qed.
End InferredBuilds.

(** * Further properties of the summary *)

Section Tables.
Variable filter_incomplete : BuildStatuses -> list Build.

Local Abbreviation completed :=
  (fun item : Build * TryJobStatus => String.eqb (status (snd item)) "COMPLETED").

Lemma filter_all {X : Type} (p : X -> bool) (l : list X) :
  Forall (fun x => p x = true) l -> filter p l = l.
Proof.
  induction 1 as [|x l Hx _ IH]; simpl; [reflexivity|].
  now rewrite Hx, IH.
Qed.

Lemma filter_length_all {X : Type} (p : X -> bool) (l : list X) :
  List.length (filter p l) = List.length l ->
  Forall (fun x => p x = true) l.
Proof.
  intros Hlen. apply Forall_forall. intros x Hx.
  destruct (p x) eqn:Hp; [reflexivity|].
  pose proof (filter_length_lt p l x Hx Hp). lia.
Qed.

Lemma finished_as_filter (build_statuses : BuildStatuses) :
  unique_keys build_statuses ->
  finished_builds_of build_statuses
  = map (fun item => (fst item, result_or_dashes (result (snd item))))
        (filter completed build_statuses).
Proof.
  intros Hunique. unfold finished_builds_of.
  exact (dict_of_unique_items
           (fun item => result_or_dashes (result (snd item)))
           completed build_statuses Hunique).
Qed.

(** X18. On a dictionary of statuses, [log_builds] ends with the single
    line that all builds finished exactly when every status is
    [COMPLETED]; no table is written then. *)
Theorem X18_all_finished_iff_all_completed
    (build_statuses : BuildStatuses) (w : World) :
  unique_keys build_statuses ->
  (forall st, In st (values build_statuses) -> status st = "COMPLETED")
  <-> log_builds filter_incomplete build_statuses w
      = (Ok tt,
         log_append w (warn_records filter_incomplete build_statuses
                       ++ [info "All builds finished." []])).
Proof.
  intros Hunique. rewrite log_builds_appends.
  assert (Hlen : List.length (finished_builds_of build_statuses)
                 = List.length (filter completed build_statuses))
    by (rewrite (finished_as_filter _ Hunique); apply length_map).
  split.
  - intros Hall. do 3 f_equal. unfold summary_records.
    rewrite Hlen, filter_all, Nat.eqb_refl; [reflexivity|].
    apply Forall_forall. intros [k st] Hin. simpl. apply String.eqb_eq.
    apply Hall. unfold values. apply in_map_iff. now exists (k, st).
  - intros Hlog st Hst.
    assert (Hrecords : summary_records build_statuses
                       = [info "All builds finished." []]).
    { injection Hlog as Hlog. now do 2 apply app_inv_head in Hlog. }
    unfold summary_records in Hrecords.
    destruct (Nat.eqb (List.length (finished_builds_of build_statuses))
                      (List.length build_statuses)) eqn:Heq.
    + apply Nat.eqb_eq in Heq. rewrite Hlen in Heq.
      pose proof (filter_length_all _ _ Heq) as Hall.
      unfold values in Hst. apply in_map_iff in Hst.
      destruct Hst as ([k st'] & <- & Hin).
      rewrite Forall_forall in Hall. apply String.eqb_eq.
      exact (Hall _ Hin).
    + destruct (is_empty (finished_builds_of build_statuses));
        simpl in Hrecords; discriminate.
Qed.

Lemma table_is_info (template : string) (items : dict string) :
  Forall (fun record => levelname record = INFO)
         (map (table_row template) items).
Proof. apply Forall_forall. intros record Hin. apply in_map_iff in Hin.
  destruct Hin as (item & <- & _). reflexivity.
Qed.

(** X19. The assertion of [_log_build_statuses] guards the direct call
    only: with an empty dictionary it raises [AssertionError] and logs
    nothing, but [log_builds] never runs into it. For every dictionary
    [log_builds] returns, after the warnings it writes at least one line,
    every such line at level INFO, and it queues and triggers nothing. *)
Theorem X19_log_builds_never_raises
    (build_statuses : BuildStatuses) (w : World) :
  _log_build_statuses [] w = (Raise AssertionError, w)
  /\ exists records,
       log_builds filter_incomplete build_statuses w
       = (Ok tt,
          {| bb_requests := bb_requests w; trigger_calls := trigger_calls w;
             log := log w ++ warn_records filter_incomplete build_statuses
                    ++ records |})
       /\ records <> []
       /\ Forall (fun record => levelname record = INFO) records.
Proof.
  split; [reflexivity|].
  exists (summary_records build_statuses).
  split; [apply log_builds_appends|].
  unfold summary_records.
  destruct (Nat.eqb _ _).
  { split; [discriminate|]. repeat constructor. }
  split.
  - destruct (is_empty (finished_builds_of build_statuses)); discriminate.
  - apply Forall_app. split.
    + destruct (is_empty (finished_builds_of build_statuses)).
      * repeat constructor.
      * constructor; [reflexivity|]. unfold table.
        constructor; [reflexivity|]. apply table_is_info.
    + destruct (is_empty (unfinished_builds_of build_statuses)).
      * constructor.
      * constructor; [reflexivity|]. unfold table.
        constructor; [reflexivity|]. apply table_is_info.
Qed.

Lemma dict_get_map_filter {X Y : Type} (f : Build * X -> Y)
    (p : Build * X -> bool) (k : Build) (d : dict X) :
  unique_keys d ->
  dict_get k (map (fun item => (fst item, f item)) (filter p d))
  = match dict_get k d with
    | Some v => if p (k, v) then Some (f (k, v)) else None
    | None => None
    end.
Proof.
  unfold unique_keys.
  induction d as [|[k' v'] d IH]; intros Hunique; simpl; [reflexivity|].
  simpl in Hunique. inversion Hunique as [|? ? Hnotin Hrest]; subst.
  destruct (Build_eqb k k') eqn:Heq.
  - apply Build_eqb_eq in Heq. subst k'.
    destruct (p (k, v')); simpl.
    + now rewrite Build_eqb_refl.
    + rewrite (IH Hrest).
      now rewrite (proj2 (dict_get_None k d) Hnotin).
  - destruct (p (k', v')); simpl; [rewrite Heq|]; exact (IH Hrest).
Qed.

Lemma length_filter_le {X : Type} (p : X -> bool) (l : list X) :
  (List.length (filter p l) <= List.length l)%nat.
Proof.
  induction l as [|x l IH]; simpl; [lia|]. destruct (p x); simpl; lia.
Qed.

Lemma length_filter_eqb {X : Type} (p : X -> bool) (l : list X) :
  Nat.eqb (List.length (filter p l)) (List.length l) = forallb p l.
Proof.
  induction l as [|x l IH]; simpl; [reflexivity|].
  destruct (p x); simpl; [exact IH|].
  apply Nat.eqb_neq. pose proof (length_filter_le p l). lia.
Qed.

Lemma unfinished_as_filter (build_statuses : BuildStatuses) :
  unique_keys build_statuses ->
  unfinished_builds_of build_statuses = pending_rows build_statuses.
Proof.
  intros Hunique. unfold unfinished_builds_of.
  rewrite (dict_of_unique_items
             (fun item : Build * TryJobStatus => status (snd item))
             (fun item =>
                negb (dict_mem (fst item) (finished_builds_of build_statuses))
                && negb (String.eqb (status (snd item)) "MISSING"))
             build_statuses Hunique).
  unfold pending_rows. f_equal. apply filter_ext_in.
  intros [k st] Hin. simpl. f_equal. f_equal. unfold dict_mem.
  rewrite (finished_as_filter _ Hunique).
  rewrite (dict_get_map_filter
             (fun item => result_or_dashes (result (snd item)))
             completed k build_statuses Hunique).
  rewrite (dict_get_unique k st build_statuses Hunique Hin). simpl.
  destruct (String.eqb (status st) "COMPLETED"); reflexivity.
Qed.

(** X20. Which table of [log_builds] a build is logged in is decided by
    its status alone. Unless every build is [COMPLETED], the log has,
    after the warnings, the table of the [COMPLETED] builds, each with its
    result or ['--'] (or the line that none finished), and then the table
    of the builds that are neither [COMPLETED] nor [MISSING], each with its
    status (or nothing). A [MISSING] build gets no row. *)
Theorem X20_tables_split_builds_by_status
    (build_statuses : BuildStatuses) (w : World) :
  unique_keys build_statuses ->
  log_builds filter_incomplete build_statuses w
  = (Ok tt,
     log_append w
       (warn_records filter_incomplete build_statuses
        ++ (if forallb (fun item => String.eqb (status (snd item)) "COMPLETED")
                       build_statuses
            then [info "All builds finished." []]
            else
              (if is_empty (finished_rows build_statuses)
               then [info "No finished builds." []]
               else info "Finished builds:" []
                    :: table (finished_rows build_statuses))
              ++ (if is_empty (pending_rows build_statuses)
                  then []
                  else info "Scheduled or started builds:" []
                       :: table (pending_rows build_statuses)))))
  /\ forall (k : Build) (st : TryJobStatus),
       In (k, st) build_statuses ->
       status st = "MISSING" ->
       ~ In k (keys (finished_rows build_statuses))
       /\ ~ In k (keys (pending_rows build_statuses)).
Proof.
  intros Hunique. split.
  - rewrite log_builds_appends. do 3 f_equal. unfold summary_records.
    rewrite (unfinished_as_filter _ Hunique), (finished_as_filter _ Hunique).
    fold (finished_rows build_statuses).
    unfold finished_rows at 1. rewrite length_map, length_filter_eqb.
    reflexivity.
  - intros k st Hin Hmissing.
    assert (Hkey : forall (Y : Type) (f : Build * TryJobStatus -> Y)
                          (p : Build * TryJobStatus -> bool),
               p (k, st) = false ->
               ~ In k (keys (map (fun item => (fst item, f item))
                                 (filter p build_statuses)))).
    { intros Y f p Hp Hk. unfold keys in Hk. rewrite map_map in Hk. simpl in Hk.
      apply in_map_iff in Hk. destruct Hk as ([k' st'] & Heq & Hk).
      simpl in Heq. subst k'. apply filter_In in Hk. destruct Hk as [Hk Hp'].
      assert (Hst : st' = st).
      { pose proof (dict_get_unique k st build_statuses Hunique Hin) as H1.
        pose proof (dict_get_unique k st' build_statuses Hunique Hk) as H2.
        congruence. }
      subst st'. congruence. }
    split.
    + apply Hkey. simpl. now rewrite Hmissing.
    + apply Hkey. simpl. rewrite Hmissing. reflexivity.
Qed.

Lemma fold_max_bounds (l : list nat) :
  forall a : nat,
    (a <= fold_left Nat.max l a)%nat
    /\ (forall x, In x l -> (x <= fold_left Nat.max l a)%nat)
    /\ (fold_left Nat.max l a = a \/ In (fold_left Nat.max l a) l).
Proof.
  induction l as [|y l IH]; intros a; simpl.
  - repeat split; auto. intros x [].
  - destruct (IH (Nat.max a y)) as (Hle & Hall & Hwhich).
    split; [lia|]. split.
    + intros x [<-|Hx]; [lia | now apply Hall].
    + destruct Hwhich as [Heq|Hin]; [|now right; right].
      rewrite Heq. destruct (Nat.max_spec a y) as [[_ ->] | [_ ->]]; auto.
Qed.

(** X21. The table of [_log_build_statuses] uses one template for the
    header and every row; the width of its first column is the length of
    the longest builder name, and never less than 20. *)
Theorem X21_name_column_fits_every_builder
    (build_statuses : dict string) (w : World) :
  build_statuses <> [] ->
  (exists rows,
      _log_build_statuses build_statuses w
      = (Ok tt,
         log_append w
           (info ("  %-" ++ str_of_nat (name_column_width build_statuses)
                  ++ "s %-7s %-9s %-6s")
                 ["BUILDER"; "NUMBER"; "STATUS"; "BUCKET"] :: rows))
      /\ List.length rows = List.length build_statuses
      /\ Forall (fun row =>
                   msg row = ("  %-" ++ str_of_nat
                                          (name_column_width build_statuses)
                              ++ "s %-7s %-9s %-6s")%string) rows)
  /\ (20 <= name_column_width build_statuses)%nat
  /\ (forall k, In k (keys build_statuses) ->
       (String.length (builder_name k)
        <= name_column_width build_statuses)%nat)
  /\ (name_column_width build_statuses = 20%nat
      \/ exists k, In k (keys build_statuses)
                   /\ name_column_width build_statuses
                      = String.length (builder_name k)).
Proof.
  intros Hne.
  destruct (fold_max_bounds
              (map String.length (map builder_name (keys build_statuses)))
              20%nat) as (Hmin & Hall & Hwhich).
  fold (name_column_width build_statuses) in Hmin, Hall, Hwhich.
  split.
  { exists (map (table_row (table_template build_statuses))
                (sorted_items build_statuses)).
    split; [exact (log_build_statuses_table build_statuses w Hne)|]. split.
    - rewrite length_map. unfold sorted_items.
      apply Permutation_length. apply sorted_perm.
    - apply Forall_forall. intros row Hrow. apply in_map_iff in Hrow.
      destruct Hrow as (item & <- & _). reflexivity. }
  split; [exact Hmin|]. split.
  - intros k Hk. apply Hall. apply in_map. now apply in_map.
  - destruct Hwhich as [Heq|Hin]; [now left|]. right.
    apply in_map_iff in Hin. destruct Hin as (name & Hlen & Hin).
    apply in_map_iff in Hin. destruct Hin as (k & <- & Hk).
    exists k. split; [exact Hk | now symmetry].
Qed.

(** X23. [_warn_about_incomplete_results] writes nothing when no build
    has incomplete results. Otherwise it writes, at level WARNING, a
    heading, one line for every incomplete build, and six lines of
    advice. *)
Theorem X23_one_warning_per_incomplete_build
    (build_statuses : BuildStatuses) (w : World) :
  exists records,
    _warn_about_incomplete_results filter_incomplete build_statuses w
    = (Ok tt, log_append w records)
    /\ Forall (fun record => levelname record = WARNING) records
    /\ (filter_incomplete build_statuses = [] -> records = [])
    /\ (filter_incomplete build_statuses <> [] ->
        List.length records
        = (7 + List.length (filter_incomplete build_statuses))%nat)
    /\ forall build,
         In build (filter_incomplete build_statuses) ->
         In (incomplete_record build) records.
Proof.
  exists (warn_records filter_incomplete build_statuses).
  split; [apply warn_appends|].
  unfold warn_records.
  destruct (filter_incomplete build_statuses) as [|first others] eqn:Hincomplete.
  { split; [constructor|]. split; [reflexivity|].
    split; [intros Hne; now destruct Hne|]. intros build []. }
  pose proof (sorted_perm _build_sort_key (first :: others)) as Hperm.
  split.
  { constructor; [reflexivity|]. apply Forall_app. split.
    - apply Forall_forall. intros record Hin. apply in_map_iff in Hin.
      destruct Hin as (build & <- & _). reflexivity.
    - repeat constructor. }
  split; [discriminate|]. split.
  - intros _. cbn [List.length]. rewrite length_app, length_map.
    rewrite (Permutation_length Hperm). simpl. lia.
  - intros build Hin. right. apply in_or_app. left.
    apply in_map_iff. exists build. split; [reflexivity|].
    exact (Permutation_in build (Permutation_sym Hperm) Hin).
Qed.
End Tables.

(** * Examples *)

Example pattern_matches_web_tests :
  fullmatch run_web_tests_pattern "blink_web_tests (with patch) on Ubuntu-22.04"
  = true.
Proof. vm_compute. reflexivity. Qed.

Example pattern_matches_prefixed_wpt_tests :
  fullmatch run_web_tests_pattern
    "not_site_per_process_blink_wpt_tests (with patch) on Mac-13" = true.
Proof. vm_compute. reflexivity. Qed.

Example pattern_matches_webdriver_tests :
  fullmatch run_web_tests_pattern "chrome_wpt_webdriver_tests (with patch)" = true.
Proof. vm_compute. reflexivity. Qed.

Example pattern_rejects_retry_shards :
  fullmatch run_web_tests_pattern "blink_web_tests (retry shards with patch)"
  = false.
Proof. vm_compute. reflexivity. Qed.

Example pattern_rejects_without_patch :
  fullmatch run_web_tests_pattern "blink_web_tests (without patch)" = false.
Proof. vm_compute. reflexivity. Qed.

Example pattern_rejects_nested_step :
  fullmatch run_web_tests_pattern "blink_web_tests (with patch)|results" = false.
Proof. vm_compute. reflexivity. Qed.

Example pattern_rejects_other_suite :
  fullmatch run_web_tests_pattern "browser_tests (with patch)" = false.
Proof. vm_compute. reflexivity. Qed.

Example int_of_exit_code_string : py_int (JStr "130") = Ok 130%Z.
Proof. vm_compute. reflexivity. Qed.

Example int_of_padded_string : py_int (JStr " -1_30 ") = Ok (-130)%Z.
Proof. vm_compute. reflexivity. Qed.

Example int_of_word_raises : py_int (JStr "timeout") = Raise ValueError.
Proof. vm_compute. reflexivity. Qed.

Example int_of_null_raises : py_int JNull = Raise TypeError.
Proof. vm_compute. reflexivity. Qed.

(** A failed build without a matching test step keeps its status. *)
Example failure_without_test_step_passes_through :
  _status_if_interrupted example_from_bb_status example_ERROR_CODES
    (example_resolver false)
    (example_raw_build None
       [{| step_name := Some "compile (with patch)"; step_logs := None |}])
  = Ok {| status := "COMPLETED"; result := Some "FAILURE" |}.
Proof. vm_compute. reflexivity. Qed.

(** A summary that is not JSON leaves the reported status alone. *)
Example garbled_summary_passes_through :
  _status_if_interrupted example_from_bb_status example_ERROR_CODES
    (example_resolver false)
    (example_raw_build (Some (JStr "TEST_FAILURE"))
       [example_step "https://logs.example/garbled"])
  = Ok {| status := "COMPLETED"; result := Some "FAILURE" |}.
Proof. vm_compute. reflexivity. Qed.

(** A failure type that Python cannot hash stops the classifier. *)
Example unhashable_failure_type_raises :
  _status_if_interrupted example_from_bb_status example_ERROR_CODES
    (example_resolver false) (example_raw_build (Some (JList [])) [])
  = Raise TypeError.
Proof. vm_compute. reflexivity. Qed.

Lemma C1_compile_failure_is_infra_failure :
  _status_if_interrupted example_from_bb_status example_ERROR_CODES
    (example_resolver false)
    (example_raw_build (Some (JStr "COMPILE_FAILURE"))
       [{| step_name := None; step_logs := None |}])
  = Ok {| status := "INFRA_FAILURE"; result := None |}.
Proof.
  apply (C1_failure_type_is_infra_failure example_from_bb_status
           example_ERROR_CODES (example_resolver false) _
           {| output_properties := Some [("failure_type", JStr "COMPILE_FAILURE")] |}
           [("failure_type", JStr "COMPILE_FAILURE")]
           (JStr "COMPILE_FAILURE"));
    try reflexivity; discriminate.
Defined.

Lemma example_step_well_formed (url : string) :
  url = "https://logs.example/interrupted"
  \/ url = "https://logs.example/garbled" ->
  step_well_formed (example_resolver false) (example_step url).
Proof.
  intros Hurl. eexists. split; [reflexivity|]. intros _.
  destruct Hurl as [-> | ->].
  - do 2 eexists. split; [vm_compute; reflexivity|].
    split; [vm_compute; reflexivity|].
    repeat constructor. eexists. vm_compute. reflexivity.
  - do 2 eexists. split; [vm_compute; reflexivity|].
    split; [vm_compute; reflexivity | constructor].
Qed.

Lemma C2_interrupted_shard_is_infra_failure :
  _status_if_interrupted example_from_bb_status example_ERROR_CODES
    (example_resolver false)
    (example_raw_build (Some (JStr "TEST_FAILURE"))
       [example_step "https://logs.example/interrupted"])
  = Ok {| status := "INFRA_FAILURE"; result := None |}.
Proof.
  apply (proj1 (C2_shard_exit_code_or_reported_status example_from_bb_status
                  example_ERROR_CODES (example_resolver false)
                  (example_raw_build (Some (JStr "TEST_FAILURE"))
                     [example_step "https://logs.example/interrupted"])
                  "FAILURE"
                  (or_intror eq_refl) eq_refl
                  (Forall_cons _ (example_step_well_formed _ (or_introl eq_refl))
                               (Forall_nil _)))).
  apply Exists_cons_hd.
  exists "blink_web_tests (with patch) on Ubuntu-22.04".
  exists (JDict [("shards", JList [JDict [("exit_code", JStr "130");
                                          ("state", JStr "COMPLETED")]])]).
  exists [JDict [("exit_code", JStr "130"); ("state", JStr "COMPLETED")]].
  exists (JDict [("exit_code", JStr "130"); ("state", JStr "COMPLETED")]).
  exists 130%Z.
  repeat split; try (vm_compute; reflexivity).
  - left. reflexivity.
  - left. reflexivity.
Defined.

Lemma C3_two_builds_table :
  map args (table two_builds_of_linux_rel)
  = [["BUILDER"; "NUMBER"; "STATUS"; "BUCKET"];
     ["linux-rel"; "--"; "TRIGGERED"; "try"];
     ["linux-rel"; "5"; "STARTED"; "try"]]
  /\ unnumbered_sort_first (keys (sorted_items two_builds_of_linux_rel)).
Proof.
  split; [vm_compute; reflexivity|].
  apply (C3_summary_sorted_by_name_then_number_or_0 two_builds_of_linux_rel
           empty_world).
  discriminate.
Defined.

Lemma C3_unnumbered_build_is_not_last :
  map args (table two_builds_of_linux_rel)
  = [["BUILDER"; "NUMBER"; "STATUS"; "BUCKET"];
     ["linux-rel"; "--"; "TRIGGERED"; "try"];
     ["linux-rel"; "5"; "STARTED"; "try"]]
  /\ ~ unnumbered_sort_last (keys (sorted_items two_builds_of_linux_rel)).
Proof.
  split; [vm_compute; reflexivity|].
  intros Hlast.
  specialize (Hlast 0%nat 1%nat (Build_of_builder "linux-rel")
                {| builder_name := "linux-rel"; build_number := Some 5%Z;
                   build_id := Some "8765"; bucket := "try" |}).
  discriminate Hlast; try reflexivity. lia.
Qed.


Lemma C10_shard_without_exit_code :
  _shard_interrupted example_ERROR_CODES (JDict [("state", JStr "COMPLETED")])
  = Ok false.
Proof.
  apply (C10_missing_exit_code_is_zero example_ERROR_CODES
           [("state", JStr "COMPLETED")]).
  - reflexivity.
  - simpl. intuition discriminate.
Defined.

Lemma C4_linux_rel_triggered_mac_rel_kept :
  exists w',
    resolve_builds example_from_bb_status example_ERROR_CODES
      example_filter_incomplete example_pluralize example_CLRevisionID_str
      (example_resolver_with [(mac_rel_77, STARTED)] [] true)
      [Build_of_builder "linux-rel"; Build_of_builder "mac-rel"] (Some 3%Z)
      empty_world
    = (Raise (UnresolvedBuildException pending_message), w')
    /\ trigger_calls w' = [["linux-rel"]].
Proof.
  apply (C4_missing_builders_triggered_then_unresolved
           example_from_bb_status example_ERROR_CODES example_filter_incomplete
           example_pluralize example_CLRevisionID_str
           (example_resolver_with [(mac_rel_77, STARTED)] [] true)
           [Build_of_builder "linux-rel"; Build_of_builder "mac-rel"]
           (Some 3%Z) empty_world [(mac_rel_77, STARTED)] ["linux-rel"]).
  - repeat constructor.
  - reflexivity.
  - reflexivity.
  - reflexivity.
  - reflexivity.
  - discriminate.
  - reflexivity.
  - intros requests. exists [], []. split; reflexivity.
Defined.

Lemma C5_linux_rel_without_builds_aborts :
  resolve_builds example_from_bb_status example_ERROR_CODES
    example_filter_incomplete example_pluralize example_CLRevisionID_str
    (example_resolver false) [Build_of_builder "linux-rel"] (Some 3%Z)
    empty_world
  = (Raise (UnresolvedBuildException aborted_message),
     log_append empty_world
       [info "Fetching status for 1 build from https://crrev.com/c/5678/3." []]).
Proof.
  apply (C5_no_builds_and_no_trigger_raises
           example_from_bb_status example_ERROR_CODES example_filter_incomplete
           example_pluralize example_CLRevisionID_str
           (example_resolver false) [Build_of_builder "linux-rel"] (Some 3%Z)
           empty_world).
  - discriminate.
  - repeat constructor.
  - reflexivity.
  - reflexivity.
  - reflexivity.
Defined.

Lemma C7_triggered_linux_rel_is_logged_then_raised :
  resolve_builds example_from_bb_status example_ERROR_CODES
    example_filter_incomplete example_pluralize example_CLRevisionID_str
    (example_resolver true) [Build_of_builder "linux-rel"] (Some 3%Z)
    empty_world
  = (Raise (UnresolvedBuildException pending_message),
     {| bb_requests := []; trigger_calls := [["linux-rel"]];
        log := [info "Fetching status for 1 build from https://crrev.com/c/5678/3." [];
                info "No finished builds." [];
                info "Scheduled or started builds:" [];
                info "  %-20s %-7s %-9s %-6s"
                     ["BUILDER"; "NUMBER"; "STATUS"; "BUCKET"];
                info "  %-20s %-7s %-9s %-6s"
                     ["linux-rel"; "--"; "TRIGGERED"; "try"]] |}).
Proof.
  apply (C7_summary_logged_before_pending_raise
           example_from_bb_status example_ERROR_CODES example_filter_incomplete
           example_pluralize example_CLRevisionID_str
           (example_resolver true) [Build_of_builder "linux-rel"] (Some 3%Z)
           empty_world
           {| bb_requests := []; trigger_calls := [["linux-rel"]];
              log := [info "Fetching status for 1 build from https://crrev.com/c/5678/3." []] |}
           [(Build_of_builder "linux-rel", TRIGGERED)]).
  - vm_compute. reflexivity.
  - left. reflexivity.
Defined.


(** ** The further properties at work *)

(** A step whose first summary cannot be parsed and whose second one can;
    the log after it has no name and is never read. *)
Lemma X1_summary_after_garbled_one :
  _fetch_swarming_summary (example_resolver false)
    {| step_name := Some "blink_web_tests (with patch)";
       step_logs := Some [stdout_log;
                          summary_log "https://logs.example/garbled";
                          summary_log "https://logs.example/interrupted";
                          unnamed_log] |}
  = Ok (JDict [("shards", JList [interrupted_shard])]).
Proof.
  apply (X1_first_readable_summary_wins (example_resolver false) _
           [stdout_log; summary_log "https://logs.example/garbled"]
           [unnamed_log]
           (summary_log "https://logs.example/interrupted")
           "https://logs.example/interrupted").
  - reflexivity.
  - constructor; [exists "stdout"; split; [reflexivity | left; discriminate]|].
    constructor; [|constructor].
    exists "chromium_swarming.summary".
    split; [reflexivity | right; reflexivity].
  - reflexivity.
  - reflexivity.
  - reflexivity.
Defined.

(** A failed build with a compile step and a test step without a summary:
    the failure is reported as it is. *)
Lemma X2_failure_without_summary_stays_failure :
  _status_if_interrupted example_from_bb_status example_ERROR_CODES
    {| _web := example_web; _git_cl := example_git_cl [] [];
       _io_pool := None; _can_trigger_jobs := false |}
    (example_raw_build None
       [compile_step;
        {| step_name := Some "blink_web_tests (with patch)";
           step_logs := Some [stdout_log] |}])
  = Ok FAILURE.
Proof.
  apply (X2_nothing_to_fetch_passes_status_through example_from_bb_status
           example_ERROR_CODES (example_resolver false)
           (example_raw_build None
              [compile_step;
               {| step_name := Some "blink_web_tests (with patch)";
                  step_logs := Some [stdout_log] |}])
           "FAILURE").
  - left. reflexivity.
  - constructor.
    + exists "compile (with patch)". split; [reflexivity | left; reflexivity].
    + constructor; [|constructor].
      exists "blink_web_tests (with patch)". split; [reflexivity|]. right.
      constructor; [|constructor].
      exists "stdout". split; [reflexivity | discriminate].
  - reflexivity.
Defined.

Lemma X3_step_without_name :
  _status_if_interrupted example_from_bb_status example_ERROR_CODES
    (example_resolver false)
    (example_raw_build (Some (JStr "TEST_FAILURE"))
       [compile_step; unnamed_step;
        example_step "https://logs.example/interrupted"])
  = Raise (KeyError "name").
Proof.
  apply (X3_unnamed_step_raises_KeyError example_from_bb_status
           example_ERROR_CODES (example_resolver false) _
           [compile_step]
           [example_step "https://logs.example/interrupted"]
           unnamed_step).
  - right. reflexivity.
  - reflexivity.
  - constructor; [|constructor].
    exists "compile (with patch)". split; [reflexivity | left; reflexivity].
  - reflexivity.
Defined.

(** A record without a status whose test step was interrupted. *)
Lemma X4_interrupted_build_without_status :
  _status_if_interrupted example_from_bb_status example_ERROR_CODES
    (example_resolver false)
    {| raw_id := Some "8765"; raw_number := Some 12345%Z;
       raw_builder := None; raw_status := None; raw_output := None;
       raw_steps := Some [example_step "https://logs.example/interrupted"] |}
  = Ok {| status := "INFRA_FAILURE"; result := None |}.
Proof.
  apply (X4_status_is_read_last example_from_bb_status example_ERROR_CODES
           (example_resolver false)
           {| raw_id := Some "8765"; raw_number := Some 12345%Z;
              raw_builder := None; raw_status := None; raw_output := None;
              raw_steps :=
                Some [example_step "https://logs.example/interrupted"] |}
           true).
  - left. reflexivity.
  - vm_compute. reflexivity.
  - reflexivity.
Defined.

(** A summary whose second shard is null: the scan raises there, before it
    reaches the interrupted third shard or the unnamed next step. *)
Lemma X5_null_shard_raises :
  steps_interrupted example_ERROR_CODES
    (resolver_with_summary
       (JDict [("shards", JList [passed_shard; JNull; interrupted_shard])]))
    [example_step "https://logs.example/any"; unnamed_step]
  = Raise AttributeError.
Proof.
  apply (X5_shard_scan_stops_at_first_decision example_ERROR_CODES
           (resolver_with_summary
              (JDict [("shards",
                       JList [passed_shard; JNull; interrupted_shard])]))
           (example_step "https://logs.example/any") [unnamed_step]
           "blink_web_tests (with patch) on Ubuntu-22.04"
           (JDict [("shards", JList [passed_shard; JNull; interrupted_shard])])
           [passed_shard] [interrupted_shard] JNull (Raise AttributeError)).
  - reflexivity.
  - vm_compute. reflexivity.
  - reflexivity.
  - reflexivity.
  - constructor; [vm_compute; reflexivity | constructor].
  - reflexivity.
  - discriminate.
Defined.

(** An empty summary object: the step is passed over. *)
Lemma X6_empty_summary :
  steps_interrupted example_ERROR_CODES (resolver_with_summary (JDict []))
    [example_step "https://logs.example/any"]
  = Ok false.
Proof.
  apply (X6_summary_without_shards_is_not_interrupted example_ERROR_CODES
           (resolver_with_summary (JDict []))
           (example_step "https://logs.example/any") []
           "blink_web_tests (with patch) on Ubuntu-22.04" (JDict [])).
  - reflexivity.
  - vm_compute. reflexivity.
  - reflexivity.
  - left. reflexivity.
Defined.

Lemma X7_two_responses :
  unique_keys [(linux_rel_5, SUCCESS); (linux_rel_6, SUCCESS)]
  /\ (List.length [(linux_rel_5, SUCCESS); (linux_rel_6, SUCCESS)]
      <= List.length [raw_linux_rel "8001" 5; raw_linux_rel "8002" 6])%nat
  /\ (forall k, In k (keys [(linux_rel_5, SUCCESS); (linux_rel_6, SUCCESS)]) ->
       build_id k <> None /\ build_number k <> None
       /\ exists raw,
            In raw [raw_linux_rel "8001" 5; raw_linux_rel "8002" 6]
            /\ Build_of_raw raw = Ok k)
  /\ (forall raw, In raw [raw_linux_rel "8001" 5; raw_linux_rel "8002" 6] ->
       exists k,
         Build_of_raw raw = Ok k
         /\ In k (keys [(linux_rel_5, SUCCESS); (linux_rel_6, SUCCESS)])).
Proof.
  apply (X7_responses_cover_the_batch example_from_bb_status
           example_ERROR_CODES (example_resolver false)
           [raw_linux_rel "8001" 5; raw_linux_rel "8002" 6]
           [(linux_rel_5, SUCCESS); (linux_rel_6, SUCCESS)]).
  vm_compute. reflexivity.
Defined.

(** Build 5 of linux-rel comes back twice, first passed, then failed. *)
Lemma X8_second_record_of_build_5 :
  exists st,
    _status_if_interrupted example_from_bb_status example_ERROR_CODES
      (example_resolver false) (raw_linux_rel_with "8001" 5 (Some "FAILURE"))
    = Ok st
    /\ dict_get linux_rel_5 [(linux_rel_5, FAILURE); (linux_rel_6, SUCCESS)]
       = Some st.
Proof.
  apply (X8_last_response_of_a_key_wins example_from_bb_status
           example_ERROR_CODES (example_resolver false)
           [raw_linux_rel "8001" 5] [raw_linux_rel "8002" 6]
           (raw_linux_rel_with "8001" 5 (Some "FAILURE")) linux_rel_5
           [(linux_rel_5, FAILURE); (linux_rel_6, SUCCESS)]).
  - vm_compute. reflexivity.
  - reflexivity.
  - intros later [<- | []]. discriminate.
Defined.

Lemma X9_response_without_number :
  _build_statuses_from_responses example_from_bb_status example_ERROR_CODES
    (example_resolver false)
    [raw_linux_rel "8001" 5; raw_without_number; raw_linux_rel "8002" 6]
  = Raise (KeyError "number").
Proof.
  apply (X9_first_unreadable_response_raises example_from_bb_status
           example_ERROR_CODES (example_resolver false)
           [raw_linux_rel "8001" 5] [raw_linux_rel "8002" 6]
           raw_without_number (KeyError "number")).
  - constructor; [|constructor].
    exists SUCCESS, linux_rel_5. split; reflexivity.
  - right. split; [exists SUCCESS|]; reflexivity.
Defined.

(** Buildbucket knows no build 5 of linux-rel. *)
Lemma X12_unknown_build :
  resolve_builds example_from_bb_status example_ERROR_CODES
    example_filter_incomplete example_pluralize example_CLRevisionID_str
    (example_resolver true) [linux_rel 5] None empty_world
  = (Ok [], empty_world).
Proof.
  apply (X12_no_builds_found_returns_empty example_from_bb_status
           example_ERROR_CODES example_filter_incomplete example_pluralize
           example_CLRevisionID_str (example_resolver true) [linux_rel 5]
           None empty_world).
  - constructor; [reflexivity | constructor].
  - right. reflexivity.
Defined.

Lemma X13_branch_without_issue :
  resolve_builds example_from_bb_status example_ERROR_CODES
    example_filter_incomplete example_pluralize example_CLRevisionID_str
    resolver_without_issue [linux_rel 5; Build_of_builder "mac-rel"] None
    empty_world
  = (Raise (UnresolvedBuildException no_issue_message),
     {| bb_requests := [GetBuild (linux_rel 5) _build_fields];
        trigger_calls := []; log := [] |}).
Proof.
  apply (X13_no_issue_number_raises_before_any_call example_from_bb_status
           example_ERROR_CODES example_filter_incomplete example_pluralize
           example_CLRevisionID_str resolver_without_issue
           [linux_rel 5; Build_of_builder "mac-rel"] None empty_world
           (Build_of_builder "mac-rel")).
  - right. left. reflexivity.
  - reflexivity.
  - reflexivity.
Defined.

Lemma X14_numbered_build_with_broken_CL :
  resolve_builds example_from_bb_status example_ERROR_CODES
    example_filter_incomplete example_pluralize example_CLRevisionID_str
    (example_resolver_with [] [raw_linux_rel "8001" 5] false)
    [linux_rel 5] None empty_world
  = resolve_builds example_from_bb_status example_ERROR_CODES
      example_filter_incomplete example_pluralize example_CLRevisionID_str
      (resolver_with_broken_CL [raw_linux_rel "8001" 5])
      [linux_rel 5] None empty_world.
Proof.
  apply (X14_explicit_requests_ignore_the_CL example_from_bb_status
           example_ERROR_CODES example_filter_incomplete example_pluralize
           example_CLRevisionID_str
           (example_resolver_with [] [raw_linux_rel "8001" 5] false)
           (resolver_with_broken_CL [raw_linux_rel "8001" 5])
           [linux_rel 5] None empty_world).
  - constructor; [reflexivity | constructor].
  - reflexivity.
  - intros requests. reflexivity.
Defined.

(** Two try builders without numbers, one of them with a started build:
    one call, for the other one. *)
Lemma X15_one_call_for_linux_rel :
  trigger_calls
    (snd (resolve_builds example_from_bb_status example_ERROR_CODES
            example_filter_incomplete example_pluralize
            example_CLRevisionID_str
            (example_resolver_with [(mac_rel_77, STARTED)] [] true)
            [Build_of_builder "linux-rel"; Build_of_builder "mac-rel"]
            (Some 3%Z) empty_world))
  = trigger_calls empty_world
  \/ (true = true
      /\ exists found missing,
           Ok [(mac_rel_77, STARTED)] = Ok found
           /\ trigger_calls
                (snd (resolve_builds example_from_bb_status example_ERROR_CODES
                        example_filter_incomplete example_pluralize
                        example_CLRevisionID_str
                        (example_resolver_with [(mac_rel_77, STARTED)] [] true)
                        [Build_of_builder "linux-rel";
                         Build_of_builder "mac-rel"]
                        (Some 3%Z) empty_world))
              = trigger_calls empty_world ++ [missing]
           /\ missing <> []
           /\ NoDup missing
           /\ forall b,
                In b missing
                <-> (exists build,
                        In build [Build_of_builder "linux-rel";
                                  Build_of_builder "mac-rel"]
                        /\ needs_inference build = true
                        /\ builder_name build = b)
                    /\ ~ In b (map builder_name (keys found))).
Proof.
  apply (X15_at_most_one_trigger_call example_from_bb_status
           example_ERROR_CODES example_filter_incomplete example_pluralize
           example_CLRevisionID_str
           (example_resolver_with [(mac_rel_77, STARTED)] [] true)
           [Build_of_builder "linux-rel"; Build_of_builder "mac-rel"]
           (Some 3%Z) empty_world _
           (Raise (UnresolvedBuildException pending_message))).
  vm_compute. reflexivity.
Defined.

Lemma X16_mac_rel_found_linux_rel_missing :
  exists found,
    Ok [(mac_rel_77, STARTED)] = Ok found
    /\ [(mac_rel_77, STARTED); (Build_of_builder "linux-rel", MISSING)]
       = found ++ placeholders
                    (builders_without_builds ["linux-rel"; "mac-rel"] found)
                    MISSING
    /\ (forall b, In b ["linux-rel"; "mac-rel"] ->
         exists k,
           In k (keys [(mac_rel_77, STARTED);
                       (Build_of_builder "linux-rel", MISSING)])
           /\ builder_name k = b)
    /\ log (log_append empty_world
              [info "Fetching status for 2 builds from https://crrev.com/c/5678/3." []])
       = log empty_world
         ++ [fetching_record example_pluralize example_CLRevisionID_str
               (example_resolver_with [(mac_rel_77, STARTED)] [] false)
               ["linux-rel"; "mac-rel"] (Some 3%Z)].
Proof.
  apply (X16_fetch_returns_found_then_placeholders example_pluralize
           example_CLRevisionID_str
           (example_resolver_with [(mac_rel_77, STARTED)] [] false)
           ["linux-rel"; "mac-rel"] (Some 3%Z) empty_world
           (log_append empty_world
              [info "Fetching status for 2 builds from https://crrev.com/c/5678/3." []])
           [(mac_rel_77, STARTED); (Build_of_builder "linux-rel", MISSING)]).
  vm_compute. reflexivity.
Defined.

Lemma X17_linux_rel_reported_missing :
  unique_keys [(mac_rel_77, STARTED); (Build_of_builder "linux-rel", MISSING)]
  /\ ~ In TRIGGERED
         (values [(mac_rel_77, STARTED);
                  (Build_of_builder "linux-rel", MISSING)])
  /\ forall build,
       In build [Build_of_builder "linux-rel"; Build_of_builder "mac-rel"] ->
       needs_inference build = true ->
       exists found,
         Ok [(mac_rel_77, STARTED)] = Ok found
         /\ ((exists k,
                 In k (keys found)
                 /\ builder_name k = builder_name build
                 /\ In k (keys [(mac_rel_77, STARTED);
                                (Build_of_builder "linux-rel", MISSING)]))
             \/ dict_get (Build_of_builder (builder_name build))
                  [(mac_rel_77, STARTED);
                   (Build_of_builder "linux-rel", MISSING)]
                = Some MISSING).
Proof.
  apply (X17_returned_statuses_cover_inferred_builders example_from_bb_status
           example_ERROR_CODES example_filter_incomplete example_pluralize
           example_CLRevisionID_str
           (example_resolver_with [(mac_rel_77, STARTED)] [] false)
           [Build_of_builder "linux-rel"; Build_of_builder "mac-rel"]
           (Some 3%Z) empty_world
           (snd (resolve_builds example_from_bb_status example_ERROR_CODES
                   example_filter_incomplete example_pluralize
                   example_CLRevisionID_str
                   (example_resolver_with [(mac_rel_77, STARTED)] [] false)
                   [Build_of_builder "linux-rel"; Build_of_builder "mac-rel"]
                   (Some 3%Z) empty_world))
           [(mac_rel_77, STARTED); (Build_of_builder "linux-rel", MISSING)]).
  vm_compute. reflexivity.
Defined.

Lemma X18_two_completed_builds :
  (forall st, In st (values [(linux_rel_5, SUCCESS); (linux_rel_6, FAILURE)]) ->
              status st = "COMPLETED")
  <-> log_builds example_filter_incomplete
        [(linux_rel_5, SUCCESS); (linux_rel_6, FAILURE)] empty_world
      = (Ok tt,
         log_append empty_world
           (warn_records example_filter_incomplete
              [(linux_rel_5, SUCCESS); (linux_rel_6, FAILURE)]
            ++ [info "All builds finished." []])).
Proof.
  apply (X18_all_finished_iff_all_completed example_filter_incomplete
           [(linux_rel_5, SUCCESS); (linux_rel_6, FAILURE)] empty_world).
  constructor; [intros [H | []]; discriminate H|].
  constructor; [intros [] | constructor].
Defined.

Lemma X20_missing_build_in_no_table :
  log_builds example_filter_incomplete
    [(mac_rel_77, STARTED); (Build_of_builder "linux-rel", MISSING)]
    empty_world
  = (Ok tt,
     {| bb_requests := []; trigger_calls := [];
        log := [info "No finished builds." [];
                info "Scheduled or started builds:" [];
                info "  %-20s %-7s %-9s %-6s"
                     ["BUILDER"; "NUMBER"; "STATUS"; "BUCKET"];
                info "  %-20s %-7s %-9s %-6s"
                     ["mac-rel"; "77"; "STARTED"; "try"]] |})
  /\ forall (k : Build) (st : TryJobStatus),
       In (k, st)
          [(mac_rel_77, STARTED); (Build_of_builder "linux-rel", MISSING)] ->
       status st = "MISSING" ->
       ~ In k (keys (finished_rows
                       [(mac_rel_77, STARTED);
                        (Build_of_builder "linux-rel", MISSING)]))
       /\ ~ In k (keys (pending_rows
                          [(mac_rel_77, STARTED);
                           (Build_of_builder "linux-rel", MISSING)])).
Proof.
  apply (X20_tables_split_builds_by_status example_filter_incomplete
           [(mac_rel_77, STARTED); (Build_of_builder "linux-rel", MISSING)]
           empty_world).
  constructor; [intros [H | []]; discriminate H|].
  constructor; [intros [] | constructor].
Defined.

(** A builder name longer than 20 characters widens the first column. *)
Lemma X21_long_builder_name :
  (exists rows,
      _log_build_statuses
        [(Build_of_builder "linux-rel", "TRIGGERED");
         (Build_of_builder "mac13-arm64-rel-with-a-suffix", "STARTED")]
        empty_world
      = (Ok tt,
         log_append empty_world
           (info ("  %-" ++ str_of_nat
                              (name_column_width
                                 [(Build_of_builder "linux-rel", "TRIGGERED");
                                  (Build_of_builder
                                     "mac13-arm64-rel-with-a-suffix",
                                   "STARTED")])
                  ++ "s %-7s %-9s %-6s")
                 ["BUILDER"; "NUMBER"; "STATUS"; "BUCKET"] :: rows))
      /\ List.length rows
         = List.length
             [(Build_of_builder "linux-rel", "TRIGGERED");
              (Build_of_builder "mac13-arm64-rel-with-a-suffix", "STARTED")]
      /\ Forall (fun row =>
                   msg row
                   = ("  %-" ++ str_of_nat
                                  (name_column_width
                                     [(Build_of_builder "linux-rel",
                                       "TRIGGERED");
                                      (Build_of_builder
                                         "mac13-arm64-rel-with-a-suffix",
                                       "STARTED")])
                      ++ "s %-7s %-9s %-6s")%string) rows)
  /\ (20 <= name_column_width
              [(Build_of_builder "linux-rel", "TRIGGERED");
               (Build_of_builder "mac13-arm64-rel-with-a-suffix", "STARTED")])%nat
  /\ (forall k,
        In k (keys [(Build_of_builder "linux-rel", "TRIGGERED");
                    (Build_of_builder "mac13-arm64-rel-with-a-suffix",
                     "STARTED")]) ->
        (String.length (builder_name k)
         <= name_column_width
              [(Build_of_builder "linux-rel", "TRIGGERED");
               (Build_of_builder "mac13-arm64-rel-with-a-suffix", "STARTED")])%nat)
  /\ (name_column_width
        [(Build_of_builder "linux-rel", "TRIGGERED");
         (Build_of_builder "mac13-arm64-rel-with-a-suffix", "STARTED")]
      = 20%nat
      \/ exists k,
           In k (keys [(Build_of_builder "linux-rel", "TRIGGERED");
                       (Build_of_builder "mac13-arm64-rel-with-a-suffix",
                        "STARTED")])
           /\ name_column_width
                [(Build_of_builder "linux-rel", "TRIGGERED");
                 (Build_of_builder "mac13-arm64-rel-with-a-suffix", "STARTED")]
              = String.length (builder_name k)).
Proof.
  apply (X21_name_column_fits_every_builder
           [(Build_of_builder "linux-rel", "TRIGGERED");
            (Build_of_builder "mac13-arm64-rel-with-a-suffix", "STARTED")]
           empty_world).
  discriminate.
Defined.

(** One try builder with a completed build 5, and build 7 asked for by
    number: the batch asks for 7, then for 5. *)
Lemma X22_batch_of_7_then_5 :
  collect_build_statuses example_from_bb_status example_ERROR_CODES
    example_pluralize example_CLRevisionID_str
    (example_resolver_with [(linux_rel_5, SUCCESS)]
       [raw_linux_rel "8001" 5] false)
    [Build_of_builder "linux-rel"; linux_rel 7] (Some 3%Z) empty_world
  = (Ok [(linux_rel_5, SUCCESS)],
     {| bb_requests := []; trigger_calls := [];
        log := [info "Fetching status for 1 build from https://crrev.com/c/5678/3." []] |}).
Proof.
  apply (X22_one_batch_explicit_then_completed_try_builds
           example_from_bb_status example_ERROR_CODES example_filter_incomplete
           example_pluralize example_CLRevisionID_str
           (example_resolver_with [(linux_rel_5, SUCCESS)]
              [raw_linux_rel "8001" 5] false)
           [Build_of_builder "linux-rel"; linux_rel 7] (Some 3%Z) empty_world
           [(linux_rel_5, SUCCESS)] (Build_of_builder "linux-rel")).
  - left. reflexivity.
  - reflexivity.
  - reflexivity.
  - reflexivity.
  - discriminate.
  - reflexivity.
  - reflexivity.
Defined.
